(** * EV Recharge Bunk: the client-side session, authorization and
      validation logic, embedded in Rocq

    Sources embedded here:
    - [AuthManager] (the authentication manager class): session store,
      authorization gate, redirect policy, password strength;
    - [FormValidator] (js/main.js): field validation against rule sets;
    - [authMethods.checkAdminRole] (config/firebase-config.js).

    JavaScript strings are sequences of UTF-16 code units.  The embedding
    covers the strings whose code units are below 256: a Rocq [ascii] stands
    for one code unit, so [String.length] is the JavaScript [length]. *)

From Stdlib Require Import String Ascii List ZArith Bool Lia.
From Stdlib Require Import DecimalString DecimalPos DecimalFacts DecimalZ.
From stdpp Require Import base strings gmap.
Import ListNotations.

(** ** The JavaScript fragment the sources use *)

Module JS.

(** *** Code units and strings *)

Definition code (c : ascii) : N := N_of_ascii c.

Definition in_range (lo hi c : ascii) : bool :=
  ((code lo <=? code c) && (code c <=? code hi))%N.

(** [\d] *)
Definition is_digit (c : ascii) : bool := in_range "0" "9" c.

(** [\s], and the characters [String.prototype.trim] strips: TAB, LF, VT,
    FF, CR, SPACE and NO-BREAK SPACE are the ones below 256. *)
Definition is_space (c : ascii) : bool :=
  existsb (N.eqb (code c)) [9; 10; 11; 12; 13; 32; 160]%N.

Definition chars (s : string) : list ascii := list_ascii_of_string s.

(** [s.includes(sub)] *)
Fixpoint includes (s sub : string) : bool :=
  String.prefix sub s ||
  match s with
  | EmptyString => false
  | String _ rest => includes rest sub
  end.

Fixpoint trim_start (s : string) : string :=
  match s with
  | String c rest => if is_space c then trim_start rest else s
  | EmptyString => EmptyString
  end.

Definition rev_string (s : string) : string :=
  string_of_list_ascii (rev (chars s)).

(** [s.trim()] *)
Definition trim (s : string) : string :=
  rev_string (trim_start (rev_string (trim_start s))).

(** [s.toUpperCase()], exact on ASCII; the callers pass the ASCII literals
    ['success'], ['error'], ['warning'] and ['info']. *)
Definition upper_char (c : ascii) : ascii :=
  if in_range "a" "z" c then ascii_of_N (code c - 32) else c.

Definition toUpperCase (s : string) : string :=
  string_of_list_ascii (map upper_char (chars s)).

(** *** Regular expressions

    The five patterns of the sources use character classes, sequencing, an
    optional item and the quantifiers [+] and [{10,}], with or without the
    anchors [^] and [$]. *)

Inductive citem : Type :=
| CChar (c : ascii)
| CRange (lo hi : ascii)
| CDigit
| CSpace.

Definition citem_mem (c : ascii) (i : citem) : bool :=
  match i with
  | CChar d => Ascii.eqb c d
  | CRange lo hi => in_range lo hi c
  | CDigit => is_digit c
  | CSpace => is_space c
  end.

Inductive regex : Type :=
| RVoid
| REps
| RSet (negated : bool) (items : list citem)
| RSeq (r1 r2 : regex)
| RAlt (r1 r2 : regex)
| RRep (atleast : nat) (r : regex).

(** [[...]] and [[^...]] *)
Definition set_mem (negated : bool) (items : list citem) (c : ascii) : bool :=
  xorb negated (existsb (citem_mem c) items).

Definition RAny : regex := RSet true [].
Definition RStar (r : regex) : regex := RRep 0 r.
Definition RPlus (r : regex) : regex := RRep 1 r.
Definition ROpt (r : regex) : regex := RAlt REps r.
Definition RChar (c : ascii) : regex := RSet false [CChar c].

Fixpoint nullable (r : regex) : bool :=
  match r with
  | RVoid => false
  | REps => true
  | RSet _ _ => false
  | RSeq r1 r2 => nullable r1 && nullable r2
  | RAlt r1 r2 => nullable r1 || nullable r2
  | RRep 0 _ => true
  | RRep (S _) r1 => nullable r1
  end.

(** Brzozowski derivative: the words [w] such that [c :: w] matches [r]. *)
Fixpoint deriv (c : ascii) (r : regex) : regex :=
  match r with
  | RVoid => RVoid
  | REps => RVoid
  | RSet neg items => if set_mem neg items c then REps else RVoid
  | RSeq r1 r2 =>
      if nullable r1
      then RAlt (RSeq (deriv c r1) r2) (deriv c r2)
      else RSeq (deriv c r1) r2
  | RAlt r1 r2 => RAlt (deriv c r1) (deriv c r2)
  | RRep n r1 => RSeq (deriv c r1) (RRep (pred n) r1)
  end.

Fixpoint matches (r : regex) (w : list ascii) : bool :=
  match w with
  | [] => nullable r
  | c :: w' => matches (deriv c r) w'
  end.

(** A RegExp literal: its body and whether it starts with [^] and ends
    with [$] (no flags: [$] is the end of the input). *)
Record RegExp : Type := mkRegExp {
  anchor_start : bool;
  body : regex;
  anchor_end : bool
}.

(** [re.test(s)]: some substring matches, at the anchored positions. *)
Definition test (re : RegExp) (s : string) : bool :=
  matches
    (RSeq (if anchor_start re then REps else RStar RAny)
       (RSeq (body re) (if anchor_end re then REps else RStar RAny)))
    (chars s).


(** *** Values

    The values that form fields, stored records and Firestore documents
    hold: the primitives [undefined], [null], booleans, numbers and
    strings, arrays and plain objects.  A number is an integer that a
    JavaScript number holds exactly, a safe integer ([safe]); there
    [ToString] is its decimal text.  Symbols and BigInts are no such
    values: statements over [prim] say nothing of them.  An object is the
    list of its own properties, in insertion order, with distinct keys. *)

Inductive prim : Type :=
| PUndefined
| PNull
| PBool (b : bool)
| PNum (n : Z)
| PStr (s : string).

#[warnings="-register-all"]
Inductive value : Type :=
| VPrim (p : prim)
| VArr (items : list value)
| VObj (props : list (string * value)).

Abbreviation VUndefined := (VPrim PUndefined).
Abbreviation VNull := (VPrim PNull).
Abbreviation VBool b := (VPrim (PBool b)).
Abbreviation VNum n := (VPrim (PNum n)).
Abbreviation VStr s := (VPrim (PStr s)).

(** [Number.MAX_SAFE_INTEGER] *)
Definition MAX_SAFE_INTEGER : Z := 9007199254740991.

(** A primitive whose number, if it is one, is a safe integer. *)
Definition safe (p : prim) : bool :=
  match p with
  | PNum n => (Z.abs n <=? MAX_SAFE_INTEGER)%Z
  | _ => true
  end.

(** Truthiness ([ToBoolean]). *)
Definition truthy_prim (p : prim) : bool :=
  match p with
  | PUndefined | PNull => false
  | PBool b => b
  | PNum n => negb (n =? 0)%Z
  | PStr s => negb (String.eqb s "")
  end.

Definition truthy (v : value) : bool :=
  match v with
  | VPrim p => truthy_prim p
  | VArr _ | VObj _ => true
  end.

(** [v === null] *)
Definition is_null (v : value) : bool :=
  match v with
  | VNull => true
  | _ => false
  end.

Fixpoint lookup_prop (k : string) (props : list (string * value)) : value :=
  match props with
  | [] => VUndefined
  | (k', v) :: rest => if String.eqb k k' then v else lookup_prop k rest
  end.

(** [v.k] for a data key [k]: the own property of an object, [undefined]
    on a missing key and on every other non-nullish value. *)
Definition get_field (v : value) (k : string) : value :=
  match v with
  | VObj props => lookup_prop k props
  | _ => VUndefined
  end.

(** [String(p)] of a primitive; of a number, the decimal text that a safe
    integer has. *)
Definition string_of_Z (n : Z) : string :=
  NilZero.string_of_int (Z.to_int n).

Definition ToString (p : prim) : string :=
  match p with
  | PUndefined => "undefined"
  | PNull => "null"
  | PBool true => "true"
  | PBool false => "false"
  | PNum n => string_of_Z n
  | PStr s => s
  end.

(** What [JSON.parse (JSON.stringify v)] is for a value [v]: a property
    whose value is [undefined] is left out, an [undefined] array item
    becomes [null]. *)
Fixpoint json_norm (v : value) : value :=
  match v with
  | VPrim p => VPrim p
  | VArr items =>
      VArr (map (fun x => match x with
                          | VUndefined => VNull
                          | _ => json_norm x
                          end) items)
  | VObj props =>
      VObj ((fix norm_props (ps : list (string * value)) :=
               match ps with
               | [] => []
               | (k, VUndefined) :: rest => norm_props rest
               | (k, x) :: rest => (k, json_norm x) :: norm_props rest
               end) props)
  end.

(** Completion of a computation that may throw. *)
Inductive exn : Type :=
| SecurityError
| QuotaExceededError
| SyntaxError
| TypeError
| FirebaseError (msg : string).

(** [error.message] *)
Definition exn_message (e : exn) : string :=
  match e with
  | SecurityError => "The operation is insecure."
  | QuotaExceededError => "The quota has been exceeded."
  | SyntaxError => "Unexpected token in JSON"
  | TypeError => "not a function"
  | FirebaseError msg => msg
  end.

Inductive outcome (A : Type) : Type :=
| Ret (a : A)
| Throw (e : exn).
Arguments Ret {A} a.
Arguments Throw {A} e.


(** [s.replace(/[...]/g, '')] for a character class: every code unit of
    the class is a match, and is dropped. *)
Definition remove_matching (negated : bool) (items : list citem) (s : string) : string :=
  string_of_list_ascii
    (List.filter (fun c => negb (set_mem negated items c)) (chars s)).

(** [items.includes(s)] for a string [s]: some item is that string
    (SameValueZero). *)
Definition is_string (s : string) (v : value) : bool :=
  match v with
  | VStr s' => String.eqb s' s
  | _ => false
  end.

Definition array_includes (items : list value) (s : string) : bool :=
  existsb (is_string s) items.

End JS.

(** ** The browser and the services a page runs against *)

Module Browser.
Import JS.

(** A Web Storage area.  [denied]: every access raises [SecurityError];
    [full]: [setItem] raises [QuotaExceededError]. *)
Record Storage : Type := mkStorage {
  items : gmap string string;
  denied : bool;
  full : bool
}.

Inductive tier : Type :=
| Durable    (* localStorage *)
| PerTab.    (* sessionStorage *)

(** The identity provider's user handle. *)
Record User : Type := mkUser {
  uid : string;
  email : prim;
  displayName : prim
}.

(** Firestore: the [adminUsers] collection, a document being the list of
    its fields; [outage]: [getDoc] rejects with an error of that message. *)
Record Firestore : Type := mkFirestore {
  adminUsers : gmap string (list (string * value));
  outage : option string
}.

Inductive channel : Type :=
| ConsoleLog
| ConsoleError.

(** The state a handler runs in: the fields of the AuthManager instance
    ([currentUser], [isAdmin]) and the window around it. *)
Record World : Type := mkWorld {
  currentUser : option User;
  isAdmin : bool;
  localStorage : Storage;
  sessionStorage : Storage;
  pathname : string;                     (* window.location.pathname *)
  href : list string;                    (* assignments to window.location.href, oldest first *)
  evApp : bool;                          (* window.evApp.showNotification is there *)
  shown : list (string * string * Z);    (* calls of window.evApp.showNotification *)
  console : list (channel * string);     (* first argument of each console call *)
  firestore : Firestore;
  clock : Z                              (* Date.now() *)
}.

Definition set_currentUser (u : option User) (w : World) : World :=
  mkWorld u (isAdmin w) (localStorage w) (sessionStorage w) (pathname w)
    (href w) (evApp w) (shown w) (console w) (firestore w) (clock w).

Definition set_isAdmin (b : bool) (w : World) : World :=
  mkWorld (currentUser w) b (localStorage w) (sessionStorage w) (pathname w)
    (href w) (evApp w) (shown w) (console w) (firestore w) (clock w).

Definition set_localStorage (s : Storage) (w : World) : World :=
  mkWorld (currentUser w) (isAdmin w) s (sessionStorage w) (pathname w)
    (href w) (evApp w) (shown w) (console w) (firestore w) (clock w).

Definition set_sessionStorage (s : Storage) (w : World) : World :=
  mkWorld (currentUser w) (isAdmin w) (localStorage w) s (pathname w)
    (href w) (evApp w) (shown w) (console w) (firestore w) (clock w).

Definition set_href (h : list string) (w : World) : World :=
  mkWorld (currentUser w) (isAdmin w) (localStorage w) (sessionStorage w)
    (pathname w) h (evApp w) (shown w) (console w) (firestore w) (clock w).

Definition set_shown (n : list (string * string * Z)) (w : World) : World :=
  mkWorld (currentUser w) (isAdmin w) (localStorage w) (sessionStorage w)
    (pathname w) (href w) (evApp w) n (console w) (firestore w) (clock w).

Definition set_console (c : list (channel * string)) (w : World) : World :=
  mkWorld (currentUser w) (isAdmin w) (localStorage w) (sessionStorage w)
    (pathname w) (href w) (evApp w) (shown w) c (firestore w) (clock w).

Definition storage (t : tier) (w : World) : Storage :=
  match t with
  | Durable => localStorage w
  | PerTab => sessionStorage w
  end.

Definition set_storage (t : tier) (s : Storage) (w : World) : World :=
  match t with
  | Durable => set_localStorage s w
  | PerTab => set_sessionStorage s w
  end.

(** Handlers: state passing, with the effects of a computation that
    throws kept, as they are in JavaScript. *)
Definition M (A : Type) : Type := World -> outcome A * World.

#[export] Instance M_ret : MRet M := fun A a w => (Ret a, w).

#[export] Instance M_bind : MBind M := fun A B f m w =>
  match m w with
  | (Ret a, w') => f a w'
  | (Throw e, w') => (Throw e, w')
  end.

Definition throw {A : Type} (e : exn) : M A := fun w => (Throw e, w).

(** [try { body } catch (error) { handler }] *)
Definition try_catch {A : Type} (body : M A) (handler : exn -> M A) : M A :=
  fun w =>
    match body w with
    | (Ret a, w') => (Ret a, w')
    | (Throw e, w') => handler e w'
    end.

Definition gets {A : Type} (f : World -> A) : M A := fun w => (Ret (f w), w).
Definition modify (f : World -> World) : M unit := fun w => (Ret tt, f w).

(** [storage.getItem(key)]: the stored string, or [null]. *)
Definition getItem (t : tier) (key : string) : M (option string) :=
  st ← gets (storage t);
  if denied st then throw SecurityError else mret (items st !! key).

(** [storage.setItem(key, value)] *)
Definition setItem (t : tier) (key val : string) : M unit :=
  st ← gets (storage t);
  if denied st then throw SecurityError
  else if full st then throw QuotaExceededError
  else modify (set_storage t (mkStorage (<[key := val]> (items st)) (denied st) (full st))).

(** [storage.removeItem(key)] *)
Definition removeItem (t : tier) (key : string) : M unit :=
  st ← gets (storage t);
  if denied st then throw SecurityError
  else modify (set_storage t (mkStorage (delete key (items st)) (denied st) (full st))).

(** [window.location.href = url] *)
Definition navigate (url : string) : M unit :=
  modify (fun w => set_href (href w ++ [url]) w).

Definition console_log (text : string) : M unit :=
  modify (fun w => set_console (console w ++ [(ConsoleLog, text)]) w).

Definition console_error (text : string) : M unit :=
  modify (fun w => set_console (console w ++ [(ConsoleError, text)]) w).

(** [await getDoc(doc(firestore, 'adminUsers', id))]: the snapshot, [None]
    when [docSnap.exists()] is false, else [docSnap.data()]. *)
Definition getDoc_adminUsers (id : string) : M (option (list (string * value))) :=
  fs ← gets firestore;
  match outage fs with
  | Some msg => throw (FirebaseError msg)
  | None => mret (adminUsers fs !! id)
  end.

(** [a || b] on the results of [getItem]. *)
Definition truthy_item (o : option string) : bool :=
  match o with
  | Some s => negb (String.eqb s "")
  | None => false
  end.

End Browser.

(** ** config/firebase-config.js: the role lookup *)

Module FirebaseConfig.
Import JS Browser.

(** The object [checkAdminRole] resolves to; a key it does not set reads
    as [undefined]. *)
Record AdminCheck : Type := mkAdminCheck {
  ac_isAdmin : bool;
  ac_role : value;
  ac_permissions : value;
  ac_error : value
}.

Definition checkAdminRole (userId : string) : M AdminCheck :=
  try_catch
    (docSnap ← getDoc_adminUsers userId;
     match docSnap with
     | Some fields =>
         let adminData := VObj fields in
         mret {| ac_isAdmin := true;
                 ac_role := get_field adminData "role";
                 ac_permissions := get_field adminData "permissions";
                 ac_error := VUndefined |}
     | None =>
         mret {| ac_isAdmin := false;
                 ac_role := VUndefined;
                 ac_permissions := VUndefined;
                 ac_error := VUndefined |}
     end)
    (fun error =>
       console_error "Admin check error:";;
       mret {| ac_isAdmin := false;
               ac_role := VUndefined;
               ac_permissions := VUndefined;
               ac_error := VStr (exn_message error) |}).

End FirebaseConfig.

(** ** The authentication manager *)

Module AuthManager.
Import JS Browser FirebaseConfig.

Definition SESSION_KEY : string := "ev_bunk_session".
Definition DESTINATION_KEY : string := "ev_bunk_intended_destination".

(** The logger: its message line; the data argument is not recorded. *)
Definition logger_info (message : string) : M unit :=
  console_log ("[AuthManager] INFO: " +:+ message).

Definition logger_error (message : string) : M unit :=
  console_error ("[AuthManager] ERROR: " +:+ message).

(** [showNotification(message, type, duration)]; callers leave [duration]
    at its default, 5000. *)
Definition showNotification (message type : string) (duration : Z) : M unit :=
  app ← gets evApp;
  if app : bool
  then modify (fun w => set_shown (shown w ++ [(message, type, duration)]) w)
  else console_log ("[" +:+ toUpperCase type +:+ "] " +:+ message).

Section Session.

(** The platform's JSON: [JSON_parse s] is [None] when [JSON.parse(s)]
    throws a SyntaxError. *)
Variable JSON_parse : string -> option value.
Variable JSON_stringify : value -> string.

Definition sessionData (user : User) (adminCheck : AdminCheck) (now : Z) : value :=
  VObj [ ("userId", VStr (uid user));
         ("email", VPrim (email user));
         ("displayName", VPrim (displayName user));
         ("isAdmin", VBool (ac_isAdmin adminCheck));
         ("role", ac_role adminCheck);
         ("permissions", if truthy (ac_permissions adminCheck)
                         then ac_permissions adminCheck
                         else VArr []);
         ("loginTime", VNum now) ].

Definition storeUserSession (user : User) (adminCheck : AdminCheck) : M unit :=
  now ← gets clock;
  setItem Durable SESSION_KEY (JSON_stringify (sessionData user adminCheck now)).

Definition clearUserSession : M unit :=
  removeItem Durable SESSION_KEY;;
  removeItem PerTab SESSION_KEY.

(** [localStorage.getItem(key) || sessionStorage.getItem(key)], then
    [session ? JSON.parse(session) : null], inside a [try]; returns the
    parsed record, or [null]. *)
Definition getStoredSession : M value :=
  try_catch
    (fromLocal ← getItem Durable SESSION_KEY;
     session ← (if truthy_item fromLocal then mret fromLocal
                 else getItem PerTab SESSION_KEY);
     match session with
     | Some text =>
         if truthy_item session
         then match JSON_parse text with
              | Some v => mret v
              | None => throw SyntaxError
              end
         else mret VNull
     | None => mret VNull
     end)
    (fun error =>
       logger_error "Error retrieving session";;
       mret VNull).

Definition isAuthenticated : M bool :=
  user ← gets currentUser;
  match user with
  | Some _ => mret true
  | None => session ← getStoredSession; mret (negb (is_null session))
  end.

Definition redirectAfterLogin : M unit :=
  currentPage ← gets pathname;
  session ← getStoredSession;
  if truthy session && truthy (get_field session "isAdmin")
  then
    if includes currentPage "admin-login" || includes currentPage "user-login"
    then navigate "admin-dashboard.html"
    else mret tt
  else
    if includes currentPage "admin-login"
    then showNotification "Please use user login" "warning" 5000;;
         navigate "user-login.html"
    else if includes currentPage "admin-dashboard"
    then showNotification "Admin access required" "error" 5000;;
         navigate "user-login.html"
    else mret tt.

(** An [async] handler: its one [await], on the role lookup, is run
    through with no other handler in between. *)
Definition handleUserLogin (user : User) : M unit :=
  try_catch
    (modify (set_currentUser (Some user));;
     adminCheck ← checkAdminRole (uid user);
     modify (set_isAdmin (ac_isAdmin adminCheck));;
     storeUserSession user adminCheck;;
     logger_info "User authenticated";;
     showNotification "Authentication successful!" "success" 5000;;
     redirectAfterLogin)
    (fun error =>
       logger_error "Login handler error";;
       showNotification "Authentication failed" "error" 5000).

Definition handleUserLogout : M unit :=
  modify (set_currentUser None);;
  modify (set_isAdmin false);;
  clearUserSession;;
  logger_info "User logged out";;
  currentPage ← gets pathname;
  if includes currentPage "admin"
  then navigate "admin-login.html"
  else navigate "user-login.html".

(** [role] defaults to ['user']. *)
Definition redirectToLogin (role : string) : M unit :=
  let loginPage := if String.eqb role "admin" then "admin-login.html"
                   else "user-login.html" in
  currentPage ← gets pathname;
  setItem PerTab DESTINATION_KEY currentPage;;
  navigate loginPage.

Definition getIntendedDestination : M string :=
  stored ← getItem PerTab DESTINATION_KEY;
  match stored with
  | Some dest => if truthy_item stored then mret dest else mret "index.html"
  | None => mret "index.html"
  end.

(** [requiredRole] defaults to ['user']. *)
Definition validateAuth (requiredRole : string) : M bool :=
  session ← getStoredSession;
  authenticated ← isAuthenticated;
  if negb authenticated || negb (truthy session)
  then redirectToLogin requiredRole;; mret false
  else if String.eqb requiredRole "admin" && negb (truthy (get_field session "isAdmin"))
  then showNotification "Admin access required" "error" 5000;;
       redirectToLogin "admin";;
       mret false
  else mret true.

(** [session.permissions.includes(permission)]: an array is searched for
    the string, a string for the substring; any other truthy value has no
    [includes] to call. *)
Definition hasPermission (permission : string) : M bool :=
  session ← getStoredSession;
  if negb (truthy session) || negb (truthy (get_field session "permissions"))
  then mret false
  else match get_field session "permissions" with
       | VArr items => mret (array_includes items permission)
       | VStr s => mret (includes s permission)
       | _ => throw TypeError
       end.

End Session.

(** *** Password strength *)

Record Requirements : Type := mkRequirements {
  minLength : bool;
  hasUppercase : bool;
  hasLowercase : bool;
  hasNumbers : bool;
  hasSpecialChar : bool
}.

(** [Object.values(requirements)], in the order the keys were written. *)
Definition Object_values (r : Requirements) : list bool :=
  [minLength r; hasUppercase r; hasLowercase r; hasNumbers r; hasSpecialChar r].

(** [Boolean] as a filter predicate, on flags. *)
Definition Boolean (b : bool) : bool := b.

(** The inner object [getPasswordFeedback] returns. *)
Record Feedback : Type := mkFeedback {
  level : string;
  message : string;
  missing : list string   (* its [feedback] array *)
}.

Record StrengthResult : Type := mkStrengthResult {
  requirements : Requirements;
  strength : nat;
  isStrong : bool;
  feedback : Feedback
}.

(** [/[A-Z]/], [/[a-z]/], [/\d/] and the special-character class. *)
Definition re_uppercase : RegExp := mkRegExp false (RSet false [CRange "A" "Z"]) false.
Definition re_lowercase : RegExp := mkRegExp false (RSet false [CRange "a" "z"]) false.
Definition re_numbers : RegExp := mkRegExp false (RSet false [CDigit]) false.
Definition special_chars : list ascii :=
  chars "!@#$%^&*()_+-=[]{};':" ++ ["034"%char] ++ chars "\|,.<>/?".
Definition re_special : RegExp :=
  mkRegExp false (RSet false (map CChar special_chars)) false.

Definition push_unless (met : bool) (msg : string) (fb : list string) : list string :=
  if met then fb else fb ++ [msg].

Definition getPasswordFeedback (strength : nat) (requirements : Requirements) : Feedback :=
  let feedback := [] in
  let feedback := push_unless (minLength requirements) "At least 8 characters" feedback in
  let feedback := push_unless (hasUppercase requirements) "One uppercase letter" feedback in
  let feedback := push_unless (hasLowercase requirements) "One lowercase letter" feedback in
  let feedback := push_unless (hasNumbers requirements) "One number" feedback in
  let feedback := push_unless (hasSpecialChar requirements) "One special character" feedback in
  if strength <? 2 then mkFeedback "weak" "Password is too weak" feedback
  else if strength <? 4 then mkFeedback "medium" "Password is okay" feedback
  else if strength <? 5 then mkFeedback "strong" "Password is strong" feedback
  else mkFeedback "very-strong" "Password is very strong" feedback.

Definition validatePasswordStrength (password : string) : StrengthResult :=
  let requirements := {|
    minLength := 8 <=? String.length password;
    hasUppercase := test re_uppercase password;
    hasLowercase := test re_lowercase password;
    hasNumbers := test re_numbers password;
    hasSpecialChar := test re_special password
  |} in
  let strength := length (List.filter Boolean (Object_values requirements)) in
  {| requirements := requirements;
     strength := strength;
     isStrong := 4 <=? strength;
     feedback := getPasswordFeedback strength requirements |}.

End AuthManager.

(** ** js/main.js: the form validator *)

Module FormValidator.
Import JS.

(** A rule set; a key the rule set does not define reads as [undefined]. *)
Record Rule : Type := mkRule {
  required : prim;
  pattern : option RegExp;
  minLength : option Z;
  message : string
}.

(** [/^[^\s@]+@[^\s@]+\.[^\s@]+$/] *)
Definition not_space_or_at : regex := RSet true [CSpace; CChar "@"].
Definition email_pattern : RegExp :=
  mkRegExp true
    (RSeq (RPlus not_space_or_at)
       (RSeq (RChar "@")
          (RSeq (RPlus not_space_or_at)
             (RSeq (RChar ".") (RPlus not_space_or_at)))))
    true.

(** [/^\+?[\d\s\-\(\)]{10,}$/] *)
Definition phone_pattern : RegExp :=
  mkRegExp true
    (RSeq (ROpt (RChar "+"))
       (RRep 10 (RSet false [CDigit; CSpace; CChar "-"; CChar "("; CChar ")"])))
    true.

Definition email_rule : Rule :=
  mkRule PUndefined (Some email_pattern) None "Please enter a valid email address".
Definition phone_rule : Rule :=
  mkRule PUndefined (Some phone_pattern) None "Please enter a valid phone number".
Definition password_rule : Rule :=
  mkRule PUndefined None (Some 6%Z) "Password must be at least 6 characters long".

(** [this.rules[type]], [None] where the code takes the [!rule] exit.  (A
    [type] naming a member of [Object.prototype] finds a truthy object with
    none of [required], [pattern], [minLength], and ends in the same
    [{ isValid: true }].) *)
Definition rules (type : string) : option Rule :=
  if String.eqb type "email" then Some email_rule
  else if String.eqb type "phone" then Some phone_rule
  else if String.eqb type "password" then Some password_rule
  else None.

Record ValidationResult : Type := mkResult {
  isValid : bool;
  result_message : option string
}.

(** [!value || value.trim() === ''] *)
Definition is_blank (value : prim) : outcome bool :=
  if negb (truthy_prim value) then Ret true
  else match value with
       | PStr s => Ret (String.eqb (trim s) "")
       | _ => Throw TypeError
       end.

(** [rule.pattern && !rule.pattern.test(value)] *)
Definition pattern_fails (rule : Rule) (value : prim) : bool :=
  match pattern rule with
  | Some re => negb (test re (ToString value))
  | None => false
  end.

(** [rule.minLength && value.length < rule.minLength] *)
Definition too_short (rule : Rule) (value : prim) : bool :=
  match minLength rule with
  | Some n =>
      negb (n =? 0)%Z &&
      match value with
      | PStr s => (Z.of_nat (String.length s) <? n)%Z
      | _ => false
      end
  | None => false
  end.

Definition validate_rule (rule : Rule) (field : string) (value : prim)
  : outcome ValidationResult :=
  match (if truthy_prim (required rule) then is_blank value else Ret false) with
  | Throw e => Throw e
  | Ret true => Ret (mkResult false (Some (field +:+ " is required")))
  | Ret false =>
      if truthy_prim value && pattern_fails rule value
      then Ret (mkResult false (Some (message rule)))
      else if truthy_prim value && too_short rule value
      then Ret (mkResult false (Some (message rule)))
      else Ret (mkResult true None)
  end.

Definition validate (field : string) (value : prim) (type : string)
  : outcome ValidationResult :=
  match rules type with
  | None => Ret (mkResult true None)
  | Some rule => validate_rule rule field value
  end.

End FormValidator.

(** ** js/main.js: the local storage utility *)

Module StorageManager.
Import JS Browser.

Section Json.

(** The platform's JSON.  [JSON_stringify v] is [None] when
    [JSON.stringify] throws its TypeError (a cyclic structure, a BigInt
    inside); the text for [undefined] stands for the one
    [localStorage.setItem] stores for it. *)
Variable JSON_parse : string -> option value.
Variable JSON_stringify : value -> option string.

Definition setItem (key : string) (value : value) : M bool :=
  try_catch
    (match JSON_stringify value with
     | Some text => Browser.setItem Durable key text
     | None => throw TypeError
     end;;
     mret true)
    (fun error =>
       console_error "Failed to save to localStorage:";;
       mret false).

Definition getItem (key : string) : M value :=
  try_catch
    (item ← Browser.getItem Durable key;
     match item with
     | Some text =>
         if truthy_item item
         then match JSON_parse text with
              | Some v => mret v
              | None => throw SyntaxError
              end
         else mret VNull
     | None => mret VNull
     end)
    (fun error =>
       console_error "Failed to read from localStorage:";;
       mret VNull).

Definition removeItem (key : string) : M bool :=
  try_catch
    (Browser.removeItem Durable key;;
     mret true)
    (fun error =>
       console_error "Failed to remove from localStorage:";;
       mret false).

(** [localStorage.clear()] *)
Definition localStorage_clear : M unit :=
  st ← gets localStorage;
  if denied st then throw SecurityError
  else modify (set_localStorage (mkStorage ∅ (denied st) (full st))).

Definition clear : M bool :=
  try_catch
    (localStorage_clear;;
     mret true)
    (fun error =>
       console_error "Failed to clear localStorage:";;
       mret false).

End Json.

End StorageManager.

(** ** js/main.js: the application's form checks *)

Module EVRechargeApp.
Import JS.

(** A validation rule; a key the rule does not define reads as
    [undefined]. *)
Record Rule : Type := mkRule {
  required : prim;
  label : string;
  pattern : option RegExp;
  message : option string;
  minLength : option Z
}.

(** The names [Object.prototype] defines: under such a name a plain object
    without an own property of that name reads the inherited member. *)
Definition Object_prototype_names : list string :=
  [ "constructor"; "__proto__"; "hasOwnProperty"; "isPrototypeOf";
    "propertyIsEnumerable"; "toLocaleString"; "toString"; "valueOf";
    "__defineGetter__"; "__defineSetter__"; "__lookupGetter__";
    "__lookupSetter__" ].

(** [formData[field]] reads an own property or nothing: [field] is an own
    key of the form data, or no member of [Object.prototype] has the
    name. *)
Definition own_or_missing (formData : list (string * prim)) (field : string) : bool :=
  existsb (String.eqb field) (map fst formData)
  || negb (existsb (String.eqb field) Object_prototype_names).

(** [formData[field]], for form data whose values are primitives and a
    [field] that is [own_or_missing]: the own property, or [undefined].
    Under the name of an inherited member the code reads a function, which
    is no value of [prim]. *)
Fixpoint form_value (formData : list (string * prim)) (field : string) : prim :=
  match formData with
  | [] => PUndefined
  | (k, v) :: rest => if String.eqb field k then v else form_value rest field
  end.

(** [rule.message || `${rule.label} format is invalid`] *)
Definition format_message (rule : Rule) : string :=
  match message rule with
  | Some m => if String.eqb m "" then label rule +:+ " format is invalid" else m
  | None => label rule +:+ " format is invalid"
  end.

(** [value && rule.pattern && !rule.pattern.test(value)] *)
Definition pattern_fails (rule : Rule) (value : prim) : bool :=
  truthy_prim value &&
  match pattern rule with
  | Some re => negb (test re (ToString value))
  | None => false
  end.

(** [value && rule.minLength && value.length < rule.minLength] *)
Definition too_short (rule : Rule) (value : prim) : bool :=
  truthy_prim value &&
  match minLength rule with
  | Some n =>
      negb (n =? 0)%Z &&
      match value with
      | PStr s => (Z.of_nat (String.length s) <? n)%Z
      | _ => false
      end
  | None => false
  end.

(** One turn of the loop: the errors it pushes. *)
Definition check_field (rule : Rule) (value : prim) : outcome (list string) :=
  match (if truthy_prim (required rule) then FormValidator.is_blank value
         else Ret false) with
  | Throw e => Throw e
  | Ret true => Ret [label rule +:+ " is required"]
  | Ret false =>
      Ret ((if pattern_fails rule value then [format_message rule] else [])
           ++ (if too_short rule value
               then [label rule +:+ " must be at least "
                       +:+ string_of_Z (match minLength rule with
                                        | Some n => n
                                        | None => 0%Z
                                        end)
                       +:+ " characters"]
               else []))
  end.

(** [for (const field in validationRules)], the rules in enumeration
    order. *)
Fixpoint validateForm_loop (formData : list (string * prim))
    (validationRules : list (string * Rule)) (errors : list string)
  : outcome (list string) :=
  match validationRules with
  | [] => Ret errors
  | (field, rule) :: rest =>
      match check_field rule (form_value formData field) with
      | Throw e => Throw e
      | Ret pushed => validateForm_loop formData rest (errors ++ pushed)
      end
  end.

Record FormResult : Type := mkFormResult {
  isValid : bool;
  errors : list string
}.

Definition validateForm (formData : list (string * prim))
    (validationRules : list (string * Rule)) : outcome FormResult :=
  match validateForm_loop formData validationRules [] with
  | Throw e => Throw e
  | Ret errors => Ret (mkFormResult (Nat.eqb (length errors) 0) errors)
  end.

(** [input.replace(/[<>]/g, '').trim()]; a value that is no string is
    returned as it is. *)
Definition sanitizeInput (input : prim) : prim :=
  match input with
  | PStr s => PStr (trim (remove_matching false [CChar "<"; CChar ">"] s))
  | _ => input
  end.

End EVRechargeApp.

(** ** js/auth/user-auth.js: the login and registration forms *)

Module UserAuthentication.
Import JS Browser.

(** An entry of the error list: the id of the error element and the
    message. *)
Definition FieldError : Type := (string * option string)%type.

Record FormValidation : Type := mkFormValidation {
  isValid : bool;
  errors : list FieldError
}.

(** What the login form submits. *)
Record LoginData : Type := mkLoginData {
  login_email : prim;
  login_password : prim
}.

(** What the registration form submits. *)
Record RegistrationData : Type := mkRegistrationData {
  firstName : prim;
  lastName : prim;
  email : prim;
  phone : prim;
  password : prim;
  confirmPassword : prim;
  vehicleType : prim;
  termsAccepted : prim;
  newsletter : prim
}.

(** [!password || password.length < n] *)
Definition password_too_short (n : Z) (password : prim) : bool :=
  negb (truthy_prim password) ||
  match password with
  | PStr s => (Z.of_nat (String.length s) <? n)%Z
  | _ => false
  end.

Definition push_if (cond : bool) (e : FieldError) (errors : list FieldError)
  : list FieldError :=
  if cond then errors ++ [e] else errors.

Definition validateLoginForm (userData : LoginData) : outcome FormValidation :=
  let errors := [] in
  match FormValidator.validate "Email" (login_email userData) "email" with
  | Throw e => Throw e
  | Ret emailValidation =>
      let errors :=
        push_if (negb (FormValidator.isValid emailValidation))
          ("emailError", FormValidator.result_message emailValidation) errors in
      let errors :=
        push_if (password_too_short 6 (login_password userData))
          ("passwordError", Some "Password must be at least 6 characters") errors in
      Ret (mkFormValidation (Nat.eqb (length errors) 0) errors)
  end.

(** [requiredFields.forEach(...)]: name, value and error element of each
    required field, in order. *)
Definition requiredFields (userData : RegistrationData)
  : list (string * prim * string) :=
  [ ("First Name", firstName userData, "firstNameError");
    ("Last Name", lastName userData, "lastNameError");
    ("Email", email userData, "emailError");
    ("Phone", phone userData, "phoneError");
    ("Vehicle Type", vehicleType userData, "vehicleTypeError") ].

Fixpoint check_required (fields : list (string * prim * string))
    (errors : list FieldError) : outcome (list FieldError) :=
  match fields with
  | [] => Ret errors
  | (name, value, field) :: rest =>
      match FormValidator.is_blank value with
      | Throw e => Throw e
      | Ret blank =>
          check_required rest
            (push_if blank (field, Some (name +:+ " is required")) errors)
      end
  end.

Definition validateRegistrationForm (userData : RegistrationData)
  : outcome FormValidation :=
  match check_required (requiredFields userData) [] with
  | Throw e => Throw e
  | Ret errors =>
  match FormValidator.validate "Email" (email userData) "email" with
  | Throw e => Throw e
  | Ret emailValidation =>
      let errors :=
        push_if (negb (FormValidator.isValid emailValidation))
          ("emailError", FormValidator.result_message emailValidation) errors in
  match FormValidator.validate "Phone" (phone userData) "phone" with
  | Throw e => Throw e
  | Ret phoneValidation =>
      let errors :=
        push_if (negb (FormValidator.isValid phoneValidation))
          ("phoneError", FormValidator.result_message phoneValidation) errors in
      let errors :=
        push_if (password_too_short 8 (password userData))
          ("passwordError", Some "Password must be at least 8 characters") errors in
      let errors :=
        push_if (negb (truthy_prim (termsAccepted userData)))
          ("termsError", Some "You must accept the terms and conditions") errors in
      Ret (mkFormValidation (Nat.eqb (length errors) 0) errors)
  end end end.

Section Page.

Variable JSON_parse : string -> option value.

(** Sends a signed-in user who is no admin away from the login and
    registration pages. *)
Definition checkAuthStatus : M unit :=
  authenticated ← AuthManager.isAuthenticated JSON_parse;
  if authenticated : bool
  then
    session ← AuthManager.getStoredSession JSON_parse;
    if truthy session && negb (truthy (get_field session "isAdmin"))
    then
      currentPage ← gets pathname;
      if includes currentPage "login" || includes currentPage "register"
      then navigate "user-dashboard.html"
      else mret tt
    else mret tt
  else mret tt.

End Page.

End UserAuthentication.

(** ** js/test-cases.js: the helpers of the test suite *)

Module EVRechargeTestSuite.
Import JS.

(** [validateFormData]: the required check of every rule, in enumeration
    order. *)
Fixpoint validateFormData_loop (formData : list (string * prim))
    (rules : list (string * EVRechargeApp.Rule)) (errors : list string)
  : outcome (list string) :=
  match rules with
  | [] => Ret errors
  | (field, rule) :: rest =>
      match (if truthy_prim (EVRechargeApp.required rule)
             then FormValidator.is_blank (EVRechargeApp.form_value formData field)
             else Ret false) with
      | Throw e => Throw e
      | Ret true =>
          validateFormData_loop formData rest
            (errors ++ [EVRechargeApp.label rule +:+ " is required"])
      | Ret false => validateFormData_loop formData rest errors
      end
  end.

Definition validateFormData (formData : list (string * prim))
    (rules : list (string * EVRechargeApp.Rule)) : outcome EVRechargeApp.FormResult :=
  match validateFormData_loop formData rules [] with
  | Throw e => Throw e
  | Ret errors => Ret (EVRechargeApp.mkFormResult (Nat.eqb (length errors) 0) errors)
  end.

Definition requiredFields : list string :=
  ["firstName"; "lastName"; "email"; "phone"; "vehicleType"].

Definition emailRegex : RegExp :=
  mkRegExp true
    (RSeq (RPlus (RSet true [CSpace; CChar "@"]))
       (RSeq (RChar "@")
          (RSeq (RPlus (RSet true [CSpace; CChar "@"]))
             (RSeq (RChar ".") (RPlus (RSet true [CSpace; CChar "@"]))))))
    true.

Definition phoneRegex : RegExp :=
  mkRegExp true
    (RSeq (ROpt (RChar "+"))
       (RRep 10 (RSet false [CDigit; CSpace; CChar "-"; CChar "("; CChar ")"])))
    true.

(** [for (const field of requiredFields)]: [Ret false] stands for the
    early [return false]. *)
Fixpoint check_required (profile : list (string * prim)) (fields : list string)
  : outcome bool :=
  match fields with
  | [] => Ret true
  | field :: rest =>
      match FormValidator.is_blank (EVRechargeApp.form_value profile field) with
      | Throw e => Throw e
      | Ret true => Ret false
      | Ret false => check_required profile rest
      end
  end.

Definition validateUserProfile (profile : list (string * prim)) : outcome bool :=
  match check_required profile requiredFields with
  | Throw e => Throw e
  | Ret false => Ret false
  | Ret true =>
      if negb (test emailRegex (ToString (EVRechargeApp.form_value profile "email")))
      then Ret false
      else if negb (test phoneRegex (ToString (EVRechargeApp.form_value profile "phone")))
      then Ret false
      else Ret true
  end.

End EVRechargeTestSuite.

(** ** A JSON codec

    An executable instance of the platform's [JSON.stringify] and
    [JSON.parse] on the values above: integer number literals, strings with
    the escapes of the JSON grammar, arrays and objects.  It serves to run
    the handlers on concrete storage contents. *)

Module Json.
Import JS.

Definition quote : ascii := "034".
Definition backslash : ascii := "092".

Definition hex_digit (n : N) : ascii :=
  if (n <? 10)%N then ascii_of_N (48 + n) else ascii_of_N (87 + n).

(** The escape of one code unit inside a string literal. *)
Definition escape (c : ascii) : list ascii :=
  if Ascii.eqb c quote then [backslash; quote]
  else if Ascii.eqb c backslash then [backslash; backslash]
  else if (code c =? 8)%N then [backslash; "b"%char]
  else if (code c =? 9)%N then [backslash; "t"%char]
  else if (code c =? 10)%N then [backslash; "n"%char]
  else if (code c =? 12)%N then [backslash; "f"%char]
  else if (code c =? 13)%N then [backslash; "r"%char]
  else if (code c <? 32)%N
       then [backslash; "u"%char; "0"%char; "0"%char;
             hex_digit (code c / 16); hex_digit (code c mod 16)]
  else [c].

Definition quoted (s : string) : list ascii :=
  quote :: flat_map escape (chars s) ++ [quote].

Definition stringify_prim (p : prim) : list ascii :=
  match p with
  | PStr s => quoted s
  | _ => chars (ToString p)
  end.

Fixpoint join (sep : ascii) (parts : list (list ascii)) : list ascii :=
  match parts with
  | [] => []
  | [x] => x
  | x :: rest => x ++ sep :: join sep rest
  end.

Fixpoint stringify_chars (v : value) : list ascii :=
  match v with
  | VPrim p => stringify_prim p
  | VArr items =>
      "["%char ::
      join ","
        (map (fun x => match x with
                       | VUndefined => chars "null"
                       | _ => stringify_chars x
                       end) items)
      ++ ["]"%char]
  | VObj props =>
      "{"%char ::
      join ","
        ((fix members (ps : list (string * value)) :=
            match ps with
            | [] => []
            | (k, VUndefined) :: rest => members rest
            | (k, x) :: rest =>
                (quoted k ++ ":"%char :: stringify_chars x) :: members rest
            end) props)
      ++ ["}"%char]
  end.

Definition stringify (v : value) : string :=
  string_of_list_ascii (stringify_chars v).

(** The parser. *)

Definition is_ws (c : ascii) : bool :=
  existsb (N.eqb (code c)) [32; 9; 10; 13]%N.

Fixpoint skip_ws (s : list ascii) : list ascii :=
  match s with
  | c :: rest => if is_ws c then skip_ws rest else s
  | [] => []
  end.

Fixpoint strip_prefix (p s : list ascii) : option (list ascii) :=
  match p, s with
  | [], _ => Some s
  | a :: p', b :: s' => if Ascii.eqb a b then strip_prefix p' s' else None
  | _ :: _, [] => None
  end.

Definition hex_value (c : ascii) : option N :=
  if is_digit c then Some (code c - 48)%N
  else if in_range "a" "f" c then Some (code c - 87)%N
  else if in_range "A" "F" c then Some (code c - 55)%N
  else None.

(** The characters after the opening quote, up to the closing one. *)
Fixpoint parse_string (s : list ascii) : option (list ascii * list ascii) :=
  let cons_to c r :=
    match r with
    | Some (str, rest) => Some (c :: str, rest)
    | None => None
    end in
  match s with
  | [] => None
  | c :: rest =>
      if Ascii.eqb c quote then Some ([], rest)
      else if Ascii.eqb c backslash then
        match rest with
        | e :: rest' =>
            if Ascii.eqb e quote then cons_to quote (parse_string rest')
            else if Ascii.eqb e backslash then cons_to backslash (parse_string rest')
            else if Ascii.eqb e "/" then cons_to "/"%char (parse_string rest')
            else if Ascii.eqb e "b" then cons_to "008"%char (parse_string rest')
            else if Ascii.eqb e "t" then cons_to "009"%char (parse_string rest')
            else if Ascii.eqb e "n" then cons_to "010"%char (parse_string rest')
            else if Ascii.eqb e "f" then cons_to "012"%char (parse_string rest')
            else if Ascii.eqb e "r" then cons_to "013"%char (parse_string rest')
            else if Ascii.eqb e "u" then
              match rest' with
              | h1 :: h2 :: h3 :: h4 :: rest'' =>
                  match hex_value h1, hex_value h2, hex_value h3, hex_value h4 with
                  | Some 0%N, Some 0%N, Some a, Some b =>
                      cons_to (ascii_of_N (16 * a + b)) (parse_string rest'')
                  | _, _, _, _ => None
                  end
              | _ => None
              end
            else None
        | [] => None
        end
      else if (code c <? 32)%N then None
      else cons_to c (parse_string rest)
  end.

Fixpoint take_digits (s : list ascii) : list ascii * list ascii :=
  match s with
  | c :: rest =>
      if is_digit c
      then let (ds, r) := take_digits rest in (c :: ds, r)
      else ([], s)
  | [] => ([], [])
  end.

Definition digits_value (ds : list ascii) : Z :=
  fold_left (fun acc d => (10 * acc + Z.of_N (code d - 48))%Z) ds 0%Z.

(** An integer literal: an optional minus sign, then either 0 or digits
    that do not start with 0; no fraction and no exponent after it. *)
Definition parse_number (s : list ascii) : option (Z * list ascii) :=
  let (negative, s') :=
    match s with
    | c :: rest => if Ascii.eqb c "-" then (true, rest) else (false, s)
    | [] => (false, s)
    end in
  match take_digits s' with
  | ([], _) => None
  | (d :: ds, rest) =>
      if Ascii.eqb d "0" && negb (Nat.eqb (length ds) 0) then None
      else match rest with
           | c :: _ =>
               if Ascii.eqb c "." || Ascii.eqb c "e" || Ascii.eqb c "E" then None
               else Some (if negative then (- digits_value (d :: ds))%Z
                          else digits_value (d :: ds), rest)
           | [] => Some (if negative then (- digits_value (d :: ds))%Z
                         else digits_value (d :: ds), rest)
           end
  end.

(** A repeated key keeps its place and takes the later value. *)
Fixpoint set_prop (k : string) (v : value) (props : list (string * value))
  : list (string * value) :=
  match props with
  | [] => [(k, v)]
  | (k', v') :: rest =>
      if String.eqb k k' then (k, v) :: rest else (k', v') :: set_prop k v rest
  end.

Definition make_object (members : list (string * value)) : value :=
  VObj (fold_left (fun props kv => set_prop (fst kv) (snd kv) props) members []).

Fixpoint parse_value (fuel : nat) (s : list ascii) : option (value * list ascii) :=
  match fuel with
  | 0 => None
  | S fuel' =>
      match skip_ws s with
      | [] => None
      | c :: rest =>
          if Ascii.eqb c "[" then
            match skip_ws rest with
            | c' :: rest' =>
                if Ascii.eqb c' "]" then Some (VArr [], rest')
                else match parse_elements fuel' rest with
                     | Some (vs, r) => Some (VArr vs, r)
                     | None => None
                     end
            | [] => None
            end
          else if Ascii.eqb c "{" then
            match skip_ws rest with
            | c' :: rest' =>
                if Ascii.eqb c' "}" then Some (VObj [], rest')
                else match parse_members fuel' rest with
                     | Some (ms, r) => Some (make_object ms, r)
                     | None => None
                     end
            | [] => None
            end
          else if Ascii.eqb c quote then
            match parse_string rest with
            | Some (str, r) => Some (VStr (string_of_list_ascii str), r)
            | None => None
            end
          else if Ascii.eqb c "-" || is_digit c then
            match parse_number (c :: rest) with
            | Some (n, r) => Some (VNum n, r)
            | None => None
            end
          else
            match strip_prefix (chars "null") (c :: rest) with
            | Some r => Some (VNull, r)
            | None =>
            match strip_prefix (chars "true") (c :: rest) with
            | Some r => Some (VBool true, r)
            | None =>
            match strip_prefix (chars "false") (c :: rest) with
            | Some r => Some (VBool false, r)
            | None => None
            end end end
      end
  end

(** The items of an array, after the opening bracket; consumes the
    closing one. *)
with parse_elements (fuel : nat) (s : list ascii) : option (list value * list ascii) :=
  match fuel with
  | 0 => None
  | S fuel' =>
      match parse_value fuel' s with
      | Some (v, r) =>
          match skip_ws r with
          | c :: r' =>
              if Ascii.eqb c "," then
                match parse_elements fuel' r' with
                | Some (vs, r'') => Some (v :: vs, r'')
                | None => None
                end
              else if Ascii.eqb c "]" then Some ([v], r')
              else None
          | [] => None
          end
      | None => None
      end
  end

(** The members of an object, after the opening brace; consumes the
    closing one. *)
with parse_members (fuel : nat) (s : list ascii)
  : option (list (string * value) * list ascii) :=
  match fuel with
  | 0 => None
  | S fuel' =>
      match skip_ws s with
      | q :: s1 =>
          if Ascii.eqb q quote then
            match parse_string s1 with
            | Some (k, s2) =>
                match skip_ws s2 with
                | colon :: s3 =>
                    if Ascii.eqb colon ":" then
                      match parse_value fuel' s3 with
                      | Some (v, r) =>
                          match skip_ws r with
                          | c :: r' =>
                              if Ascii.eqb c "," then
                                match parse_members fuel' r' with
                                | Some (ms, r'') =>
                                    Some ((string_of_list_ascii k, v) :: ms, r'')
                                | None => None
                                end
                              else if Ascii.eqb c "}"
                              then Some ([(string_of_list_ascii k, v)], r')
                              else None
                          | [] => None
                          end
                      | None => None
                      end
                    else None
                | [] => None
                end
            | None => None
            end
          else None
      | [] => None
      end
  end.

(** [JSON.parse(text)]; [None] for a SyntaxError. *)
Definition parse (text : string) : option value :=
  match parse_value (2 * String.length text + 2) (chars text) with
  | Some (v, rest) =>
      match skip_ws rest with
      | [] => Some v
      | _ :: _ => None
      end
  | None => None
  end.

End Json.

(** ** Vocabulary of the statements *)

Module Spec.
Import JS Browser FirebaseConfig.

(** The words a regular expression denotes; [RRep n r] is [r], [n] times
    or more. *)
Inductive Lang : regex -> list ascii -> Prop :=
| LEps : Lang REps []
| LSet neg items c : set_mem neg items c = true -> Lang (RSet neg items) [c]
| LSeq r1 r2 w1 w2 : Lang r1 w1 -> Lang r2 w2 -> Lang (RSeq r1 r2) (w1 ++ w2)
| LAltL r1 r2 w : Lang r1 w -> Lang (RAlt r1 r2) w
| LAltR r1 r2 w : Lang r2 w -> Lang (RAlt r1 r2) w
| LRepDone r : Lang (RRep 0 r) []
| LRepStep n r w1 w2 :
    Lang r w1 -> Lang (RRep (pred n) r) w2 -> Lang (RRep n r) (w1 ++ w2).

(** The five requirements of a password, as predicates on its code units. *)
Definition is_upper (c : ascii) : bool := in_range "A" "Z" c.
Definition is_lower (c : ascii) : bool := in_range "a" "z" c.
Definition is_special (c : ascii) : bool :=
  existsb (Ascii.eqb c) AuthManager.special_chars.

Definition long_enough (p : string) : bool := 8 <=? String.length p.
Definition has_upper (p : string) : bool := existsb is_upper (chars p).
Definition has_lower (p : string) : bool := existsb is_lower (chars p).
Definition has_number (p : string) : bool := existsb is_digit (chars p).
Definition has_special (p : string) : bool := existsb is_special (chars p).

(** How many of the five hold. *)
Definition rules_met (p : string) : nat :=
  Nat.b2n (long_enough p) + Nat.b2n (has_upper p) + Nat.b2n (has_lower p)
  + Nat.b2n (has_number p) + Nat.b2n (has_special p).

(** The message of a requirement, listed when it is unmet. *)
Definition unmet (met : bool) (msg : string) : list string :=
  if met then [] else [msg].

(** The result and the final state of a handler run. *)
Definition result {A : Type} (m : M A) (w : World) : outcome A := fst (m w).
Definition after {A : Type} (m : M A) (w : World) : World := snd (m w).

(** What [localStorage.getItem(key) || sessionStorage.getItem(key)] finds
    under the session key when the tiers can be read: the durable tier's
    item if it is a non-empty string, else the per-tab tier's. *)
Definition stored_text (w : World) : option string :=
  if truthy_item (items (localStorage w) !! AuthManager.SESSION_KEY)
  then items (localStorage w) !! AuthManager.SESSION_KEY
  else items (sessionStorage w) !! AuthManager.SESSION_KEY.

(** The storage read itself throws: the durable tier is denied, or it holds
    no item to use and the per-tab tier is denied. *)
Definition read_throws (w : World) : bool :=
  denied (localStorage w)
  || (negb (truthy_item (items (localStorage w) !! AuthManager.SESSION_KEY))
      && denied (sessionStorage w)).

(** Reading the stored session fails: the read throws, or the text found is
    not parseable. *)
Definition read_fails (JSON_parse : string -> option value) (w : World) : Prop :=
  read_throws w = true
  \/ (read_throws w = false
      /\ exists text, stored_text w = Some text
                      /\ text <> EmptyString
                      /\ JSON_parse text = None).

(** The state after [text] went to a channel of the console. *)
Definition logged (ch : channel) (text : string) (w : World) : World :=
  set_console (console w ++ [(ch, text)]) w.

(** The state after [getStoredSession] has caught and logged an error. *)
Definition error_logged (w : World) : World :=
  logged ConsoleError "[AuthManager] ERROR: Error retrieving session" w.

(** A value [JSON.stringify] and [JSON.parse] carry unchanged: no
    [undefined] anywhere inside it. *)
Fixpoint json_data (v : value) : bool :=
  match v with
  | VUndefined => false
  | VPrim _ => true
  | VArr items => forallb json_data items
  | VObj props => forallb (fun kv => json_data (snd kv)) props
  end.

(** What a field of a record may be written with: JSON data, or
    [undefined] (the field is then left out, and reads as [undefined]). *)
Definition writable_field (v : value) : Prop :=
  v = VUndefined \/ json_data v = true.

(** The login page of a role. *)
Definition login_page (role : string) : string :=
  if String.eqb role "admin" then "admin-login.html" else "user-login.html".

(** The state after a notification was shown: on a page with the
    application's notifier, the notifier received the message, its type and
    the duration 5000; on any other page the console received the line
    "[TYPE] message". *)
Definition notified (message type : string) (w : World) : World :=
  if evApp w
  then set_shown (shown w ++ [(message, type, 5000%Z)]) w
  else logged ConsoleLog ("[" +:+ toUpperCase type +:+ "] " +:+ message) w.

(** The state after a navigation to [url] was requested: [url] is the
    latest assignment to [window.location.href]. *)
Definition navigated (url : string) (w : World) : World :=
  set_href (href w ++ [url]) w.

(** The state after [path] was stashed in the per-tab tier as the intended
    destination. *)
Definition stashed (path : string) (w : World) : World :=
  set_sessionStorage
    (mkStorage (<[AuthManager.DESTINATION_KEY := path]> (items (sessionStorage w)))
       (denied (sessionStorage w)) (full (sessionStorage w)))
    w.

(** [w'] is [w] up to what was written to the console. *)
Definition console_only (w w' : World) : Prop :=
  w' = set_console (console w') w.

(** *** The JSON codec, item by item *)

(** What may follow a value inside a text: nothing, a comma, or a closing
    bracket or brace. *)
Definition terminated (rest : list ascii) : bool :=
  match rest with
  | [] => true
  | c :: _ => Ascii.eqb c "," || Ascii.eqb c "]" || Ascii.eqb c "}"
  end.

(** The text and the reading of an array item: [undefined] is printed as
    [null]. *)
Definition printed_item (x : value) : list ascii :=
  match x with
  | VUndefined => chars "null"
  | _ => Json.stringify_chars x
  end.

Definition norm_item (x : value) : value :=
  match x with
  | VUndefined => VNull
  | _ => json_norm x
  end.

(** The printed members and the read-back properties of an object: a
    property whose value is [undefined] is left out. *)
Fixpoint printed_members (ps : list (string * value)) : list (list ascii) :=
  match ps with
  | [] => []
  | (k, VUndefined) :: rest => printed_members rest
  | (k, x) :: rest =>
      (Json.quoted k ++ ":"%char :: Json.stringify_chars x) :: printed_members rest
  end.

Fixpoint norm_props (ps : list (string * value)) : list (string * value) :=
  match ps with
  | [] => []
  | (k, VUndefined) :: rest => norm_props rest
  | (k, x) :: rest => (k, json_norm x) :: norm_props rest
  end.

(** Pairwise distinct keys; [well_keyed]: in every object of a value. *)
Fixpoint distinct (keys : list string) : bool :=
  match keys with
  | [] => true
  | k :: rest => negb (existsb (String.eqb k) rest) && distinct rest
  end.

Fixpoint well_keyed (v : value) : bool :=
  match v with
  | VPrim _ => true
  | VArr items => forallb well_keyed items
  | VObj props =>
      distinct (map fst props) && forallb (fun kv => well_keyed (snd kv)) props
  end.

(** The depth the parser descends to on the text of a value. *)
Fixpoint fuel_needed (v : value) : nat :=
  match v with
  | VPrim _ => 1
  | VArr items =>
      S ((fix go (l : list value) :=
            match l with
            | [] => 0
            | x :: r => S (fuel_needed x + go r)
            end) items)
  | VObj props =>
      S ((fix go (l : list (string * value)) :=
            match l with
            | [] => 0
            | (_, VUndefined) :: r => go r
            | (_, x) :: r => S (fuel_needed x + go r)
            end) props)
  end.

Fixpoint fuel_items (l : list value) : nat :=
  match l with
  | [] => 0
  | x :: r => S (fuel_needed x + fuel_items r)
  end.

Fixpoint fuel_members (l : list (string * value)) : nat :=
  match l with
  | [] => 0
  | (_, VUndefined) :: r => fuel_members r
  | (_, x) :: r => S (fuel_needed x + fuel_members r)
  end.

(** The parser reads the text of [x] back, whatever follows it. *)
Definition parses (x : value) : Prop :=
  forall fuel rest,
    fuel_needed x <= fuel ->
    terminated rest = true ->
    Json.parse_value fuel (printed_item x ++ rest) = Some (norm_item x, rest).

(** What a printed item starts with: no white space, no closing bracket. *)
Definition opens_item (c : ascii) : bool :=
  negb (Json.is_ws c) && negb (Ascii.eqb c "]") && negb (Ascii.eqb c "}").

(** A tier that can be read and written. *)
Definition usable (s : Storage) : Prop := denied s = false /\ full s = false.

(** *** Forms and input texts *)

(** A code unit an e-mail part is made of: no white space, no [@]. *)
Definition plain (c : ascii) : bool := negb (is_space c) && negb (Ascii.eqb c "@").

Definition plain_text (t : string) : Prop :=
  t <> EmptyString /\ forallb plain (chars t) = true.

(** [local@d1.d2], three non-empty parts without white space or [@]. *)
Definition email_shaped (s : string) : Prop :=
  exists local d1 d2 : string,
    s = local +:+ "@" +:+ d1 +:+ "." +:+ d2
    /\ plain_text local /\ plain_text d1 /\ plain_text d2.

(** A code unit of a phone number: a digit, white space, a hyphen or a
    parenthesis. *)
Definition phone_char (c : ascii) : bool :=
  is_digit c || is_space c || Ascii.eqb c "-" || Ascii.eqb c "(" || Ascii.eqb c ")".

(** An optional [+], then ten or more phone code units. *)
Definition phone_shaped (s : string) : bool :=
  let digits := match chars s with
                | c :: rest => if Ascii.eqb c "+" then rest else c :: rest
                | [] => []
                end in
  (10 <=? length digits) && forallb phone_char digits.

(** A word without its leading white space. *)
Fixpoint drop_space (w : list ascii) : list ascii :=
  match w with
  | c :: rest => if is_space c then drop_space rest else w
  | [] => []
  end.

(** Only white space, or nothing. *)
Definition blank (s : string) : bool := forallb is_space (chars s).

(** No white space at either end. *)
Definition trimmed (w : list ascii) : Prop :=
  drop_space w = w /\ drop_space (rev w) = rev w.

(** An angle bracket. *)
Definition bracket (c : ascii) : bool := Ascii.eqb c "<" || Ascii.eqb c ">".

(** The [FormValidator] rule that makes the checks of an application
    rule. *)
Definition as_validator_rule (rule : EVRechargeApp.Rule) : FormValidator.Rule :=
  FormValidator.mkRule (EVRechargeApp.required rule) (EVRechargeApp.pattern rule)
    (EVRechargeApp.minLength rule) (EVRechargeApp.format_message rule).

(** Every rule is keyed by a name that the form data reads as an own
    property or as nothing. *)
Definition own_keys (formData : list (string * prim))
    (rules : list (string * EVRechargeApp.Rule)) : bool :=
  forallb (fun fr => EVRechargeApp.own_or_missing formData (fst fr)) rules.

(** A form whose numbers are safe integers. *)
Definition safe_form (formData : list (string * prim)) : bool :=
  forallb (fun kv => safe (snd kv)) formData.

(** A form whose fields are all texts, as read from text inputs. *)
Definition text_form (formData : list (string * prim)) : bool :=
  forallb (fun kv => match snd kv with PStr _ => true | _ => false end) formData.

(** What [FormData.get] gives for a text input: its text, or [null] when
    the form has no such input. *)
Definition form_entry (p : prim) : bool :=
  match p with
  | PStr _ | PNull => true
  | _ => false
  end.

(** The text of an entry; a missing one counts as empty. *)
Definition text_of (p : prim) : string :=
  match p with
  | PStr s => s
  | _ => EmptyString
  end.

(** A registration whose text fields are form entries. *)
Definition submitted (u : UserAuthentication.RegistrationData) : bool :=
  form_entry (UserAuthentication.firstName u)
  && form_entry (UserAuthentication.lastName u)
  && form_entry (UserAuthentication.email u)
  && form_entry (UserAuthentication.phone u)
  && form_entry (UserAuthentication.vehicleType u)
  && form_entry (UserAuthentication.password u).

(** The role lookup finds the user among the admins: Firestore answers,
    and holds a document for the id. *)
Definition listed_admin (w : World) (userId : string) : bool :=
  match outage (firestore w) with
  | Some _ => false
  | None =>
      match adminUsers (firestore w) !! userId with
      | Some _ => true
      | None => false
      end
  end.

(** The login page a logout on [path] leads to. *)
Definition logout_page (path : string) : string :=
  if includes path "admin" then "admin-login.html" else "user-login.html".

(** What the role lookup answers in a state. *)
Definition lookup_answer (w : World) (userId : string) : AdminCheck :=
  match outage (firestore w) with
  | Some msg => mkAdminCheck false VUndefined VUndefined (VStr msg)
  | None =>
      match adminUsers (firestore w) !! userId with
      | Some fields =>
          mkAdminCheck true (lookup_prop "role" fields)
            (lookup_prop "permissions" fields) VUndefined
      | None => mkAdminCheck false VUndefined VUndefined VUndefined
      end
  end.

(** The state after the role lookup: a lookup that fails writes its error
    line to the console, any other changes nothing. *)
Definition looked_up (w : World) : World :=
  match outage (firestore w) with
  | Some _ => logged ConsoleError "Admin check error:" w
  | None => w
  end.

(** Where the redirect policy sends a fresh login made on [path]; nowhere
    when the list is empty. *)
Definition login_redirect (admin : bool) (path : string) : list string :=
  if admin
  then if includes path "admin-login" || includes path "user-login"
       then ["admin-dashboard.html"] else []
  else if includes path "admin-login" then ["user-login.html"]
       else if includes path "admin-dashboard" then ["user-login.html"]
       else [].

(** The profile object holding the five profile fields of a registration. *)
Definition profile_of (u : UserAuthentication.RegistrationData) : list (string * prim) :=
  [ ("firstName", UserAuthentication.firstName u);
    ("lastName", UserAuthentication.lastName u);
    ("email", UserAuthentication.email u);
    ("phone", UserAuthentication.phone u);
    ("vehicleType", UserAuthentication.vehicleType u) ].

End Spec.

(** ** Concrete pages, users and storage contents *)

Module Examples.
Import JS Browser FirebaseConfig.

Definition alice : User :=
  mkUser "uid-alice" (PStr "alice@example.com") (PStr "Alice").

Definition bob : User :=
  mkUser "uid-bob" (PStr "bob@example.com") PNull.

(** An admin record that was deactivated. *)
Definition alice_doc : list (string * value) :=
  [ ("adminId", VStr "uid-alice");
    ("email", VStr "alice@example.com");
    ("role", VStr "manager");
    ("permissions", VArr [VStr "stations"; VStr "bookings"]);
    ("isActive", VBool false) ].

Definition directory : Firestore :=
  mkFirestore {[ "uid-alice" := alice_doc ]} None.

Definition unreachable : Firestore :=
  mkFirestore {[ "uid-alice" := alice_doc ]} (Some "Failed to get document because the client is offline.").

Definition empty_storage : Storage := mkStorage ∅ false false.
Definition full_storage : Storage := mkStorage ∅ false true.

(** A storage area holding [text] under the session key. *)
Definition holding (text : string) : Storage :=
  mkStorage {[ AuthManager.SESSION_KEY := text ]} false false.

(** A freshly loaded page at [path]: nobody signed in, nothing stored. *)
Definition page (path : string) : World :=
  mkWorld None false empty_storage empty_storage path [] true [] []
    directory 1736159400000.

(** The same page, with [text] stored in the durable tier. *)
Definition page_with_session (path text : string) : World :=
  set_localStorage (holding text) (page path).

Definition admin_session : string :=
  Json.stringify (VObj [("userId", VStr "uid-alice"); ("isAdmin", VBool true)]).

Definition user_session : string :=
  Json.stringify (VObj [("userId", VStr "uid-bob"); ("isAdmin", VBool false)]).

(** What [checkAdminRole] answers for alice. *)
Definition alice_check : AdminCheck :=
  mkAdminCheck true (VStr "manager")
    (VArr [VStr "stations"; VStr "bookings"]) VUndefined.

(** A page whose in-memory user is set while no record is stored. *)
Definition signed_in_without_record : World :=
  set_currentUser (Some bob) (page "/dashboard.html").

(** A page whose durable tier is over quota. *)
Definition page_over_quota : World :=
  set_localStorage full_storage (page "/user-login.html").

(** A page that cannot reach Firestore, with bob's record stored. *)
Definition page_offline : World :=
  mkWorld (Some bob) false (holding user_session) empty_storage
    "/index.html" [] true [] [] unreachable 1736159400000.

(** A station form and its rules: a required name, and a required e-mail
    of eight code units or more. *)
Definition station_rules : list (string * EVRechargeApp.Rule) :=
  [ ("name", EVRechargeApp.mkRule (PBool true) "Name" None None None);
    ("email", EVRechargeApp.mkRule (PBool true) "Email"
                (Some FormValidator.email_pattern) None (Some 8%Z)) ].

Definition station_form : list (string * prim) :=
  [ ("name", PStr "  "); ("email", PStr "a@b") ].

(** A registration as the form submits it. *)
Definition carol_registration : UserAuthentication.RegistrationData :=
  UserAuthentication.mkRegistrationData
    (PStr "Carol") (PStr "Diaz") (PStr "carol@example.com")
    (PStr "+1 (555) 010-9999") (PStr "correct horse") (PStr "another one")
    (PStr "sedan") (PStr "on") PNull.

End Examples.

(** * Properties *)

Import JS Browser FirebaseConfig Spec.

(** ** The matcher decides the language of a regular expression *)

Lemma nullable_sound r : nullable r = true -> Lang r [].
Proof.
  induction r as [| |neg items|r1 IH1 r2 IH2|r1 IH1 r2 IH2|n r IH]; simpl; intros H;
    try discriminate.
  - constructor.
  - apply andb_true_iff in H as [H1 H2]. apply (LSeq r1 r2 [] []); auto.
  - apply orb_true_iff in H as [H1|H2]; [apply LAltL|apply LAltR]; auto.
  - induction n as [|n IHn]; [constructor|].
    apply (LRepStep (S n) r [] []); auto. simpl.
    destruct n; [constructor | auto].
Qed.

Lemma nullable_complete r w : Lang r w -> w = [] -> nullable r = true.
Proof.
  induction 1 as [|neg items c Hc|r1 r2 w1 w2 H1 IH1 H2 IH2|r1 r2 w H IH|r1 r2 w H IH
                  | r | n r w1 w2 H1 IH1 H2 IH2]; simpl; intros Hw; auto.
  - discriminate.
  - apply app_eq_nil in Hw as [-> ->]. rewrite IH1, IH2; auto.
  - rewrite IH; auto.
  - rewrite IH; auto. apply orb_true_r.
  - apply app_eq_nil in Hw as [-> ->]. destruct n; auto.
Qed.

Lemma rep_pad r n w : Lang r [] -> Lang (RRep n r) w -> Lang (RRep (S n) r) w.
Proof. intros H0 H. apply (LRepStep (S n) r [] w); auto. Qed.

Lemma deriv_complete r w : Lang r w -> forall c w', w = c :: w' -> Lang (deriv c r) w'.
Proof.
  induction 1 as [|neg items c Hc|r1 r2 w1 w2 H1 IH1 H2 IH2|r1 r2 w H IH|r1 r2 w H IH
                  | r | n r w1 w2 H1 IH1 H2 IH2]; simpl; intros a w' Hw.
  - discriminate.
  - injection Hw as -> <-. rewrite Hc. constructor.
  - destruct w1 as [|b w1]; simpl in Hw.
    + rewrite (nullable_complete _ _ H1 eq_refl). apply LAltR. eauto.
    + injection Hw as -> <-.
      destruct (nullable r1); [apply LAltL|]; apply LSeq; eauto.
  - apply LAltL; eauto.
  - apply LAltR; eauto.
  - discriminate.
  - destruct w1 as [|b w1]; simpl in Hw.
    + specialize (IH2 _ _ Hw). simpl in IH2.
      inversion IH2 as [| |r1' r2' u1 u2 Hu1 Hu2| | | |]; subst.
      apply LSeq; auto.
      destruct n as [|[|n]]; simpl in *; auto.
      apply rep_pad; auto.
    + injection Hw as -> <-. apply LSeq; eauto.
Qed.

Lemma deriv_sound c r : forall w, Lang (deriv c r) w -> Lang r (c :: w).
Proof.
  induction r as [| |neg items|r1 IH1 r2 IH2|r1 IH1 r2 IH2|n r IH]; simpl; intros w H.
  - inversion H.
  - inversion H.
  - destruct (set_mem neg items c) eqn:E; inversion H; subst. constructor; auto.
  - destruct (nullable r1) eqn:E.
    + inversion H as [| | | r1' r2' u Hu | r1' r2' u Hu | |]; subst.
      * inversion Hu as [| |r1' r2' u1 u2 Hu1 Hu2| | | |]; subst.
        apply (LSeq r1 r2 (c :: u1) u2); auto.
      * apply (LSeq r1 r2 [] (c :: w)); auto. apply nullable_sound; auto.
    + inversion H as [| |r1' r2' u1 u2 Hu1 Hu2| | | |]; subst.
      apply (LSeq r1 r2 (c :: u1) u2); auto.
  - inversion H; subst; [apply LAltL|apply LAltR]; auto.
  - inversion H as [| |r1' r2' u1 u2 Hu1 Hu2| | | |]; subst.
    apply (LRepStep n r (c :: u1) u2); auto.
Qed.

Theorem matches_Lang r w : matches r w = true <-> Lang r w.
Proof.
  revert r. induction w as [|c w IH]; intros r; simpl.
  - split; [apply nullable_sound | intros H; eapply nullable_complete; eauto].
  - rewrite IH. split; [apply deriv_sound | intros H; eapply deriv_complete; eauto].
Qed.

Lemma Lang_any_star w : Lang (RStar RAny) w.
Proof.
  induction w as [|c w IH]; [constructor|].
  apply (LRepStep 0 RAny [c] w); [constructor; reflexivity | exact IH].
Qed.

(** An unanchored character class finds a match exactly when some code
    unit of the string is in the class. *)
Lemma test_class items s :
  test (mkRegExp false (RSet false items) false) s
  = existsb (fun c => existsb (citem_mem c) items) (chars s).
Proof.
  unfold test; simpl. apply eq_true_iff_eq.
  rewrite matches_Lang, existsb_exists. split.
  - intros H.
    inversion H as [| |r1 r2 w1 w2 _ H2| | | |]; subst.
    inversion H2 as [| |r1 r2 u1 u2 Hc _| | | |]; subst.
    inversion Hc as [|neg items' c Hm| | | | |]; subst.
    exists c. split; [|exact Hm].
    rewrite !in_app_iff. right; left; left; reflexivity.
  - intros (c & Hin & Hc).
    apply in_split in Hin as (w1 & w2 & ->).
    apply LSeq; [apply Lang_any_star|].
    apply (LSeq _ _ [c] w2); [constructor; exact Hc | apply Lang_any_star].
Qed.

(** ** Password strength *)

Lemma existsb_ext_pointwise {A : Type} (f g : A -> bool) (l : list A) :
  (forall x, f x = g x) -> existsb f l = existsb g l.
Proof. intros E. induction l as [|x l IH]; simpl; [reflexivity | now rewrite E, IH]. Qed.

Lemma existsb_CChar c l : existsb (citem_mem c) (map CChar l) = existsb (Ascii.eqb c) l.
Proof. induction l as [|d l IH]; simpl; [reflexivity | now rewrite IH]. Qed.

(** The flags the evaluator computes are the five requirements. *)
Lemma requirements_meaning password :
  AuthManager.requirements (AuthManager.validatePasswordStrength password)
  = AuthManager.mkRequirements (long_enough password) (has_upper password)
      (has_lower password) (has_number password) (has_special password).
Proof.
  unfold AuthManager.validatePasswordStrength; simpl.
  unfold AuthManager.re_uppercase, AuthManager.re_lowercase,
    AuthManager.re_numbers, AuthManager.re_special.
  rewrite !test_class.
  f_equal; apply existsb_ext_pointwise; intros c;
    first [apply existsb_CChar | simpl; apply orb_false_r].
Qed.

Lemma strength_counts password :
  AuthManager.strength (AuthManager.validatePasswordStrength password)
  = rules_met password.
Proof.
  change (AuthManager.strength (AuthManager.validatePasswordStrength password))
    with (length (List.filter AuthManager.Boolean
            (AuthManager.Object_values
               (AuthManager.requirements
                  (AuthManager.validatePasswordStrength password))))).
  rewrite requirements_meaning. unfold rules_met, AuthManager.Object_values; simpl.
  destruct (long_enough password), (has_upper password), (has_lower password),
    (has_number password), (has_special password); reflexivity.
Qed.

Lemma rules_met_le_5 password : rules_met password <= 5.
Proof.
  unfold rules_met.
  destruct (long_enough password), (has_upper password), (has_lower password),
    (has_number password), (has_special password); simpl; lia.
Qed.

Lemma level_of_strength n reqs :
  AuthManager.level (AuthManager.getPasswordFeedback n reqs)
  = if n <? 2 then "weak" else if n <? 4 then "medium"
    else if n <? 5 then "strong" else "very-strong".
Proof.
  unfold AuthManager.getPasswordFeedback.
  destruct (n <? 2); [reflexivity|].
  destruct (n <? 4); [reflexivity|].
  destruct (n <? 5); reflexivity.
Qed.

(** C7.  For every password, the strength score is the number of the five
    requirements (length at least 8, an uppercase letter, a lowercase
    letter, a digit, a special character) that hold, so it lies between 0
    and 5; the level is "weak" below 2, "medium" for 2 and 3, "strong" for
    4 and "very-strong" for 5; a password meeting exactly 4 of the 5
    requirements has isStrong true and level "strong". *)
Theorem validatePasswordStrength_score_and_level (password : string) :
  let r := AuthManager.validatePasswordStrength password in
  let n := AuthManager.strength r in
  let lvl := AuthManager.level (AuthManager.feedback r) in
  AuthManager.requirements r
  = AuthManager.mkRequirements (long_enough password) (has_upper password)
      (has_lower password) (has_number password) (has_special password)
  /\ n = rules_met password
  /\ 0 <= n <= 5
  /\ AuthManager.isStrong r = (4 <=? n)
  /\ (n < 2 -> lvl = "weak")
  /\ (2 <= n < 4 -> lvl = "medium")
  /\ (n = 4 -> lvl = "strong")
  /\ (n = 5 -> lvl = "very-strong")
  /\ (rules_met password = 4 -> AuthManager.isStrong r = true /\ lvl = "strong").
Proof.
  intros r n lvl.
  assert (Hn : n = rules_met password) by apply strength_counts.
  assert (H5 : n <= 5) by (rewrite Hn; apply rules_met_le_5).
  assert (Hl : lvl = if n <? 2 then "weak" else if n <? 4 then "medium"
                     else if n <? 5 then "strong" else "very-strong")
    by apply level_of_strength.
  assert (Hs : AuthManager.isStrong r = (4 <=? n)) by reflexivity.
  split; [apply requirements_meaning|].
  split; [exact Hn|].
  split; [lia|].
  split; [exact Hs|].
  split.
  { intros H. rewrite Hl. destruct (Nat.ltb_spec n 2); [reflexivity | lia]. }
  split.
  { intros H. rewrite Hl.
    destruct (Nat.ltb_spec n 2); [lia|].
    destruct (Nat.ltb_spec n 4); [reflexivity | lia]. }
  split.
  { intros H. rewrite Hl, H. reflexivity. }
  split.
  { intros H. rewrite Hl, H. reflexivity. }
  intros H4. rewrite Hs, Hl, Hn, H4. split; reflexivity.
Qed.

(** A password with an uppercase letter, lowercase letters, a digit and
    eight code units, but no special character. *)
Lemma validatePasswordStrength_score_and_level_witness :
  rules_met "Abcdefg1" = 4
  /\ AuthManager.isStrong (AuthManager.validatePasswordStrength "Abcdefg1") = true
  /\ AuthManager.level (AuthManager.feedback (AuthManager.validatePasswordStrength "Abcdefg1"))
     = "strong".
Proof.
  split; [reflexivity|].
  apply (validatePasswordStrength_score_and_level "Abcdefg1"). reflexivity.
Defined.

Lemma missing_of_requirements n reqs :
  AuthManager.missing (AuthManager.getPasswordFeedback n reqs)
  = unmet (AuthManager.minLength reqs) "At least 8 characters"
    ++ unmet (AuthManager.hasUppercase reqs) "One uppercase letter"
    ++ unmet (AuthManager.hasLowercase reqs) "One lowercase letter"
    ++ unmet (AuthManager.hasNumbers reqs) "One number"
    ++ unmet (AuthManager.hasSpecialChar reqs) "One special character".
Proof.
  unfold AuthManager.getPasswordFeedback.
  destruct reqs as [a b c d e]; simpl.
  destruct (n <? 2), (n <? 4), (n <? 5); destruct a, b, c, d, e; reflexivity.
Qed.

(** C8.  The feedback list holds one message for each unmet requirement and
    none for a met one, in the order length, uppercase, lowercase, number,
    special; its length is 5 minus the strength score. *)
Theorem getPasswordFeedback_lists_unmet (password : string) :
  let r := AuthManager.validatePasswordStrength password in
  AuthManager.missing (AuthManager.feedback r)
  = unmet (long_enough password) "At least 8 characters"
    ++ unmet (has_upper password) "One uppercase letter"
    ++ unmet (has_lower password) "One lowercase letter"
    ++ unmet (has_number password) "One number"
    ++ unmet (has_special password) "One special character"
  /\ length (AuthManager.missing (AuthManager.feedback r))
     = 5 - AuthManager.strength r.
Proof.
  intros r.
  assert (E : AuthManager.missing (AuthManager.feedback r)
              = unmet (long_enough password) "At least 8 characters"
                ++ unmet (has_upper password) "One uppercase letter"
                ++ unmet (has_lower password) "One lowercase letter"
                ++ unmet (has_number password) "One number"
                ++ unmet (has_special password) "One special character").
  { change (AuthManager.feedback r)
      with (AuthManager.getPasswordFeedback (AuthManager.strength r)
              (AuthManager.requirements r)).
    rewrite missing_of_requirements. unfold r.
    rewrite requirements_meaning. reflexivity. }
  split; [exact E|].
  rewrite E. unfold r. rewrite strength_counts. unfold rules_met.
  destruct (long_enough password), (has_upper password), (has_lower password),
    (has_number password), (has_special password); reflexivity.
Qed.

(** ** Form validation *)

(** No built-in rule set defines [required]. *)
Lemma builtin_rules_not_required kind rule :
  FormValidator.rules kind = Some rule -> FormValidator.required rule = PUndefined.
Proof.
  unfold FormValidator.rules.
  destruct (String.eqb kind "email"); [intros [= <-]; reflexivity|].
  destruct (String.eqb kind "phone"); [intros [= <-]; reflexivity|].
  destruct (String.eqb kind "password"); [intros [= <-]; reflexivity|].
  discriminate.
Qed.

(** Under a rule without [required], a falsy value passes every check. *)
Lemma validate_rule_falsy rule label value :
  FormValidator.required rule = PUndefined ->
  truthy_prim value = false ->
  FormValidator.validate_rule rule label value
  = Ret (FormValidator.mkResult true None).
Proof.
  intros Hreq Hfalsy. unfold FormValidator.validate_rule.
  rewrite Hreq, Hfalsy. reflexivity.
Qed.

(** The empty email passes validation; it is not rejected. *)
Lemma validate_accepts_empty_email :
  FormValidator.validate "Email" (PStr "") "email"
  = Ret (FormValidator.mkResult true None)
  /\ ~ (exists r, FormValidator.validate "Email" (PStr "") "email" = Ret r
                  /\ FormValidator.isValid r = false).
Proof.
  split; [reflexivity|].
  intros (r & Hr & Hv). vm_compute in Hr. injection Hr as <-. discriminate.
Qed.

(** C5, amended.  For every label: as an email, "a@b.co" is valid and
    "not-an-email" is invalid, and the empty string is valid (no check
    applies to it); as a phone, "+1234567890" is valid and "123" is
    invalid. *)
Theorem validate_email_phone_examples (label : string) :
  FormValidator.validate label (PStr "a@b.co") "email"
  = Ret (FormValidator.mkResult true None)
  /\ FormValidator.validate label (PStr "not-an-email") "email"
     = Ret (FormValidator.mkResult false (Some "Please enter a valid email address"))
  /\ FormValidator.validate label (PStr "") "email"
     = Ret (FormValidator.mkResult true None)
  /\ FormValidator.validate label (PStr "+1234567890") "phone"
     = Ret (FormValidator.mkResult true None)
  /\ FormValidator.validate label (PStr "123") "phone"
     = Ret (FormValidator.mkResult false (Some "Please enter a valid phone number")).
Proof. repeat split; vm_compute; reflexivity. Qed.

(** C6.  For every label and every kind among "email", "phone" and
    "password", the empty string validates, and so does every falsy value:
    the rule set of the kind defines no [required] flag, and the other
    checks apply to truthy values only. *)
Theorem validate_empty_is_valid (label kind : string) :
  In kind ["email"; "phone"; "password"] ->
  FormValidator.validate label (PStr "") kind
  = Ret (FormValidator.mkResult true None)
  /\ (forall value, truthy_prim value = false ->
        FormValidator.validate label value kind
        = Ret (FormValidator.mkResult true None))
  /\ (exists rule, FormValidator.rules kind = Some rule
                   /\ FormValidator.required rule = PUndefined).
Proof.
  intros Hkind.
  assert (Hrule : exists rule, FormValidator.rules kind = Some rule).
  { simpl in Hkind. destruct Hkind as [<-|[<-|[<-|[]]]]; eexists; reflexivity. }
  destruct Hrule as (rule & Hrule).
  pose proof (builtin_rules_not_required kind rule Hrule) as Hreq.
  assert (Hfalsy : forall value, truthy_prim value = false ->
            FormValidator.validate label value kind
            = Ret (FormValidator.mkResult true None)).
  { intros value Hv. unfold FormValidator.validate. rewrite Hrule.
    apply validate_rule_falsy; assumption. }
  split; [apply Hfalsy; reflexivity|].
  split; [exact Hfalsy|].
  exists rule. split; assumption.
Qed.

Lemma validate_empty_is_valid_witness :
  In "password" ["email"; "phone"; "password"]
  /\ FormValidator.validate "Password" (PStr "") "password"
     = Ret (FormValidator.mkResult true None)
  /\ FormValidator.validate "Password" PNull "password"
     = Ret (FormValidator.mkResult true None).
Proof.
  assert (H : In "password" ["email"; "phone"; "password"])
    by (simpl; right; right; left; reflexivity).
  split; [exact H|].
  destruct (validate_empty_is_valid "Password" "password" H) as (H1 & H2 & _).
  split; [exact H1 | apply H2; reflexivity].
Defined.

(** ** The role lookup *)

(** Unfolding of the handler combinators. *)
Ltac run_step :=
  unfold result, after, try_catch, throw, gets, modify, mbind, mret,
    M_bind, M_ret in *; simpl in *.

Lemma checkAdminRole_found userId w fields :
  outage (firestore w) = None ->
  adminUsers (firestore w) !! userId = Some fields ->
  checkAdminRole userId w
  = (Ret (mkAdminCheck true (lookup_prop "role" fields)
            (lookup_prop "permissions" fields) VUndefined), w).
Proof.
  intros Hup Hdoc. unfold checkAdminRole, getDoc_adminUsers. run_step.
  rewrite Hup. simpl. rewrite Hdoc. reflexivity.
Qed.

Lemma checkAdminRole_missing userId w :
  outage (firestore w) = None ->
  adminUsers (firestore w) !! userId = None ->
  checkAdminRole userId w
  = (Ret (mkAdminCheck false VUndefined VUndefined VUndefined), w).
Proof.
  intros Hup Hdoc. unfold checkAdminRole, getDoc_adminUsers. run_step.
  rewrite Hup. simpl. rewrite Hdoc. reflexivity.
Qed.

Lemma checkAdminRole_error userId w msg :
  outage (firestore w) = Some msg ->
  checkAdminRole userId w
  = (Ret (mkAdminCheck false VUndefined VUndefined (VStr msg)),
     after (console_error "Admin check error:") w).
Proof.
  intros Hdown. unfold checkAdminRole, getDoc_adminUsers. run_step.
  rewrite Hdown. reflexivity.
Qed.

(** C10.  [checkAdminRole] answers (it never throws), and reports isAdmin
    true exactly when the lookup succeeds and a document for the user id
    exists in [adminUsers]; the document's contents play no part: whatever
    its fields, an [isActive] of false included, the answer carries isAdmin
    true with the stored role and permissions.  With no document, or when
    the lookup errors, isAdmin is false. *)
Theorem checkAdminRole_is_document_existence (userId : string) (w : World) :
  exists adminCheck,
    result (checkAdminRole userId) w = Ret adminCheck
    /\ (ac_isAdmin adminCheck = true <->
        outage (firestore w) = None
        /\ is_Some (adminUsers (firestore w) !! userId))
    /\ (forall fields,
          outage (firestore w) = None ->
          adminUsers (firestore w) !! userId = Some fields ->
          adminCheck = mkAdminCheck true (lookup_prop "role" fields)
                         (lookup_prop "permissions" fields) VUndefined)
    /\ (adminUsers (firestore w) !! userId = None ->
        ac_isAdmin adminCheck = false)
    /\ (outage (firestore w) <> None -> ac_isAdmin adminCheck = false).
Proof.
  unfold result.
  destruct (outage (firestore w)) as [msg|] eqn:Hout.
  - rewrite (checkAdminRole_error _ _ _ Hout). eexists. split; [reflexivity|].
    simpl. split; [split; [discriminate | intros [H _]; discriminate]|].
    split; [discriminate|]. split; reflexivity.
  - destruct (adminUsers (firestore w) !! userId) as [fields|] eqn:Hdoc.
    + rewrite (checkAdminRole_found _ _ _ Hout Hdoc). eexists.
      split; [reflexivity|]. simpl.
      split; [split; [intros _; split; [reflexivity | eexists; reflexivity]
                     | reflexivity]|].
      split; [intros fields' _ [= <-]; reflexivity|].
      split; [discriminate | intros H; contradiction].
    + rewrite (checkAdminRole_missing _ _ Hout Hdoc). eexists.
      split; [reflexivity|]. simpl.
      split; [split; [discriminate | intros [_ [x Hx]]; discriminate]|].
      split; [discriminate|].
      split; [reflexivity | intros H; contradiction].
Qed.

(** ** Values through JSON *)

Lemma value_nested_ind (P : value -> Prop) :
  (forall p, P (VPrim p)) ->
  (forall items, Forall P items -> P (VArr items)) ->
  (forall props, Forall (fun kv => P (snd kv)) props -> P (VObj props)) ->
  forall v, P v.
Proof.
  intros Hp Ha Ho. fix IH 1. intros [p|items|props].
  - apply Hp.
  - apply Ha. induction items as [|x items IHl]; constructor; [apply IH | exact IHl].
  - apply Ho. induction props as [|[k x] props IHl]; constructor; [apply IH | exact IHl].
Qed.

Lemma json_norm_data v : json_data v = true -> json_norm v = v.
Proof.
  induction v as [p|items IH|props IH] using value_nested_ind; intros Hd.
  - reflexivity.
  - simpl in *. f_equal.
    induction IH as [|x items Hx _ IHl]; [reflexivity|].
    simpl in *. apply andb_true_iff in Hd as [Hdx Hdl].
    rewrite (IHl Hdl). f_equal.
    destruct x as [[]| |]; try reflexivity; try discriminate; apply Hx; exact Hdx.
  - simpl in *. f_equal.
    induction IH as [|[k x] props Hx _ IHl]; [reflexivity|].
    simpl in *. apply andb_true_iff in Hd as [Hdx Hdl].
    rewrite (IHl Hdl).
    destruct x as [[]| |]; try reflexivity; try discriminate; f_equal; f_equal;
      apply Hx; exact Hdx.
Qed.

Lemma lookup_prop_absent k props :
  ~ In k (map fst props) -> lookup_prop k props = VUndefined.
Proof.
  induction props as [|[k' x] props IH]; simpl; intros Hk; [reflexivity|].
  destruct (String.eqb_spec k k') as [->|Hne]; [exfalso; apply Hk; left; reflexivity|].
  apply IH. intros Hin. apply Hk. right. exact Hin.
Qed.

(** Reading a field of a record after a JSON round trip. *)
Lemma get_field_json_norm props k :
  List.NoDup (map fst props) ->
  Forall (fun kv => writable_field (snd kv)) props ->
  get_field (json_norm (VObj props)) k = get_field (VObj props) k.
Proof.
  intros Hnd Hw. induction Hw as [|[k' x] props Hx Hw IH]; [reflexivity|].
  simpl in Hnd. apply List.NoDup_cons_iff in Hnd as [Hfresh Hnd].
  specialize (IH Hnd). simpl in IH, Hx.
  destruct Hx as [-> | Hd].
  - simpl. rewrite IH.
    destruct (String.eqb_spec k k') as [->|Hne]; [|reflexivity].
    apply lookup_prop_absent. exact Hfresh.
  - assert (Hn : json_norm x = x) by (apply json_norm_data; exact Hd).
    destruct x as [[]| |]; try discriminate; simpl in *;
      destruct (String.eqb k k'); try reflexivity; try exact IH; try exact Hn.
Qed.

(** ** The JSON codec reads back what it prints *)

(** Numbers. *)
Lemma terminated_cases rest :
  terminated rest = true ->
  rest = [] \/ exists c rest', rest = c :: rest' /\ (c = "," \/ c = "]" \/ c = "}")%char.
Proof.
  destruct rest as [|c rest']; [left; reflexivity|]. simpl. intros H. right.
  exists c, rest'. split; [reflexivity|].
  apply orb_true_iff in H as [H|H]; [apply orb_true_iff in H as [H|H]|];
    apply Ascii.eqb_eq in H; auto.
Qed.

Lemma take_digits_uint d rest :
  terminated rest = true ->
  Json.take_digits (chars (NilEmpty.string_of_uint d) ++ rest)
  = (chars (NilEmpty.string_of_uint d), rest).
Proof.
  intros Ht. induction d; simpl; try (rewrite IHd; reflexivity).
  destruct (terminated_cases rest Ht) as [-> | (c & rest' & -> & [-> | [-> | ->]])];
    reflexivity.
Qed.

Lemma digits_value_acc d acc :
  fold_left (fun a c => (10 * a + Z.of_N (code c - 48))%Z)
    (chars (NilEmpty.string_of_uint d)) (Z.pos acc)
  = Z.pos (Pos.of_uint_acc d acc).
Proof.
  revert acc. induction d; intros acc; simpl; try reflexivity;
    rewrite <- IHd; f_equal; lia.
Qed.

Lemma digits_value_uint d :
  Json.digits_value (chars (NilEmpty.string_of_uint d)) = Z.of_N (Pos.of_uint d).
Proof.
  unfold Json.digits_value.
  induction d; simpl; try reflexivity; try exact IHd; apply (digits_value_acc d).
Qed.

(** The decimal digits of a positive number do not start with 0. *)
Lemma to_uint_head p : exists c cs,
  chars (NilEmpty.string_of_uint (Pos.to_uint p)) = c :: cs
  /\ is_digit c = true /\ c <> "0"%char.
Proof.
  pose proof (Unsigned.to_of (Pos.to_uint p)) as H.
  rewrite Unsigned.of_to in H. simpl in H.
  pose proof (Unsigned.to_uint_nonzero p) as Hnz.
  pose proof (Unsigned.to_uint_nonnil p) as Hnn.
  destruct (Pos.to_uint p) as [|l|l|l|l|l|l|l|l|l|l] eqn:E;
    try (eexists _, _; split; [reflexivity | split; [reflexivity | discriminate]]).
  - contradiction.
  - exfalso. rewrite unorm_D0 in H. unfold Decimal.unorm in H.
    destruct (Decimal.nzhead l) eqn:En;
      try (symmetry in H; rewrite <- En in H; exact (nzhead_nonzero _ _ H)).
    apply Hnz. exact H.
Qed.


Lemma number_tail (v : Z) rest :
  terminated rest = true ->
  match rest with
  | [] => Some (v, rest)
  | c :: _ => if Ascii.eqb c "." || Ascii.eqb c "e" || Ascii.eqb c "E"
              then None else Some (v, rest)
  end = Some (v, rest).
Proof.
  intros Ht.
  destruct (terminated_cases rest Ht) as [-> | (c & rest' & -> & [-> | [-> | ->]])];
    reflexivity.
Qed.

Lemma parse_number_unsigned c cs rest :
  is_digit c = true ->
  c <> "0"%char \/ cs = [] ->
  Json.take_digits (c :: cs ++ rest) = (c :: cs, rest) ->
  terminated rest = true ->
  Json.parse_number (c :: cs ++ rest) = Some (Json.digits_value (c :: cs), rest).
Proof.
  intros Hd Hlead Htd Ht. unfold Json.parse_number.
  assert (Hminus : Ascii.eqb c "-" = false).
  { destruct (Ascii.eqb_spec c "-") as [->|]; [discriminate | reflexivity]. }
  rewrite Hminus, Htd.
  assert (Hz : Ascii.eqb c "0" && negb (Nat.eqb (length cs) 0) = false).
  { destruct Hlead as [Hc | ->]; [|apply andb_false_r].
    apply Ascii.eqb_neq in Hc. rewrite Hc. reflexivity. }
  rewrite Hz. apply number_tail. exact Ht.
Qed.

Lemma parse_number_negative c cs rest :
  is_digit c = true ->
  c <> "0"%char \/ cs = [] ->
  Json.take_digits (c :: cs ++ rest) = (c :: cs, rest) ->
  terminated rest = true ->
  Json.parse_number ("-"%char :: c :: cs ++ rest)
  = Some ((- Json.digits_value (c :: cs))%Z, rest).
Proof.
  intros Hd Hlead Htd Ht. unfold Json.parse_number.
  change (Ascii.eqb "-" "-") with true. cbv iota beta. rewrite Htd.
  assert (Hz : Ascii.eqb c "0" && negb (Nat.eqb (length cs) 0) = false).
  { destruct Hlead as [Hc | ->]; [|apply andb_false_r].
    apply Ascii.eqb_neq in Hc. rewrite Hc. reflexivity. }
  rewrite Hz. apply number_tail. exact Ht.
Qed.

Lemma string_of_uint_positive p :
  NilZero.string_of_uint (Pos.to_uint p) = NilEmpty.string_of_uint (Pos.to_uint p).
Proof.
  pose proof (Unsigned.to_uint_nonnil p) as H.
  destruct (Pos.to_uint p); [contradiction | reflexivity ..].
Qed.

Lemma parse_number_of_Z n rest :
  terminated rest = true ->
  Json.parse_number (chars (string_of_Z n) ++ rest) = Some (n, rest).
Proof.
  intros Ht. unfold string_of_Z.
  destruct n as [|p|p]; simpl.
  - apply (parse_number_unsigned "0" [] rest); auto.
    destruct (terminated_cases rest Ht) as [-> | (c & rest' & -> & [-> | [-> | ->]])];
      reflexivity.
  - destruct (to_uint_head p) as (c & cs & Hcs & Hd & Hc0).
    pose proof (take_digits_uint (Pos.to_uint p) rest Ht) as Htd.
    pose proof (digits_value_uint (Pos.to_uint p)) as Hv.
    rewrite Unsigned.of_to in Hv. simpl in Hv.
    rewrite string_of_uint_positive. rewrite Hcs in *.
    rewrite <- Hv. apply parse_number_unsigned; auto.
  - destruct (to_uint_head p) as (c & cs & Hcs & Hd & Hc0).
    pose proof (take_digits_uint (Pos.to_uint p) rest Ht) as Htd.
    pose proof (digits_value_uint (Pos.to_uint p)) as Hv.
    rewrite Unsigned.of_to in Hv. simpl in Hv.
    rewrite string_of_uint_positive. rewrite Hcs in *.
    change (Z.neg p) with (- Z.pos p)%Z.
    rewrite <- Hv. apply parse_number_negative; auto.
Qed.

(** Unfolding equations. *)

Lemma stringify_arr items :
  Json.stringify_chars (VArr items)
  = "["%char :: Json.join "," (map printed_item items) ++ ["]"%char].
Proof. reflexivity. Qed.

Lemma stringify_obj props :
  Json.stringify_chars (VObj props)
  = "{"%char :: Json.join "," (printed_members props) ++ ["}"%char].
Proof. reflexivity. Qed.

Lemma json_norm_arr items : json_norm (VArr items) = VArr (map norm_item items).
Proof. reflexivity. Qed.

Lemma json_norm_obj props : json_norm (VObj props) = VObj (norm_props props).
Proof. reflexivity. Qed.

Lemma fuel_arr items : fuel_needed (VArr items) = S (fuel_items items).
Proof. reflexivity. Qed.

Lemma fuel_obj props : fuel_needed (VObj props) = S (fuel_members props).
Proof. reflexivity. Qed.

(** Strings. *)
Lemma parse_string_escape c tail :
  Json.parse_string (Json.escape c ++ tail)
  = match Json.parse_string tail with
    | Some (str, r) => Some (c :: str, r)
    | None => None
    end.
Proof. destruct c as [[] [] [] [] [] [] [] []]; reflexivity. Qed.

Lemma parse_string_quoted cs rest :
  Json.parse_string (flat_map Json.escape cs ++ Json.quote :: rest) = Some (cs, rest).
Proof.
  induction cs as [|c cs IH]; [reflexivity|].
  simpl flat_map. rewrite <- app_assoc, parse_string_escape, IH. reflexivity.
Qed.

(** The first character of a printed number. *)
Lemma string_of_Z_head n : exists c cs,
  chars (string_of_Z n) = c :: cs /\ (c = "-"%char \/ is_digit c = true).
Proof.
  unfold string_of_Z. destruct n as [|p|p]; simpl.
  - exists "0"%char, []. split; [reflexivity | right; reflexivity].
  - destruct (to_uint_head p) as (c & cs & Hcs & Hd & _).
    rewrite string_of_uint_positive. exists c, cs. split; [exact Hcs | right; exact Hd].
  - eexists _, _. split; [reflexivity | left; reflexivity].
Qed.

Lemma number_dispatch c :
  c = "-"%char \/ is_digit c = true ->
  Json.is_ws c = false
  /\ Ascii.eqb c "[" = false
  /\ Ascii.eqb c "{" = false
  /\ Ascii.eqb c Json.quote = false
  /\ Ascii.eqb c "-" || is_digit c = true.
Proof.
  destruct c as [[] [] [] [] [] [] [] []]; intros [H|H]; try discriminate;
    repeat split; reflexivity.
Qed.

Lemma parses_prim p : parses (VPrim p).
Proof.
  intros fuel rest Hfuel Ht. destruct fuel as [|fuel]; [simpl in Hfuel; lia|].
  destruct p as [| |[]|n|s]; try reflexivity.
  - (* a number *)
    destruct (string_of_Z_head n) as (c & cs & Hcs & Hc).
    destruct (number_dispatch c Hc) as (Hws & H1 & H2 & H3 & H4).
    pose proof (parse_number_of_Z n rest Ht) as Hnum.
    unfold printed_item, norm_item, Json.stringify_chars, Json.stringify_prim, ToString.
    rewrite Hcs in *. simpl app in *. simpl Json.parse_value.
    rewrite Hws, H1, H2, H3, H4, Hnum. reflexivity.
  - (* a string *)
    unfold printed_item, norm_item, Json.stringify_chars, Json.stringify_prim,
      Json.quoted.
    simpl app. rewrite <- app_assoc. simpl Json.parse_value.
    change (?a :: ?l) with ([a] ++ l) at 1.
    simpl app. rewrite parse_string_quoted.
    unfold chars. rewrite string_of_list_ascii_of_string. reflexivity.
Qed.

(** Arrays. *)
Lemma printed_item_head x : exists c cs,
  printed_item x = c :: cs /\ opens_item c = true.
Proof.
  destruct x as [[| |[]|n|s]|items|props];
    try (eexists _, _; split; reflexivity).
  destruct (string_of_Z_head n) as (c & cs & Hcs & Hc).
  exists c, cs. split; [exact Hcs|].
  revert Hc. clear. destruct c as [[] [] [] [] [] [] [] []]; intros [H|H];
    try discriminate; reflexivity.
Qed.

Lemma join_cons sep part parts :
  Json.join sep (part :: parts)
  = match parts with
    | [] => part
    | _ :: _ => part ++ sep :: Json.join sep parts
    end.
Proof. destruct parts; reflexivity. Qed.

Lemma join_head sep c cs parts tail : exists tail',
  Json.join sep ((c :: cs) :: parts) ++ tail = c :: tail'.
Proof. rewrite join_cons. destruct parts; simpl; eexists; reflexivity. Qed.

Lemma join_one sep (part : list ascii) : Json.join sep [part] = part.
Proof. reflexivity. Qed.

Lemma join_more sep (p q : list ascii) ps :
  Json.join sep (p :: q :: ps) = p ++ sep :: Json.join sep (q :: ps).
Proof. reflexivity. Qed.

Lemma parse_elements_printed items :
  items <> [] ->
  Forall parses items ->
  forall fuel rest,
    fuel_items items <= fuel ->
    Json.parse_elements fuel
      (Json.join "," (map printed_item items) ++ "]"%char :: rest)
    = Some (map norm_item items, rest).
Proof.
  intros Hne Hall. induction Hall as [|x items Hx Hall IH]; [contradiction|].
  intros fuel rest Hfuel. simpl in Hfuel.
  destruct fuel as [|fuel]; [lia|].
  destruct items as [|y items].
  - simpl map. rewrite join_one. simpl Json.parse_elements.
    rewrite (Hx fuel ("]"%char :: rest)) by (try reflexivity; lia).
    reflexivity.
  - change (map printed_item (x :: y :: items))
      with (printed_item x :: printed_item y :: map printed_item items).
    rewrite join_more, <- app_assoc. simpl Json.parse_elements.
    rewrite (Hx fuel) by (try reflexivity; lia).
    change (printed_item y :: map printed_item items)
      with (map printed_item (y :: items)).
    simpl Json.skip_ws. cbv iota beta.
    change (Ascii.eqb "," ",") with true. cbv iota.
    rewrite IH by (try discriminate; simpl in *; lia).
    reflexivity.
Qed.

Lemma parse_value_array fuel body c tail :
  body = c :: tail ->
  Json.is_ws c = false ->
  Ascii.eqb c "]" = false ->
  Json.parse_value (S fuel) ("["%char :: body)
  = match Json.parse_elements fuel body with
    | Some (vs, r) => Some (VArr vs, r)
    | None => None
    end.
Proof. intros -> Hws Hc. simpl. rewrite Hws, Hc. reflexivity. Qed.

Lemma opens_item_facts c :
  opens_item c = true ->
  Json.is_ws c = false /\ Ascii.eqb c "]" = false /\ Ascii.eqb c "}" = false.
Proof.
  unfold opens_item. intros H.
  apply andb_true_iff in H as [H H3]. apply andb_true_iff in H as [H1 H2].
  apply negb_true_iff in H1, H2, H3. auto.
Qed.

Lemma enclosed_app (a b : ascii) inner rest :
  (a :: inner ++ [b]) ++ rest = a :: inner ++ b :: rest.
Proof. simpl. rewrite <- app_assoc. reflexivity. Qed.

Lemma parses_arr items : Forall parses items -> parses (VArr items).
Proof.
  intros Hall fuel rest Hfuel Ht. rewrite fuel_arr in Hfuel.
  destruct fuel as [|fuel]; [lia|].
  unfold printed_item, norm_item. rewrite stringify_arr, json_norm_arr.
  destruct items as [|x items]; [reflexivity|].
  destruct (printed_item_head x) as (c & cs & Hcs & Hopen).
  destruct (opens_item_facts c Hopen) as (H1 & H2 & _).
  pose proof (parse_elements_printed (x :: items) ltac:(discriminate) Hall
                fuel rest ltac:(lia)) as Hel.
  rewrite enclosed_app.
  destruct (join_head "," c cs (map printed_item items) ("]"%char :: rest))
    as (tail & Htail).
  change (map printed_item (x :: items))
    with (printed_item x :: map printed_item items) in *.
  rewrite Hcs in *.
  rewrite (parse_value_array fuel _ c tail Htail H1 H2), Hel. reflexivity.
Qed.

(** Objects. *)
Lemma classic_undefined (x : value) : x = VUndefined \/ x <> VUndefined.
Proof. destruct x as [[]| |]; (left; reflexivity) || (right; discriminate). Qed.

Lemma member_defined k x rest :
  x <> VUndefined ->
  printed_members ((k, x) :: rest)
  = (Json.quoted k ++ ":"%char :: printed_item x) :: printed_members rest
  /\ norm_props ((k, x) :: rest) = (k, norm_item x) :: norm_props rest
  /\ fuel_members ((k, x) :: rest) = S (fuel_needed x + fuel_members rest).
Proof.
  intros Hx. destruct x as [[]| |]; try contradiction; repeat split; reflexivity.
Qed.

Lemma printed_members_nil props :
  printed_members props = [] -> norm_props props = [].
Proof.
  induction props as [|[k x] props IH]; [reflexivity|].
  destruct x as [[]| |]; simpl; try discriminate. exact IH.
Qed.

(** One member, then what follows it. *)
Lemma parse_members_step fuel k x tail :
  parses x ->
  fuel_needed x <= fuel ->
  terminated tail = true ->
  Json.parse_members (S fuel)
    ((Json.quoted k ++ ":"%char :: printed_item x) ++ tail)
  = match Json.skip_ws tail with
    | c :: r' =>
        if Ascii.eqb c ","
        then match Json.parse_members fuel r' with
             | Some (ms, r'') => Some ((k, norm_item x) :: ms, r'')
             | None => None
             end
        else if Ascii.eqb c "}" then Some ([(k, norm_item x)], r')
        else None
    | [] => None
    end.
Proof.
  intros Hx Hfuel Ht. unfold Json.quoted.
  rewrite <- app_assoc. rewrite enclosed_app. simpl app.
  remember (printed_item x ++ tail) as after_colon.
  simpl Json.parse_members.
  rewrite parse_string_quoted. simpl Json.skip_ws. cbv iota beta.
  change (Ascii.eqb ":" ":") with true. cbv iota.
  subst after_colon. rewrite (Hx fuel tail Hfuel Ht).
  unfold chars. rewrite string_of_list_ascii_of_string. reflexivity.
Qed.

Lemma parse_members_printed props :
  printed_members props <> [] ->
  Forall (fun kv => parses (snd kv)) props ->
  forall fuel rest,
    fuel_members props <= fuel ->
    Json.parse_members fuel
      (Json.join "," (printed_members props) ++ "}"%char :: rest)
    = Some (norm_props props, rest).
Proof.
  intros Hne Hall. induction Hall as [|[k x] props Hx Hall IH]; [contradiction|].
  intros fuel rest Hfuel.
  destruct (classic_undefined x) as [-> | Hdef].
  - apply IH; [exact Hne | exact Hfuel].
  - destruct (member_defined k x props Hdef) as (Hp & Hn & Hf).
    rewrite Hp in *. rewrite Hn. rewrite Hf in Hfuel.
    destruct fuel as [|fuel]; [lia|].
    destruct (printed_members props) as [|m ms] eqn:Hms.
    + rewrite join_one.
      rewrite parse_members_step by (try reflexivity; try exact Hx; lia).
      rewrite (printed_members_nil props Hms). reflexivity.
    + rewrite join_more, <- app_assoc.
      rewrite parse_members_step by (try reflexivity; try exact Hx; lia).
      simpl Json.skip_ws. cbv iota beta.
      change (Ascii.eqb "," ",") with true. cbv iota.
      rewrite IH by (try discriminate; lia). reflexivity.
Qed.

(** Distinct keys: building the object keeps the members as parsed. *)
Lemma set_prop_fresh k v props :
  existsb (String.eqb k) (map fst props) = false ->
  Json.set_prop k v props = props ++ [(k, v)].
Proof.
  induction props as [|[k' v'] props IH]; simpl; [reflexivity|].
  intros H. apply orb_false_iff in H as [Hk Hrest].
  rewrite Hk, (IH Hrest). reflexivity.
Qed.

Lemma distinct_app_fresh l1 k l2 :
  distinct (l1 ++ k :: l2) = true -> existsb (String.eqb k) l1 = false.
Proof.
  induction l1 as [|a l1 IH]; simpl; [reflexivity|].
  intros H. apply andb_true_iff in H as [Ha Hd].
  apply negb_true_iff in Ha. rewrite existsb_app in Ha.
  apply orb_false_iff in Ha as [_ Ha]. simpl in Ha.
  apply orb_false_iff in Ha as [Ha _].
  rewrite String.eqb_sym, Ha. simpl. apply IH. exact Hd.
Qed.

Lemma fold_set_prop members : forall acc,
  distinct (map fst (acc ++ members)) = true ->
  fold_left (fun props kv => Json.set_prop (fst kv) (snd kv) props) members acc
  = acc ++ members.
Proof.
  induction members as [|[k v] members IH]; intros acc Hd; simpl.
  - rewrite app_nil_r. reflexivity.
  - rewrite map_app in Hd. simpl in Hd.
    rewrite set_prop_fresh
      by (rewrite (distinct_app_fresh _ _ _ Hd); reflexivity).
    rewrite IH; rewrite <- app_assoc; [reflexivity|].
    rewrite map_app. exact Hd.
Qed.

Lemma make_object_distinct members :
  distinct (map fst members) = true -> Json.make_object members = VObj members.
Proof.
  intros Hd. unfold Json.make_object. rewrite (fold_set_prop members []); auto.
Qed.

Lemma norm_props_keys k props :
  existsb (String.eqb k) (map fst props) = false ->
  existsb (String.eqb k) (map fst (norm_props props)) = false.
Proof.
  induction props as [|[k' x] props IH]; [reflexivity|].
  simpl. intros H. apply orb_false_iff in H as [Hk Hrest].
  destruct x as [[]| |]; simpl; rewrite ?Hk; auto.
Qed.

Lemma norm_props_distinct props :
  distinct (map fst props) = true -> distinct (map fst (norm_props props)) = true.
Proof.
  induction props as [|[k x] props IH]; [reflexivity|].
  simpl. intros H. apply andb_true_iff in H as [Hk Hd].
  apply negb_true_iff in Hk.
  destruct x as [[]| |]; simpl; auto;
    rewrite (norm_props_keys k props Hk), (IH Hd); reflexivity.
Qed.

Lemma parse_value_object fuel body c tail :
  body = c :: tail ->
  Json.is_ws c = false ->
  Ascii.eqb c "}" = false ->
  Json.parse_value (S fuel) ("{"%char :: body)
  = match Json.parse_members fuel body with
    | Some (ms, r) => Some (Json.make_object ms, r)
    | None => None
    end.
Proof. intros -> Hws Hc. simpl. rewrite Hws, Hc. reflexivity. Qed.

Lemma parses_obj props :
  distinct (map fst props) = true ->
  Forall (fun kv => parses (snd kv)) props ->
  parses (VObj props).
Proof.
  intros Hd Hall fuel rest Hfuel Ht. rewrite fuel_obj in Hfuel.
  destruct fuel as [|fuel]; [lia|].
  unfold printed_item, norm_item. rewrite stringify_obj, json_norm_obj.
  rewrite enclosed_app.
  destruct (printed_members props) as [|m ms] eqn:Hms.
  - rewrite (printed_members_nil props Hms). reflexivity.
  - pose proof (parse_members_printed props ltac:(rewrite Hms; discriminate) Hall
                  fuel rest ltac:(lia)) as Hparse.
    rewrite Hms in Hparse.
    assert (Hm : exists cs, m = Json.quote :: cs).
    { clear -Hms. induction props as [|[k x] props IH]; [discriminate|].
      destruct x as [[]| |]; simpl in Hms; try (injection Hms as <- _; eexists; reflexivity).
      apply IH. exact Hms. }
    destruct Hm as (cs & ->).
    destruct (join_head "," Json.quote cs ms ("}"%char :: rest)) as (tail & Htail).
    rewrite (parse_value_object fuel _ Json.quote tail Htail) by reflexivity.
    rewrite Hparse, make_object_distinct by (apply norm_props_distinct; exact Hd).
    reflexivity.
Qed.

(** Every value with distinct keys is parsed back from its text. *)
Lemma parses_well_keyed v : well_keyed v = true -> parses v.
Proof.
  induction v as [p|items IH|props IH] using value_nested_ind; intros Hwk.
  - apply parses_prim.
  - apply parses_arr. simpl in Hwk.
    induction IH as [|x items Hx _ IHl]; [constructor|].
    simpl in Hwk. apply andb_true_iff in Hwk as [Hwx Hwl].
    constructor; [apply Hx; exact Hwx | apply IHl; exact Hwl].
  - simpl in Hwk. apply andb_true_iff in Hwk as [Hd Hwk].
    apply parses_obj; [exact Hd|].
    induction IH as [|[k x] props Hx _ IHl]; [constructor|].
    simpl in Hwk, Hd. apply andb_true_iff in Hwk as [Hwx Hwl].
    apply andb_true_iff in Hd as [_ Hd].
    constructor; [apply Hx; exact Hwx | apply IHl; assumption].
Qed.

(** The fuel [parse] starts with is enough. *)
Lemma length_app_cons (a b : list ascii) c :
  length (a ++ c :: b) = length a + S (length b).
Proof. rewrite length_app. reflexivity. Qed.

Lemma length_enclosed (a b : ascii) inner :
  length (a :: inner ++ [b]) = length inner + 2.
Proof. simpl. rewrite length_app. simpl. lia. Qed.

Lemma length_join_items items :
  Forall (fun x => fuel_needed x <= 2 * length (printed_item x)) items ->
  fuel_items items <= 2 * length (Json.join "," (map printed_item items)) + 1.
Proof.
  induction 1 as [|x items Hx _ IH]; [simpl; lia|].
  destruct items as [|y items].
  - simpl map. rewrite join_one. simpl fuel_items. lia.
  - change (map printed_item (x :: y :: items))
      with (printed_item x :: printed_item y :: map printed_item items).
    rewrite join_more, length_app_cons.
    change (printed_item y :: map printed_item items)
      with (map printed_item (y :: items)).
    change (fuel_items (x :: y :: items))
      with (S (fuel_needed x + fuel_items (y :: items))).
    lia.
Qed.

Lemma fuel_members_nil props :
  printed_members props = [] -> fuel_members props = 0.
Proof.
  induction props as [|[k x] props IH]; [reflexivity|].
  destruct x as [[]| |]; simpl; try discriminate. exact IH.
Qed.

Lemma length_join_members props :
  Forall (fun kv => fuel_needed (snd kv) <= 2 * length (printed_item (snd kv))) props ->
  fuel_members props <= 2 * length (Json.join "," (printed_members props)) + 1.
Proof.
  induction 1 as [|[k x] props Hx _ IH]; [simpl; lia|].
  destruct (classic_undefined x) as [-> | Hdef]; [exact IH|].
  destruct (member_defined k x props Hdef) as (-> & _ & ->).
  simpl in Hx.
  destruct (printed_members props) as [|m ms] eqn:Hms.
  - rewrite join_one, length_app_cons, (fuel_members_nil props Hms). lia.
  - rewrite join_more, length_app_cons, length_app_cons. lia.
Qed.

Lemma fuel_needed_bound v : fuel_needed v <= 2 * length (printed_item v).
Proof.
  induction v as [p|items IH|props IH] using value_nested_ind.
  - destruct p as [| |[]|n|s]; try (simpl; lia).
    change (printed_item (VNum n)) with (chars (string_of_Z n)).
    destruct (string_of_Z_head n) as (c & cs & -> & _). simpl. lia.
  - unfold printed_item. rewrite fuel_arr, stringify_arr, length_enclosed.
    pose proof (length_join_items items IH). lia.
  - unfold printed_item. rewrite fuel_obj, stringify_obj, length_enclosed.
    pose proof (length_join_members props IH). lia.
Qed.

Lemma length_string_of_chars l :
  String.length (string_of_list_ascii l) = length l.
Proof. induction l as [|c l IH]; simpl; [reflexivity | rewrite IH; reflexivity]. Qed.

(** The codec carries every value with distinct keys, up to
    normalization. *)
Theorem Json_round_trip v :
  well_keyed v = true ->
  v <> VUndefined ->
  Json.parse (Json.stringify v) = Some (json_norm v).
Proof.
  intros Hwk Hdef. unfold Json.parse, Json.stringify.
  unfold chars. rewrite list_ascii_of_string_of_list_ascii, length_string_of_chars.
  assert (Hp : printed_item v = Json.stringify_chars v)
    by (destruct v as [[]| |]; try reflexivity; contradiction).
  assert (Hn : norm_item v = json_norm v)
    by (destruct v as [[]| |]; try reflexivity; contradiction).
  pose proof (parses_well_keyed v Hwk
                (2 * length (Json.stringify_chars v) + 2) []) as H.
  rewrite Hp, app_nil_r, Hn in H.
  rewrite H; [reflexivity | | reflexivity].
  pose proof (fuel_needed_bound v). rewrite Hp in *. lia.
Qed.

(** ** The session store *)

Section SessionStore.

Variable JSON_parse : string -> option value.
Variable JSON_stringify : value -> string.

Abbreviation getStoredSession := (AuthManager.getStoredSession JSON_parse).
Abbreviation isAuthenticated := (AuthManager.isAuthenticated JSON_parse).
Abbreviation storeUserSession := (AuthManager.storeUserSession JSON_stringify).

Lemma getStoredSession_throws w :
  read_throws w = true ->
  getStoredSession w = (Ret VNull, error_logged w).
Proof.
  unfold read_throws, AuthManager.getStoredSession, getItem, error_logged.
  run_step. intros H.
  destruct (denied (localStorage w)); [reflexivity|]. simpl in H.
  destruct (truthy_item (items (localStorage w) !! AuthManager.SESSION_KEY));
    [discriminate|]. simpl in H. rewrite H. reflexivity.
Qed.

Lemma getStoredSession_reads w :
  read_throws w = false ->
  getStoredSession w
  = match stored_text w with
    | Some text =>
        if String.eqb text "" then (Ret VNull, w)
        else match JSON_parse text with
             | Some v => (Ret v, w)
             | None => (Ret VNull, error_logged w)
             end
    | None => (Ret VNull, w)
    end.
Proof.
  unfold read_throws, stored_text, AuthManager.getStoredSession, getItem,
    error_logged.
  run_step. intros H.
  destruct (denied (localStorage w)); [discriminate|]. simpl in H.
  destruct (items (localStorage w) !! AuthManager.SESSION_KEY) as [t|] eqn:Hl;
    simpl in *.
  - destruct (String.eqb t "") eqn:Ht; simpl in *.
    + rewrite H.
      destruct (items (sessionStorage w) !! AuthManager.SESSION_KEY) as [t'|];
        simpl; [|reflexivity].
      destruct (String.eqb t' ""); simpl; [reflexivity|].
      destruct (JSON_parse t'); reflexivity.
    + rewrite Ht. destruct (JSON_parse t); reflexivity.
  - rewrite H.
    destruct (items (sessionStorage w) !! AuthManager.SESSION_KEY) as [t'|];
      simpl; [|reflexivity].
    destruct (String.eqb t' ""); simpl; [reflexivity|].
    destruct (JSON_parse t'); reflexivity.
Qed.


(** C9.  In every storage state where reading the stored session fails
    (the read itself throws, or the text under the session key is not
    parseable), [getStoredSession] catches the error, logs it and returns
    null; the caller then has no session, and with no in-memory user
    [isAuthenticated] is false. *)
Theorem getStoredSession_failure_is_null (w : World) :
  read_fails JSON_parse w ->
  getStoredSession w = (Ret VNull, error_logged w)
  /\ (currentUser w = None -> result isAuthenticated w = Ret false).
Proof.
  intros Hfail.
  assert (E : getStoredSession w = (Ret VNull, error_logged w)).
  { destruct Hfail as [Hthrows | (Hreads & text & Htext & Hne & Hparse)].
    - apply getStoredSession_throws; assumption.
    - rewrite (getStoredSession_reads w Hreads), Htext, Hparse.
      apply String.eqb_neq in Hne. rewrite Hne. reflexivity. }
  split; [exact E|].
  intros Hnone. unfold AuthManager.isAuthenticated. run_step.
  rewrite Hnone, E. reflexivity.
Qed.


(** The write: one [setItem] on the durable tier. *)
Lemma storeUserSession_writes w user adminCheck :
  usable (localStorage w) ->
  storeUserSession user adminCheck w
  = (Ret tt,
     set_localStorage
       (mkStorage
          (<[AuthManager.SESSION_KEY :=
               JSON_stringify (AuthManager.sessionData user adminCheck (clock w))]>
             (items (localStorage w)))
          (denied (localStorage w)) (full (localStorage w)))
       w).
Proof.
  intros [Hd Hf]. unfold AuthManager.storeUserSession, setItem. run_step.
  rewrite Hd, Hf. reflexivity.
Qed.

(** Whatever its outcome, the write leaves the per-tab tier alone. *)
Lemma storeUserSession_per_tab w user adminCheck :
  sessionStorage (after (storeUserSession user adminCheck) w) = sessionStorage w.
Proof.
  unfold AuthManager.storeUserSession, setItem. run_step.
  destruct (denied (localStorage w)); [reflexivity|].
  destruct (full (localStorage w)); reflexivity.
Qed.

(** The delete: the key goes from both tiers. *)
Lemma clearUserSession_clears w :
  denied (localStorage w) = false ->
  denied (sessionStorage w) = false ->
  AuthManager.clearUserSession w
  = (Ret tt,
     set_sessionStorage
       (mkStorage (delete AuthManager.SESSION_KEY (items (sessionStorage w)))
          (denied (sessionStorage w)) (full (sessionStorage w)))
       (set_localStorage
          (mkStorage (delete AuthManager.SESSION_KEY (items (localStorage w)))
             (denied (localStorage w)) (full (localStorage w)))
          w)).
Proof.
  intros Hl Hs. unfold AuthManager.clearUserSession, removeItem. run_step.
  rewrite Hl. simpl. rewrite Hs. reflexivity.
Qed.

(** The read takes the durable tier's item when it has one. *)
Lemma getStoredSession_durable_first w text :
  denied (localStorage w) = false ->
  items (localStorage w) !! AuthManager.SESSION_KEY = Some text ->
  text <> EmptyString ->
  getStoredSession w
  = match JSON_parse text with
    | Some v => (Ret v, w)
    | None => (Ret VNull, error_logged w)
    end.
Proof.
  intros Hd Hitem Hne. apply String.eqb_neq in Hne.
  rewrite getStoredSession_reads.
  - unfold stored_text. rewrite Hitem. simpl. rewrite Hne. simpl.
    rewrite Hne. reflexivity.
  - unfold read_throws. rewrite Hd, Hitem. simpl. rewrite Hne. reflexivity.
Qed.

(** With nothing to use in the durable tier, it takes the per-tab tier's. *)
Lemma getStoredSession_falls_back w text :
  denied (localStorage w) = false ->
  denied (sessionStorage w) = false ->
  truthy_item (items (localStorage w) !! AuthManager.SESSION_KEY) = false ->
  items (sessionStorage w) !! AuthManager.SESSION_KEY = Some text ->
  text <> EmptyString ->
  getStoredSession w
  = match JSON_parse text with
    | Some v => (Ret v, w)
    | None => (Ret VNull, error_logged w)
    end.
Proof.
  intros Hd Hd' Hlocal Hitem Hne. apply String.eqb_neq in Hne.
  rewrite getStoredSession_reads.
  - unfold stored_text. rewrite Hlocal, Hitem, Hne. reflexivity.
  - unfold read_throws. rewrite Hd, Hd', Hlocal. reflexivity.
Qed.

Lemma getStoredSession_absent w :
  denied (localStorage w) = false ->
  denied (sessionStorage w) = false ->
  items (localStorage w) !! AuthManager.SESSION_KEY = None ->
  items (sessionStorage w) !! AuthManager.SESSION_KEY = None ->
  getStoredSession w = (Ret VNull, w).
Proof.
  intros Hd Hd' Hl Hs. rewrite getStoredSession_reads.
  - unfold stored_text. rewrite Hl, Hs. reflexivity.
  - unfold read_throws. rewrite Hd, Hd', Hl. reflexivity.
Qed.

Lemma sessionData_keys_distinct user adminCheck now props :
  AuthManager.sessionData user adminCheck now = VObj props ->
  List.NoDup (map fst props).
Proof.
  intros [= <-]. simpl.
  repeat (apply List.NoDup_cons; [simpl; intuition discriminate|]).
  apply List.NoDup_nil.
Qed.

Lemma sessionData_fields_writable user adminCheck now props :
  AuthManager.sessionData user adminCheck now = VObj props ->
  writable_field (ac_role adminCheck) ->
  writable_field (ac_permissions adminCheck) ->
  Forall (fun kv => writable_field (snd kv)) props.
Proof.
  intros [= <-] Hrole Hperms.
  apply List.Forall_cons; [right; reflexivity|].
  apply List.Forall_cons;
    [destruct (email user); [left|right|right|right|right]; reflexivity|].
  apply List.Forall_cons;
    [destruct (displayName user); [left|right|right|right|right]; reflexivity|].
  apply List.Forall_cons; [right; reflexivity|].
  apply List.Forall_cons; [exact Hrole|].
  apply List.Forall_cons.
  { simpl. destruct Hperms as [-> | Hd]; [right; reflexivity|].
    destruct (truthy (ac_permissions adminCheck)); right;
      [exact Hd | reflexivity]. }
  apply List.Forall_cons; [right; reflexivity|].
  apply List.Forall_nil.
Qed.

(** A record written to a usable durable tier reads back equal on every
    field, once the JSON functions carry its text. *)
Lemma written_record_reads_back w user adminCheck :
  let record := AuthManager.sessionData user adminCheck (clock w) in
  let w1 := after (storeUserSession user adminCheck) w in
  usable (localStorage w) ->
  JSON_stringify record <> EmptyString ->
  JSON_parse (JSON_stringify record) = Some (json_norm record) ->
  writable_field (ac_role adminCheck) ->
  writable_field (ac_permissions adminCheck) ->
  exists session,
    getStoredSession w1 = (Ret session, w1)
    /\ forall k, get_field session k = get_field record k.
Proof.
  intros record w1 Husable Hnonempty Hjson Hrole Hperms.
  assert (Hw1 : w1 = set_localStorage
            (mkStorage (<[AuthManager.SESSION_KEY := JSON_stringify record]>
                          (items (localStorage w)))
               (denied (localStorage w)) (full (localStorage w))) w).
  { unfold w1, after. rewrite (storeUserSession_writes w user adminCheck Husable).
    reflexivity. }
  assert (Hitem : items (localStorage w1) !! AuthManager.SESSION_KEY
                  = Some (JSON_stringify record)).
  { rewrite Hw1. simpl. apply lookup_insert_eq. }
  assert (Hd1 : denied (localStorage w1) = false).
  { rewrite Hw1. simpl. apply Husable. }
  exists (json_norm record). split.
  - rewrite (getStoredSession_durable_first w1 _ Hd1 Hitem Hnonempty), Hjson.
    reflexivity.
  - intros k. unfold record, AuthManager.sessionData.
    apply get_field_json_norm.
    + apply (sessionData_keys_distinct user adminCheck (clock w)). reflexivity.
    + apply (sessionData_fields_writable user adminCheck (clock w));
        [reflexivity | exact Hrole | exact Hperms].
Qed.

(** C4.  Tier discipline and round trip of the session store.  The write
    puts the record in the durable tier and leaves the per-tab tier alone;
    the read takes the durable tier's item first and falls back to the
    per-tab tier's; the delete removes the key from both tiers, wherever
    the record was.  So a record written and read back is equal to the one
    written on every field, and after the delete a read finds no record in
    either tier. *)
Theorem session_store_round_trip
    (w : World) (user : User) (adminCheck : AdminCheck) :
  let record := AuthManager.sessionData user adminCheck (clock w) in
  let w1 := after (storeUserSession user adminCheck) w in
  let w2 := after AuthManager.clearUserSession w1 in
  usable (localStorage w) ->
  denied (sessionStorage w) = false ->
  JSON_stringify record <> EmptyString ->
  JSON_parse (JSON_stringify record) = Some (json_norm record) ->
  writable_field (ac_role adminCheck) ->
  writable_field (ac_permissions adminCheck) ->
  (* the write *)
  (result (storeUserSession user adminCheck) w = Ret tt
   /\ items (localStorage w1) !! AuthManager.SESSION_KEY
      = Some (JSON_stringify record)
   /\ sessionStorage w1 = sessionStorage w)
  (* the read, in any state *)
  /\ (forall w' text,
        denied (localStorage w') = false ->
        items (localStorage w') !! AuthManager.SESSION_KEY = Some text ->
        text <> EmptyString ->
        getStoredSession w'
        = match JSON_parse text with
          | Some v => (Ret v, w')
          | None => (Ret VNull, error_logged w')
          end)
  /\ (forall w' text,
        denied (localStorage w') = false ->
        denied (sessionStorage w') = false ->
        truthy_item (items (localStorage w') !! AuthManager.SESSION_KEY) = false ->
        items (sessionStorage w') !! AuthManager.SESSION_KEY = Some text ->
        text <> EmptyString ->
        getStoredSession w'
        = match JSON_parse text with
          | Some v => (Ret v, w')
          | None => (Ret VNull, error_logged w')
          end)
  (* the delete, in any state *)
  /\ (forall w',
        denied (localStorage w') = false ->
        denied (sessionStorage w') = false ->
        let w'' := after AuthManager.clearUserSession w' in
        result AuthManager.clearUserSession w' = Ret tt
        /\ items (localStorage w'') !! AuthManager.SESSION_KEY = None
        /\ items (sessionStorage w'') !! AuthManager.SESSION_KEY = None
        /\ getStoredSession w'' = (Ret VNull, w''))
  (* write, then read *)
  /\ (exists session,
        getStoredSession w1 = (Ret session, w1)
        /\ forall k, get_field session k = get_field record k)
  (* write, delete, then read *)
  /\ (items (localStorage w2) !! AuthManager.SESSION_KEY = None
      /\ items (sessionStorage w2) !! AuthManager.SESSION_KEY = None
      /\ getStoredSession w2 = (Ret VNull, w2)).
Proof.
  intros record w1 w2 Husable Hpertab Hnonempty Hjson Hrole Hperms.
  assert (Hclear : forall w',
            denied (localStorage w') = false ->
            denied (sessionStorage w') = false ->
            let w'' := after AuthManager.clearUserSession w' in
            result AuthManager.clearUserSession w' = Ret tt
            /\ items (localStorage w'') !! AuthManager.SESSION_KEY = None
            /\ items (sessionStorage w'') !! AuthManager.SESSION_KEY = None
            /\ getStoredSession w'' = (Ret VNull, w'')).
  { intros w' Hl Hs w''. subst w''. unfold result, after.
    rewrite (clearUserSession_clears w' Hl Hs). simpl.
    split; [reflexivity|].
    split; [apply lookup_delete_eq|].
    split; [apply lookup_delete_eq|].
    apply getStoredSession_absent; simpl;
      [exact Hl | exact Hs | apply lookup_delete_eq | apply lookup_delete_eq]. }
  assert (Hw1 : w1 = set_localStorage
            (mkStorage (<[AuthManager.SESSION_KEY := JSON_stringify record]>
                          (items (localStorage w)))
               (denied (localStorage w)) (full (localStorage w))) w).
  { unfold w1, after. rewrite (storeUserSession_writes w user adminCheck Husable).
    reflexivity. }
  assert (Hitem : items (localStorage w1) !! AuthManager.SESSION_KEY
                  = Some (JSON_stringify record)).
  { rewrite Hw1. simpl. apply lookup_insert_eq. }
  assert (Hd1 : denied (localStorage w1) = false).
  { rewrite Hw1. simpl. apply Husable. }
  assert (Hs1 : sessionStorage w1 = sessionStorage w)
    by apply storeUserSession_per_tab.
  split.
  { split; [|split; assumption].
    unfold result. rewrite (storeUserSession_writes w user adminCheck Husable).
    reflexivity. }
  split; [intros; apply getStoredSession_durable_first; assumption|].
  split; [intros; apply getStoredSession_falls_back; assumption|].
  split; [exact Hclear|].
  split; [apply written_record_reads_back; assumption|].
  apply (Hclear w1 Hd1). rewrite Hs1. exact Hpertab.
Qed.

End SessionStore.

(** ** The redirect policy and the authorization gate *)

Section Authorization.

Variable JSON_parse : string -> option value.
Variable JSON_stringify : value -> string.

Abbreviation getStoredSession := (AuthManager.getStoredSession JSON_parse).
Abbreviation isAuthenticated := (AuthManager.isAuthenticated JSON_parse).
Abbreviation redirectAfterLogin := (AuthManager.redirectAfterLogin JSON_parse).
Abbreviation validateAuth := (AuthManager.validateAuth JSON_parse).
Abbreviation handleUserLogin :=
  (AuthManager.handleUserLogin JSON_parse JSON_stringify).

(** The read never throws, and at most logs an error. *)
Lemma getStoredSession_total w :
  exists session,
    getStoredSession w = (Ret session, after getStoredSession w)
    /\ (after getStoredSession w = w
        \/ (session = VNull /\ after getStoredSession w = error_logged w)).
Proof.
  unfold after.
  destruct (read_throws w) eqn:Hr.
  - rewrite (getStoredSession_throws JSON_parse w Hr). eexists. split; [reflexivity|].
    right. split; reflexivity.
  - rewrite (getStoredSession_reads JSON_parse w Hr).
    destruct (stored_text w) as [text|]; [|eexists; split; [reflexivity | left; reflexivity]].
    destruct (String.eqb text ""); [eexists; split; [reflexivity | left; reflexivity]|].
    destruct (JSON_parse text); eexists; (split; [reflexivity|]);
      [left | right; split]; reflexivity.
Qed.

(** A field of a falsy value reads as [undefined]. *)
Lemma get_field_falsy session k :
  truthy session = false -> get_field session k = VUndefined.
Proof. destruct session; [reflexivity | discriminate | discriminate]. Qed.

(** C2.  The post-login redirect policy.  With [session] the stored
    session (null when there is none): if its isAdmin is truthy and the
    path contains "admin-login" or "user-login", the page navigates to the
    admin dashboard; an admin session on any other page is left alone.
    Otherwise (no session, or a non-admin one): on a path containing
    "admin-login", the warning "Please use user login" is shown and the
    page navigates to the user login; else on a path containing
    "admin-dashboard", the error "Admin access required" is shown and the
    page navigates to the user login; else nothing happens.  A message is
    shown by handing it, with its type and the duration 5000, to the
    application's notifier, or, on a page without the notifier, by writing
    the line "[TYPE] message" to the console. *)
Theorem redirectAfterLogin_policy (w : World) :
  exists session,
    result getStoredSession w = Ret session
    /\ let w0 := after getStoredSession w in
       let w' := after redirectAfterLogin w in
       let admin := truthy (get_field session "isAdmin") in
       let on_page name := includes (pathname w) name in
       result redirectAfterLogin w = Ret tt
       /\ href w0 = href w
       /\ (admin = true ->
           on_page "admin-login" || on_page "user-login" = true ->
           w' = navigated "admin-dashboard.html" w0
           /\ href w' = href w ++ ["admin-dashboard.html"]
           /\ shown w' = shown w)
       /\ (admin = true ->
           on_page "admin-login" || on_page "user-login" = false ->
           w' = w0)
       /\ (admin = false ->
           on_page "admin-login" = true ->
           w' = navigated "user-login.html"
                  (notified "Please use user login" "warning" w0)
           /\ href w' = href w ++ ["user-login.html"]
           /\ (evApp w = true ->
               shown w' = shown w ++ [("Please use user login", "warning", 5000%Z)]
               /\ console w' = console w0)
           /\ (evApp w = false ->
               shown w' = shown w
               /\ console w'
                  = console w0 ++ [(ConsoleLog, "[WARNING] Please use user login")]))
       /\ (admin = false ->
           on_page "admin-login" = false ->
           on_page "admin-dashboard" = true ->
           w' = navigated "user-login.html"
                  (notified "Admin access required" "error" w0)
           /\ href w' = href w ++ ["user-login.html"]
           /\ (evApp w = true ->
               shown w' = shown w ++ [("Admin access required", "error", 5000%Z)]
               /\ console w' = console w0)
           /\ (evApp w = false ->
               shown w' = shown w
               /\ console w'
                  = console w0 ++ [(ConsoleLog, "[ERROR] Admin access required")]))
       /\ (admin = false ->
           on_page "admin-login" = false ->
           on_page "admin-dashboard" = false ->
           w' = w0).
Proof.
  destruct (getStoredSession_total w) as (session & Hget & Hlog).
  exists session. unfold result. rewrite Hget. split; [reflexivity|].
  set (w0 := after getStoredSession w) in *.
  assert (Hsame : pathname w0 = pathname w /\ href w0 = href w
                  /\ evApp w0 = evApp w /\ shown w0 = shown w).
  { destruct Hlog as [-> | [_ ->]]; repeat split; reflexivity. }
  destruct Hsame as (Hpath & Hhref & Happ & Hshown).
  assert (Hadmin : truthy session && truthy (get_field session "isAdmin")
                   = truthy (get_field session "isAdmin")).
  { destruct (truthy session) eqn:Ht; [reflexivity|].
    rewrite (get_field_falsy session "isAdmin" Ht). reflexivity. }
  assert (Hrun : redirectAfterLogin w
            = (Ret tt,
               if truthy (get_field session "isAdmin")
               then if includes (pathname w) "admin-login"
                       || includes (pathname w) "user-login"
                    then navigated "admin-dashboard.html" w0
                    else w0
               else if includes (pathname w) "admin-login"
                    then navigated "user-login.html"
                           (notified "Please use user login" "warning" w0)
                    else if includes (pathname w) "admin-dashboard"
                    then navigated "user-login.html"
                           (notified "Admin access required" "error" w0)
                    else w0)).
  { unfold AuthManager.redirectAfterLogin, notified, logged, navigated, navigate,
      AuthManager.showNotification.
    run_step. rewrite Hget. simpl. rewrite Hadmin. fold w0.
    destruct (truthy (get_field session "isAdmin")); simpl.
    - destruct (includes (pathname w) "admin-login"
                || includes (pathname w) "user-login"); reflexivity.
    - destruct (includes (pathname w) "admin-login"); simpl;
        [destruct (evApp w0); reflexivity|].
      destruct (includes (pathname w) "admin-dashboard"); simpl;
        [destruct (evApp w0); reflexivity | reflexivity]. }
  assert (Hafter : after redirectAfterLogin w = snd (redirectAfterLogin w))
    by reflexivity.
  cbv zeta. rewrite Hafter, Hrun. cbn [fst snd].
  split; [reflexivity|]. split; [exact Hhref|].
  unfold notified, logged, navigated. rewrite Happ.
  destruct (truthy (get_field session "isAdmin"));
    destruct (includes (pathname w) "admin-login");
    destruct (includes (pathname w) "user-login");
    destruct (includes (pathname w) "admin-dashboard");
    destruct (evApp w);
    repeat match goal with
           | |- _ /\ _ => split
           | |- _ -> _ => intro
           end;
    try discriminate; simpl; rewrite ?Hhref, ?Hshown; reflexivity.
Qed.


Lemma console_only_refl w : console_only w w.
Proof. unfold console_only. destruct w; reflexivity. Qed.

Lemma console_only_trans w1 w2 w3 :
  console_only w1 w2 -> console_only w2 w3 -> console_only w1 w3.
Proof. unfold console_only. intros -> ->. reflexivity. Qed.

Lemma error_logged_console_only w : console_only w (error_logged w).
Proof. unfold console_only. destruct w; reflexivity. Qed.

(** The read sees the storage tiers only. *)
Lemma getStoredSession_console_only w w' :
  console_only w w' ->
  result getStoredSession w' = result getStoredSession w
  /\ console_only w (after getStoredSession w').
Proof.
  intros Hc. unfold result, after.
  assert (Ht : read_throws w' = read_throws w) by (rewrite Hc; reflexivity).
  assert (Hs : stored_text w' = stored_text w) by (rewrite Hc; reflexivity).
  assert (He : console_only w (error_logged w')).
  { eapply console_only_trans; [exact Hc | apply error_logged_console_only]. }
  destruct (read_throws w) eqn:Hr.
  - rewrite (getStoredSession_throws JSON_parse w Hr).
    rewrite (getStoredSession_throws JSON_parse w') by congruence.
    split; [reflexivity | exact He].
  - rewrite (getStoredSession_reads JSON_parse w Hr).
    rewrite (getStoredSession_reads JSON_parse w') by congruence.
    rewrite Hs. destruct (stored_text w) as [text|]; [|split; [reflexivity | exact Hc]].
    destruct (String.eqb text ""); [split; [reflexivity | exact Hc]|].
    destruct (JSON_parse text); split; try reflexivity; assumption.
Qed.

(** Authenticated: an in-memory user, or a stored session that is not
    null. *)
Lemma isAuthenticated_meaning w w' session :
  console_only w w' ->
  result getStoredSession w = Ret session ->
  result isAuthenticated w'
  = Ret (match currentUser w with
         | Some _ => true
         | None => negb (is_null session)
         end)
  /\ console_only w (after isAuthenticated w').
Proof.
  intros Hc Hs.
  destruct (getStoredSession_console_only w w' Hc) as [Hres Hafter].
  assert (Hu : currentUser w' = currentUser w) by (rewrite Hc; reflexivity).
  unfold AuthManager.isAuthenticated. run_step. rewrite Hu.
  destruct (currentUser w); [split; [reflexivity | exact Hc]|].
  rewrite Hs in Hres.
  destruct (getStoredSession w') as [r w''] eqn:E. simpl in *. subst r.
  split; [reflexivity | exact Hafter].
Qed.

(** The redirect to a login page: the path is stashed in the per-tab tier,
    then the navigation is requested. *)
Lemma redirectToLogin_effect role w :
  usable (sessionStorage w) ->
  AuthManager.redirectToLogin role w
  = (Ret tt,
     navigated (login_page role)
       (set_sessionStorage
          (mkStorage
             (<[AuthManager.DESTINATION_KEY := pathname w]> (items (sessionStorage w)))
             (denied (sessionStorage w)) (full (sessionStorage w)))
          w)).
Proof.
  intros [Hd Hf]. unfold AuthManager.redirectToLogin, setItem, navigated, navigate.
  run_step. rewrite Hd, Hf. reflexivity.
Qed.

(** C1, amended.  [validateAuth(requiredRole)], with [session] the stored
    session (null when none can be read): it returns true exactly when
    [session] is truthy and either [requiredRole] is not "admin" or the
    session's isAdmin is truthy, and then changes nothing.  When [session]
    is falsy, which is the case of every caller who is not authenticated
    and also of a caller whose in-memory user is set while no record is
    stored, it stashes the path, requests the login page of
    [requiredRole] and returns false.  When [session] is truthy,
    [requiredRole] is "admin" and the session's isAdmin is falsy, it shows
    "Admin access required" (the application's notifier receives the
    message with type "error", or, on a page without the notifier, the
    console the line "[ERROR] Admin access required"), stashes the path,
    requests the admin login page and returns false.  (The redirects need
    the per-tab tier to take the write.) *)
Theorem validateAuth_gate (requiredRole : string) (w : World) :
  exists session,
    result getStoredSession w = Ret session
    /\ let lacks_admin :=
         String.eqb requiredRole "admin"
         && negb (truthy (get_field session "isAdmin")) in
       (result (validateAuth requiredRole) w = Ret true
        <-> truthy session = true /\ lacks_admin = false)
       /\ (truthy session = true -> lacks_admin = false ->
           validateAuth requiredRole w = (Ret true, w))
       /\ (result isAuthenticated w = Ret false -> truthy session = false)
       /\ (truthy session = false ->
           usable (sessionStorage w) ->
           exists w',
             validateAuth requiredRole w = (Ret false, w')
             /\ href w' = href w ++ [login_page requiredRole]
             /\ items (sessionStorage w') !! AuthManager.DESTINATION_KEY
                = Some (pathname w)
             /\ localStorage w' = localStorage w
             /\ shown w' = shown w)
       /\ (truthy session = true -> lacks_admin = true ->
           usable (sessionStorage w) ->
           let w' := after (validateAuth requiredRole) w in
           validateAuth requiredRole w
           = (Ret false,
              navigated "admin-login.html"
                (stashed (pathname w)
                   (notified "Admin access required" "error" w)))
           /\ href w' = href w ++ ["admin-login.html"]
           /\ items (sessionStorage w') !! AuthManager.DESTINATION_KEY
              = Some (pathname w)
           /\ localStorage w' = localStorage w
           /\ (evApp w = true ->
               shown w' = shown w ++ [("Admin access required", "error", 5000%Z)]
               /\ console w' = console w)
           /\ (evApp w = false ->
               shown w' = shown w
               /\ console w'
                  = console w ++ [(ConsoleLog, "[ERROR] Admin access required")])).
Proof.
  destruct (getStoredSession_total w) as (session & Hget & Hlog).
  assert (Hres : result getStoredSession w = Ret session)
    by (unfold result; rewrite Hget; reflexivity).
  exists session. split; [exact Hres|]. intros lacks_admin.
  set (w0 := after getStoredSession w) in *.
  assert (Hc0 : console_only w w0).
  { destruct Hlog as [-> | [_ ->]];
      [apply console_only_refl | apply error_logged_console_only]. }
  destruct (isAuthenticated_meaning w w0 session Hc0 Hres) as [Hauth Hc1].
  unfold result, after in Hauth, Hc1.
  destruct (isAuthenticated w0) as [auth w1] eqn:Eauth.
  simpl in Hauth, Hc1. subst auth.
  (* the body of validateAuth, after its two reads *)
  assert (Hbody : validateAuth requiredRole w
            = let authenticated := match currentUser w with
                                   | Some _ => true
                                   | None => negb (is_null session)
                                   end in
              if negb authenticated || negb (truthy session)
              then (AuthManager.redirectToLogin requiredRole;; mret false) w1
              else if lacks_admin
              then (AuthManager.showNotification "Admin access required" "error" 5000;;
                    AuthManager.redirectToLogin "admin";; mret false) w1
              else (Ret true, w1)).
  { unfold AuthManager.validateAuth. unfold mbind at 1. unfold M_bind at 1.
    rewrite Hget. fold w0. unfold mbind at 1. unfold M_bind at 1.
    rewrite Eauth. simpl.
    destruct (negb _ || negb (truthy session)); [reflexivity|].
    fold lacks_admin. destruct lacks_admin; reflexivity. }
  (* a truthy session: nothing was logged, and the caller is authenticated *)
  assert (Htruthy : truthy session = true ->
            w1 = w /\ match currentUser w with
                      | Some _ => true
                      | None => negb (is_null session)
                      end = true).
  { intros Ht.
    assert (Hw0 : w0 = w).
    { destruct Hlog as [-> | [-> _]]; [reflexivity | discriminate]. }
    split.
    - rewrite Hw0 in Eauth. revert Eauth.
      unfold AuthManager.isAuthenticated. run_step.
      destruct (currentUser w); [intros [= <-]; reflexivity|].
      rewrite Hget. fold w0. rewrite Hw0. intros [= <-]. reflexivity.
    - destruct (currentUser w); [reflexivity|].
      destruct session as [[]| |]; try reflexivity; discriminate. }
  split.
  { rewrite (f_equal fst Hbody : result (validateAuth requiredRole) w = _).
    simpl. split.
    - destruct (truthy session) eqn:Ht.
      + destruct (Htruthy eq_refl) as [_ ->]. simpl.
        destruct lacks_admin; [|split; reflexivity].
        unfold AuthManager.showNotification, AuthManager.redirectToLogin, setItem.
        run_step.
        destruct (evApp w1); simpl;
          destruct (denied (sessionStorage w1)); simpl; try discriminate;
          destruct (full (sessionStorage w1)); simpl; discriminate.
      + rewrite orb_true_r.
        unfold AuthManager.redirectToLogin, setItem. run_step.
        destruct (denied (sessionStorage w1)); simpl; try discriminate;
          destruct (full (sessionStorage w1)); simpl; discriminate.
    - intros [Ht Hl]. destruct (Htruthy Ht) as [_ ->]. rewrite Ht, Hl. reflexivity. }
  split.
  { intros Ht Hl. rewrite Hbody. simpl.
    destruct (Htruthy Ht) as [-> ->]. rewrite Ht, Hl. reflexivity. }
  split.
  { destruct (isAuthenticated_meaning w w session (console_only_refl w) Hres)
      as [Hauth' _].
    rewrite Hauth'. intros [= Hfalse].
    destruct (currentUser w); [discriminate|].
    destruct session as [[]| |]; try discriminate; reflexivity. }
  split.
  { intros Ht Huse. rewrite Hbody. simpl. rewrite Ht, orb_true_r.
    assert (Huse1 : usable (sessionStorage w1)) by (rewrite Hc1; exact Huse).
    unfold mbind, M_bind. rewrite (redirectToLogin_effect requiredRole w1 Huse1).
    eexists. split; [reflexivity|].
    unfold navigated, navigate, after. run_step. rewrite Hc1. simpl.
    split; [reflexivity|].
    split; [apply lookup_insert_eq|].
    split; reflexivity. }
  intros Ht Hl Huse w'.
  assert (Hrun : validateAuth requiredRole w
            = (Ret false,
               navigated "admin-login.html"
                 (stashed (pathname w)
                    (notified "Admin access required" "error" w)))).
  { rewrite Hbody. simpl.
    destruct (Htruthy Ht) as [-> ->]. rewrite Ht, Hl. simpl.
    unfold notified, logged, AuthManager.showNotification. run_step.
    assert (Huse' : forall w', sessionStorage w' = sessionStorage w ->
              usable (sessionStorage w')) by (intros w'' ->; exact Huse).
    destruct (evApp w); simpl;
      rewrite redirectToLogin_effect by (apply Huse'; reflexivity);
      reflexivity. }
  split; [exact Hrun|].
  unfold w', after. rewrite Hrun. unfold navigated, stashed, notified, logged. simpl.
  destruct (evApp w); simpl.
  - split; [reflexivity|]. split; [apply lookup_insert_eq|]. split; [reflexivity|].
    split; [intros _; split; reflexivity | discriminate].
  - split; [reflexivity|]. split; [apply lookup_insert_eq|]. split; [reflexivity|].
    split; [discriminate | intros _; split; reflexivity].
Qed.


Lemma showNotification_runs message type w :
  AuthManager.showNotification message type 5000 w
  = (Ret tt, notified message type w).
Proof.
  unfold notified, after, AuthManager.showNotification. run_step.
  destruct (evApp w); reflexivity.
Qed.

Lemma notified_keeps message type w :
  localStorage (notified message type w) = localStorage w
  /\ sessionStorage (notified message type w) = sessionStorage w
  /\ href (notified message type w) = href w
  /\ currentUser (notified message type w) = currentUser w
  /\ isAdmin (notified message type w) = isAdmin w.
Proof.
  unfold notified, after, AuthManager.showNotification. run_step.
  destruct (evApp w); repeat split; reflexivity.
Qed.

Lemma logger_error_runs message w :
  AuthManager.logger_error message w
  = (Ret tt, after (AuthManager.logger_error message) w).
Proof. reflexivity. Qed.

Lemma logger_info_runs message w :
  AuthManager.logger_info message w
  = (Ret tt, after (AuthManager.logger_info message) w).
Proof. reflexivity. Qed.

(** The role lookup never throws, and at most writes to the console. *)
Lemma checkAdminRole_total userId w :
  exists adminCheck w',
    checkAdminRole userId w = (Ret adminCheck, w') /\ console_only w w'.
Proof.
  destruct (outage (firestore w)) as [msg|] eqn:Hout.
  - rewrite (checkAdminRole_error _ _ _ Hout). do 2 eexists.
    split; [reflexivity|]. unfold console_only. destruct w; reflexivity.
  - destruct (adminUsers (firestore w) !! userId) as [fields|] eqn:Hdoc.
    + rewrite (checkAdminRole_found _ _ _ Hout Hdoc). do 2 eexists.
      split; [reflexivity | apply console_only_refl].
    + rewrite (checkAdminRole_missing _ _ Hout Hdoc). do 2 eexists.
      split; [reflexivity | apply console_only_refl].
Qed.

(** A durable tier that refuses the write makes the session write throw,
    with nothing changed. *)
Lemma storeUserSession_fails w user adminCheck :
  denied (localStorage w) = true \/ full (localStorage w) = true ->
  exists e,
    AuthManager.storeUserSession JSON_stringify user adminCheck w = (Throw e, w).
Proof.
  intros H. unfold AuthManager.storeUserSession, setItem. run_step.
  destruct (denied (localStorage w)); [eexists; reflexivity|].
  destruct H as [H|H]; [discriminate|]. rewrite H. eexists; reflexivity.
Qed.

(** What the redirect policy leaves alone. *)
Lemma redirectAfterLogin_keeps w :
  result redirectAfterLogin w = Ret tt
  /\ localStorage (after redirectAfterLogin w) = localStorage w
  /\ sessionStorage (after redirectAfterLogin w) = sessionStorage w
  /\ currentUser (after redirectAfterLogin w) = currentUser w
  /\ isAdmin (after redirectAfterLogin w) = isAdmin w.
Proof.
  destruct (getStoredSession_total w) as (session & Hget & Hlog).
  set (w0 := after getStoredSession w) in *.
  assert (Hc : console_only w w0).
  { destruct Hlog as [-> | [_ ->]];
      [apply console_only_refl | apply error_logged_console_only]. }
  unfold result, after, AuthManager.redirectAfterLogin, navigate,
    AuthManager.showNotification.
  run_step. rewrite Hget. simpl.
  destruct (truthy session && truthy (get_field session "isAdmin")); simpl.
  - destruct (includes (pathname w) "admin-login" || includes (pathname w) "user-login");
      simpl; rewrite Hc; repeat split; reflexivity.
  - destruct (includes (pathname w) "admin-login"); simpl;
      [|destruct (includes (pathname w) "admin-dashboard"); simpl];
      try destruct (evApp w0); simpl; rewrite Hc; repeat split; reflexivity.
Qed.

Lemma redirectAfterLogin_runs w :
  redirectAfterLogin w = (Ret tt, after redirectAfterLogin w).
Proof.
  destruct (redirectAfterLogin_keeps w) as [Hr _]. unfold result, after in *.
  destruct (redirectAfterLogin w) as [r w']. simpl in *. subst r. reflexivity.
Qed.

(** The role lookup, as a function of the state. *)
Lemma checkAdminRole_runs userId w :
  checkAdminRole userId w = (Ret (lookup_answer w userId), looked_up w).
Proof.
  unfold lookup_answer, looked_up.
  destruct (outage (firestore w)) as [msg|] eqn:Hout.
  - apply checkAdminRole_error. exact Hout.
  - destruct (adminUsers (firestore w) !! userId) as [fields|] eqn:Hdoc.
    + apply checkAdminRole_found; assumption.
    + apply checkAdminRole_missing; assumption.
Qed.

(** What the redirect policy adds to the notifications and to the console:
    at most one of its two messages, and never the failure message. *)
Lemma redirectAfterLogin_shows w :
  exists more lines,
    shown (after redirectAfterLogin w) = shown w ++ more
    /\ console (after redirectAfterLogin w) = console w ++ lines
    /\ ~ In ("Authentication failed", "error", 5000%Z) more
    /\ (evApp w = false -> more = []).
Proof.
  destruct (getStoredSession_total w) as (session & Hget & Hlog).
  set (w0 := after getStoredSession w) in *.
  unfold after at 1 2, AuthManager.redirectAfterLogin, navigate,
    AuthManager.showNotification.
  run_step. rewrite Hget. simpl.
  assert (Hw0 : exists l0, console w0 = console w ++ l0 /\ shown w0 = shown w
                           /\ evApp w0 = evApp w).
  { destruct Hlog as [-> | [_ ->]]; eexists;
      [split; [symmetry; apply app_nil_r | split; reflexivity]
      | split; [reflexivity | split; reflexivity]]. }
  destruct Hw0 as (l0 & Hc & Hs & Ha).
  destruct (truthy session && truthy (get_field session "isAdmin")); simpl.
  - exists [], l0.
    destruct (includes (pathname w) "admin-login" || includes (pathname w) "user-login");
      simpl; rewrite Hs, Hc, app_nil_r; repeat split; auto.
  - destruct (includes (pathname w) "admin-login"); simpl.
    + rewrite Ha. destruct (evApp w); simpl; rewrite Hs, Hc.
      * exists [("Please use user login", "warning", 5000%Z)], l0.
        repeat split; [intros [H|[]]; discriminate | discriminate].
      * exists [], (l0 ++ [(ConsoleLog, "[WARNING] Please use user login")]).
        rewrite app_nil_r, app_assoc. repeat split; auto.
    + destruct (includes (pathname w) "admin-dashboard"); simpl.
      * rewrite Ha. destruct (evApp w); simpl; rewrite Hs, Hc.
        -- exists [("Admin access required", "error", 5000%Z)], l0.
           repeat split; [intros [H|[]]; discriminate | discriminate].
        -- exists [], (l0 ++ [(ConsoleLog, "[ERROR] Admin access required")]).
           rewrite app_nil_r, app_assoc. repeat split; auto.
      * exists [], l0. rewrite Hs, Hc, app_nil_r. repeat split; auto.
Qed.

(** C3, amended.  The login handler never throws.  When the session write
    fails (the durable tier refuses it), the handler writes the line
    "[AuthManager] ERROR: Login handler error" to the error channel of the
    console and shows the failure notification "Authentication failed"
    (the application's notifier receives it with type "error", or, on a
    page without the notifier, the console the line "[ERROR]
    Authentication failed"); it requests no navigation and leaves both
    storage tiers, hence the persisted record, as they were; the in-memory
    currentUser is by then the new user and isAdmin the answer of the role
    lookup.  An error of the role lookup is no failure of the handler: the
    lookup writes "Admin check error:" to the console and answers isAdmin
    false, the record is written with isAdmin false and the login goes on
    to the log line "[AuthManager] INFO: User authenticated", the success
    notification "Authentication successful!" and the redirect policy;
    no failure notification is shown. *)
Theorem handleUserLogin_on_failure (user : User) (w : World) :
  let adminCheck := lookup_answer w (uid user) in
  let w_lookup :=
    set_isAdmin (ac_isAdmin adminCheck) (looked_up (set_currentUser (Some user) w)) in
  let w' := after (handleUserLogin user) w in
  result (handleUserLogin user) w = Ret tt
  /\ (denied (localStorage w) = true \/ full (localStorage w) = true ->
      w' = notified "Authentication failed" "error"
             (logged ConsoleError "[AuthManager] ERROR: Login handler error" w_lookup)
      /\ localStorage w' = localStorage w
      /\ sessionStorage w' = sessionStorage w
      /\ href w' = href w
      /\ currentUser w' = Some user
      /\ isAdmin w' = ac_isAdmin adminCheck
      /\ (evApp w = true ->
          shown w' = shown w ++ [("Authentication failed", "error", 5000%Z)]
          /\ console w'
             = console w_lookup
               ++ [(ConsoleError, "[AuthManager] ERROR: Login handler error")])
      /\ (evApp w = false ->
          shown w' = shown w
          /\ console w'
             = console w_lookup
               ++ [(ConsoleError, "[AuthManager] ERROR: Login handler error");
                   (ConsoleLog, "[ERROR] Authentication failed")]))
  /\ (forall msg,
        outage (firestore w) = Some msg ->
        usable (localStorage w) ->
        let record := AuthManager.sessionData user adminCheck (clock w) in
        let w_stored :=
          set_localStorage
            (mkStorage
               (<[AuthManager.SESSION_KEY := JSON_stringify record]>
                  (items (localStorage w)))
               (denied (localStorage w)) (full (localStorage w)))
            w_lookup in
        adminCheck = mkAdminCheck false VUndefined VUndefined (VStr msg)
        /\ w' = after redirectAfterLogin
                  (notified "Authentication successful!" "success"
                     (logged ConsoleLog "[AuthManager] INFO: User authenticated"
                        w_stored))
        /\ items (localStorage w') !! AuthManager.SESSION_KEY
           = Some (JSON_stringify record)
        /\ currentUser w' = Some user
        /\ isAdmin w' = false
        /\ (evApp w = true ->
            exists more lines,
              shown w'
              = shown w ++ ("Authentication successful!", "success", 5000%Z) :: more
              /\ ~ In ("Authentication failed", "error", 5000%Z) more
              /\ console w'
                 = console w
                   ++ (ConsoleError, "Admin check error:")
                   :: (ConsoleLog, "[AuthManager] INFO: User authenticated")
                   :: lines)
        /\ (evApp w = false ->
            exists lines,
              shown w' = shown w
              /\ console w'
                 = console w
                   ++ (ConsoleError, "Admin check error:")
                   :: (ConsoleLog, "[AuthManager] INFO: User authenticated")
                   :: (ConsoleLog, "[SUCCESS] Authentication successful!")
                   :: lines)).
Proof.
  intros adminCheck w_lookup w'.
  set (wu := set_currentUser (Some user) w).
  assert (Hlookup : checkAdminRole (uid user) wu = (Ret adminCheck, looked_up wu))
    by apply checkAdminRole_runs.
  assert (Hsame : localStorage w_lookup = localStorage w
                  /\ sessionStorage w_lookup = sessionStorage w
                  /\ href w_lookup = href w
                  /\ shown w_lookup = shown w
                  /\ evApp w_lookup = evApp w
                  /\ clock w_lookup = clock w
                  /\ currentUser w_lookup = Some user
                  /\ isAdmin w_lookup = ac_isAdmin adminCheck).
  { unfold w_lookup, looked_up, logged, wu. simpl.
    destruct (outage (firestore w)); repeat split; reflexivity. }
  destruct Hsame as (Hl & Hs & Hh & Hsh & Ha & Hclock & Hu & Hadm).
  assert (Hconsole : forall msg, outage (firestore w) = Some msg ->
            console w_lookup = console w ++ [(ConsoleError, "Admin check error:")]).
  { intros msg Hout. unfold w_lookup, looked_up, logged, wu. simpl.
    rewrite Hout. reflexivity. }
  (* the handler, up to the session write *)
  assert (Hbody : handleUserLogin user w
            = try_catch
                (AuthManager.storeUserSession JSON_stringify user adminCheck;;
                 AuthManager.logger_info "User authenticated";;
                 AuthManager.showNotification "Authentication successful!" "success" 5000;;
                 redirectAfterLogin)
                (fun error =>
                   AuthManager.logger_error "Login handler error";;
                   AuthManager.showNotification "Authentication failed" "error" 5000)
                w_lookup).
  { unfold AuthManager.handleUserLogin, try_catch.
    unfold mbind at 1. unfold M_bind at 1. unfold modify at 1. fold wu.
    unfold mbind at 1. unfold M_bind at 1. rewrite Hlookup.
    unfold mbind at 1. unfold M_bind at 1. unfold modify at 1. reflexivity. }
  clearbody w_lookup. clear Hlookup.
  split.
  { unfold result. rewrite Hbody. unfold try_catch.
    match goal with
    | |- fst (match ?body with _ => _ end) = _ =>
        destruct body as [[[]|e] w1]
    end; [reflexivity|].
    unfold mbind, M_bind. rewrite logger_error_runs, showNotification_runs.
    reflexivity. }
  split.
  - intros Hrefuse.
    destruct (storeUserSession_fails w_lookup user adminCheck) as (e & Hstore);
      [rewrite Hl; exact Hrefuse|].
    assert (Hrun : handleUserLogin user w
              = (Ret tt,
                 notified "Authentication failed" "error"
                   (logged ConsoleError "[AuthManager] ERROR: Login handler error"
                      w_lookup))).
    { rewrite Hbody. unfold try_catch.
      unfold mbind at 1. unfold M_bind at 1. rewrite Hstore.
      unfold mbind, M_bind. rewrite logger_error_runs, showNotification_runs.
      reflexivity. }
    assert (Hw' : w' = notified "Authentication failed" "error"
                         (logged ConsoleError "[AuthManager] ERROR: Login handler error"
                            w_lookup)).
    { unfold w', after. rewrite Hrun. reflexivity. }
    split; [exact Hw'|]. rewrite Hw'. unfold notified, logged.
    cbn [evApp set_console]. rewrite Ha.
    destruct (evApp w); simpl; rewrite ?Hl, ?Hs, ?Hh, ?Hsh, ?Hu, ?Hadm;
      repeat match goal with
             | |- _ /\ _ => split
             | |- _ -> _ => intro
             end; try discriminate; rewrite <- ?app_assoc; reflexivity.
  - intros msg Hout Huse record w_stored.
    assert (Hcheck : adminCheck = mkAdminCheck false VUndefined VUndefined (VStr msg)).
    { unfold adminCheck, lookup_answer. rewrite Hout. reflexivity. }
    assert (Husea : usable (localStorage w_lookup)) by (rewrite Hl; exact Huse).
    pose proof (storeUserSession_writes JSON_stringify w_lookup user adminCheck Husea)
      as Hstore.
    rewrite Hclock, Hl in Hstore. fold record w_stored in Hstore.
    assert (Hst : evApp w_stored = evApp w
                  /\ shown w_stored = shown w
                  /\ console w_stored = console w_lookup
                  /\ currentUser w_stored = Some user
                  /\ isAdmin w_stored = false
                  /\ items (localStorage w_stored) !! AuthManager.SESSION_KEY
                     = Some (JSON_stringify record)).
    { unfold w_stored. cbn [evApp shown console currentUser isAdmin localStorage
                            set_localStorage items].
      rewrite Hadm, Hcheck. repeat split; try assumption. apply lookup_insert_eq. }
    destruct Hst as (Hse & Hss & Hsc & Hsu & Hsa & Hsi).
    clearbody w_stored.
    set (w_shown := notified "Authentication successful!" "success"
                      (logged ConsoleLog "[AuthManager] INFO: User authenticated"
                         w_stored)).
    assert (Hrun : handleUserLogin user w = (Ret tt, after redirectAfterLogin w_shown)).
    { rewrite Hbody. unfold try_catch.
      unfold mbind at 1. unfold M_bind at 1. rewrite Hstore.
      unfold mbind, M_bind.
      rewrite logger_info_runs, showNotification_runs, redirectAfterLogin_runs.
      reflexivity. }
    assert (Hw' : w' = after redirectAfterLogin w_shown).
    { unfold w', after at 1. rewrite Hrun. reflexivity. }
    split; [exact Hcheck|]. split; [exact Hw'|].
    destruct (redirectAfterLogin_keeps w_shown) as (_ & Hkl & _ & Hku & Hka).
    destruct (redirectAfterLogin_shows w_shown)
      as (more & lines & Hmore & Hlines & Hnot & Hnone).
    rewrite <- Hw' in Hkl, Hku, Hka, Hmore, Hlines.
    assert (Hfacts : localStorage w_shown = localStorage w_stored
                     /\ currentUser w_shown = Some user
                     /\ isAdmin w_shown = false
                     /\ evApp w_shown = evApp w
                     /\ (evApp w = true ->
                         shown w_shown
                         = shown w ++ [("Authentication successful!", "success", 5000%Z)]
                         /\ console w_shown
                            = console w_lookup
                              ++ [(ConsoleLog, "[AuthManager] INFO: User authenticated")])
                     /\ (evApp w = false ->
                         shown w_shown = shown w
                         /\ console w_shown
                            = console w_lookup
                              ++ [(ConsoleLog, "[AuthManager] INFO: User authenticated");
                                  (ConsoleLog, "[SUCCESS] Authentication successful!")])).
    { unfold w_shown, notified, logged. cbn [evApp set_console]. rewrite Hse.
      destruct (evApp w); cbn [localStorage currentUser isAdmin evApp shown console
                               set_shown set_console];
        rewrite ?Hss, ?Hsc, ?Hsu, ?Hsa, ?Hse;
        repeat match goal with
               | |- _ /\ _ => split
               | |- _ -> _ => intro
               end; try discriminate; rewrite <- ?app_assoc; reflexivity. }
    destruct Hfacts as (Hfl & Hfu & Hfa & Hfe & Hon & Hoff).
    specialize (Hconsole msg Hout).
    split; [rewrite Hkl, Hfl; exact Hsi|].
    split; [rewrite Hku; exact Hfu|].
    split; [rewrite Hka; exact Hfa|].
    split.
    + intros Happ. destruct (Hon Happ) as [Hshown Hcons].
      exists more, lines. rewrite Hmore, Hlines, Hshown, Hcons, Hconsole.
      rewrite <- !app_assoc. split; [reflexivity|]. split; [exact Hnot | reflexivity].
    + intros Happ. destruct (Hoff Happ) as [Hshown Hcons].
      rewrite Hfe in Hnone. rewrite (Hnone Happ), app_nil_r in Hmore.
      exists lines. rewrite Hmore, Hlines, Hshown, Hcons, Hconsole.
      rewrite <- !app_assoc. split; reflexivity.
Qed.

End Authorization.

(** ** The session store over the JSON codec *)

Lemma stringify_nonempty v : Json.stringify v <> EmptyString.
Proof.
  unfold Json.stringify.
  assert (H : exists c cs, Json.stringify_chars v = c :: cs).
  { destruct (classic_undefined v) as [-> | Hdef]; [eexists _, _; reflexivity|].
    destruct (printed_item_head v) as (c & cs & Hcs & _).
    exists c, cs. rewrite <- Hcs.
    destruct v as [[]| |]; try reflexivity; contradiction. }
  destruct H as (c & cs & ->). discriminate.
Qed.

Lemma sessionData_well_keyed user adminCheck now :
  well_keyed (ac_role adminCheck) = true ->
  well_keyed (ac_permissions adminCheck) = true ->
  well_keyed (AuthManager.sessionData user adminCheck now) = true.
Proof.
  intros Hrole Hperms. unfold AuthManager.sessionData.
  change (well_keyed (VObj ?props))
    with (distinct (map fst props) && forallb (fun kv => well_keyed (snd kv)) props).
  apply andb_true_iff. split; [reflexivity|].
  simpl. rewrite Hrole.
  destruct (truthy (ac_permissions adminCheck)); [rewrite Hperms|]; reflexivity.
Qed.

(** With the codec for [JSON.stringify] and [JSON.parse], nothing is
    supposed of the text: every record whose role and permissions are JSON
    data (or undefined) reads back equal on every field. *)
Lemma session_round_trip_over_codec w user adminCheck :
  let record := AuthManager.sessionData user adminCheck (clock w) in
  let w1 := after (AuthManager.storeUserSession Json.stringify user adminCheck) w in
  usable (localStorage w) ->
  well_keyed (ac_role adminCheck) = true ->
  well_keyed (ac_permissions adminCheck) = true ->
  writable_field (ac_role adminCheck) ->
  writable_field (ac_permissions adminCheck) ->
  exists session,
    AuthManager.getStoredSession Json.parse w1 = (Ret session, w1)
    /\ forall k, get_field session k = get_field record k.
Proof.
  intros record w1 Husable Hkr Hkp Hrole Hperms.
  apply written_record_reads_back; try assumption.
  - apply stringify_nonempty.
  - apply Json_round_trip; [|discriminate].
    apply sessionData_well_keyed; assumption.
Qed.

(** ** The statements at concrete pages, with the JSON codec *)

(** A deactivated admin record still makes its user an admin. *)
Lemma checkAdminRole_inactive_admin :
  lookup_prop "isActive" Examples.alice_doc = VBool false
  /\ exists adminCheck,
       result (checkAdminRole "uid-alice") (Examples.page "/user-login.html")
       = Ret adminCheck
       /\ adminCheck = Examples.alice_check.
Proof.
  split; [reflexivity|].
  destruct (checkAdminRole_is_document_existence "uid-alice"
              (Examples.page "/user-login.html"))
    as (adminCheck & Hres & _ & Hfields & _).
  exists adminCheck. split; [exact Hres|].
  apply (Hfields Examples.alice_doc); reflexivity.
Defined.

(** A durable tier holding text that is no JSON. *)
Lemma getStoredSession_failure_is_null_witness :
  let w := Examples.page_with_session "/index.html" "{bad" in
  read_fails Json.parse w
  /\ AuthManager.getStoredSession Json.parse w = (Ret VNull, error_logged w)
  /\ result (AuthManager.isAuthenticated Json.parse) w = Ret false.
Proof.
  intros w.
  assert (H : read_fails Json.parse w).
  { right. split; [reflexivity|]. exists "{bad".
    split; [reflexivity|]. split; [discriminate | reflexivity]. }
  split; [exact H|].
  destruct (getStoredSession_failure_is_null Json.parse w H) as [H1 H2].
  split; [exact H1 | apply H2; reflexivity].
Defined.

(** Alice signs in on a fresh page: her record is written, read back and
    deleted. *)
Lemma session_store_round_trip_witness :
  let w := Examples.page "/user-login.html" in
  let record := AuthManager.sessionData Examples.alice Examples.alice_check (clock w) in
  let w1 := after (AuthManager.storeUserSession Json.stringify
                     Examples.alice Examples.alice_check) w in
  usable (localStorage w)
  /\ Json.parse (Json.stringify record) = Some (json_norm record)
  /\ (exists session,
        AuthManager.getStoredSession Json.parse w1 = (Ret session, w1)
        /\ forall k, get_field session k = get_field record k)
  /\ AuthManager.getStoredSession Json.parse (after AuthManager.clearUserSession w1)
     = (Ret VNull, after AuthManager.clearUserSession w1).
Proof.
  intros w record w1.
  assert (Huse : usable (localStorage w)) by (split; reflexivity).
  assert (Hjson : Json.parse (Json.stringify record) = Some (json_norm record))
    by (vm_compute; reflexivity).
  split; [exact Huse|]. split; [exact Hjson|].
  destruct (session_store_round_trip Json.parse Json.stringify w
              Examples.alice Examples.alice_check)
    as (_ & _ & _ & _ & Hread & _ & _ & Hcleared).
  - exact Huse.
  - reflexivity.
  - vm_compute. discriminate.
  - exact Hjson.
  - right. reflexivity.
  - right. reflexivity.
  - split; [exact Hread | exact Hcleared].
Defined.

(** The two scenarios of the redirect policy: an admin session on the user
    login page, a non-admin session on the admin login page. *)
Lemma redirectAfterLogin_policy_witness :
  (let w := Examples.page_with_session "user-login.html" Examples.admin_session in
   href (after (AuthManager.redirectAfterLogin Json.parse) w)
   = ["admin-dashboard.html"])
  /\ (let w := Examples.page_with_session "admin-login.html" Examples.user_session in
      let w' := after (AuthManager.redirectAfterLogin Json.parse) w in
      href w' = ["user-login.html"]
      /\ shown w' = [("Please use user login", "warning", 5000%Z)]
      /\ console w' = []).
Proof.
  split; intros w.
  - destruct (redirectAfterLogin_policy Json.parse w)
      as (session & Hs & _ & _ & Hadmin & _).
    vm_compute in Hs. injection Hs as <-.
    destruct (Hadmin eq_refl eq_refl) as (_ & Hhref & _). exact Hhref.
  - intros w'.
    destruct (redirectAfterLogin_policy Json.parse w)
      as (session & Hs & _ & _ & _ & _ & Huser & _).
    vm_compute in Hs. injection Hs as <-.
    destruct (Huser eq_refl eq_refl) as (_ & Hhref & Hshown & _).
    destruct (Hshown eq_refl) as [Hs Hc].
    split; [exact Hhref|]. split; [exact Hs | exact Hc].
Defined.

(** In-memory authentication alone does not pass the gate: with a user set
    and no stored record, [isAuthenticated] holds, no admin role is asked
    for, and [validateAuth] still returns false. *)
Lemma validateAuth_rejects_in_memory_user :
  let w := Examples.signed_in_without_record in
  result (AuthManager.isAuthenticated Json.parse) w = Ret true
  /\ String.eqb "user" "admin" = false
  /\ result (AuthManager.validateAuth Json.parse "user") w = Ret false.
Proof. repeat split; vm_compute; reflexivity. Qed.

(** No session, and the admin role asked for: false, and the admin login
    page is requested.  With a user's session and the admin role asked
    for: false again, "Admin access required" reaches the notifier and the
    admin login page is requested. *)
Lemma validateAuth_gate_witness :
  (let w := Examples.page "/admin-dashboard.html" in
   usable (sessionStorage w)
   /\ exists w',
        AuthManager.validateAuth Json.parse "admin" w = (Ret false, w')
        /\ href w' = ["admin-login.html"]
        /\ items (sessionStorage w') !! AuthManager.DESTINATION_KEY
           = Some "/admin-dashboard.html")
  /\ (let w := Examples.page_with_session "/admin-dashboard.html"
                 Examples.user_session in
      let w' := after (AuthManager.validateAuth Json.parse "admin") w in
      usable (sessionStorage w)
      /\ result (AuthManager.validateAuth Json.parse "admin") w = Ret false
      /\ href w' = ["admin-login.html"]
      /\ shown w' = [("Admin access required", "error", 5000%Z)]
      /\ console w' = []).
Proof.
  split; intros w.
  - assert (Huse : usable (sessionStorage w)) by (split; reflexivity).
    split; [exact Huse|].
    destruct (validateAuth_gate Json.parse "admin" w)
      as (session & Hs & _ & _ & _ & Hredirect & _).
    vm_compute in Hs. injection Hs as <-.
    destruct (Hredirect eq_refl Huse) as (w' & Hrun & Hhref & Hstash & _).
    exists w'. split; [exact Hrun|]. split; [exact Hhref | exact Hstash].
  - intros w'.
    assert (Huse : usable (sessionStorage w)) by (split; reflexivity).
    split; [exact Huse|].
    destruct (validateAuth_gate Json.parse "admin" w)
      as (session & Hs & _ & _ & _ & _ & Hadmin).
    vm_compute in Hs. injection Hs as <-.
    destruct (Hadmin eq_refl eq_refl Huse) as (Hrun & Hhref & _ & _ & Hshown & _).
    destruct (Hshown eq_refl) as [Hsh Hc].
    split; [unfold result; rewrite Hrun; reflexivity|].
    split; [exact Hhref|]. split; [exact Hsh | exact Hc].
Defined.

(** A failed login does change the in-memory state: on a page whose
    durable tier is over quota the session write throws, and the handler
    leaves currentUser and isAdmin at the new user's values.  And an error
    of the role lookup raises no failure notification: the stored record is
    replaced and the login is announced as successful. *)
Lemma handleUserLogin_failure_changes_state :
  (let w := Examples.page_over_quota in
   let w' := after (AuthManager.handleUserLogin Json.parse Json.stringify
                      Examples.alice) w in
   full (localStorage w) = true
   /\ shown w' = [("Authentication failed", "error", 5000%Z)]
   /\ currentUser w = None /\ currentUser w' = Some Examples.alice
   /\ isAdmin w = false /\ isAdmin w' = true)
  /\ (let w := Examples.page_offline in
      let w' := after (AuthManager.handleUserLogin Json.parse Json.stringify
                         Examples.bob) w in
      outage (firestore w) <> None
      /\ shown w' = [("Authentication successful!", "success", 5000%Z)]
      /\ items (localStorage w') !! AuthManager.SESSION_KEY
         <> items (localStorage w) !! AuthManager.SESSION_KEY).
Proof.
  split; intros w w'.
  - repeat split; vm_compute; reflexivity.
  - split; [discriminate|]. split; [vm_compute; reflexivity|].
    vm_compute. discriminate.
Qed.

(** Alice signs in on a page whose durable tier is over quota. *)
Lemma handleUserLogin_on_failure_witness :
  let w := Examples.page_over_quota in
  let w' := after (AuthManager.handleUserLogin Json.parse Json.stringify
                     Examples.alice) w in
  (denied (localStorage w) = true \/ full (localStorage w) = true)
  /\ localStorage w' = localStorage w
  /\ sessionStorage w' = sessionStorage w
  /\ href w' = href w
  /\ currentUser w' = Some Examples.alice
  /\ shown w' = [("Authentication failed", "error", 5000%Z)]
  /\ console w' = [(ConsoleError, "[AuthManager] ERROR: Login handler error")].
Proof.
  intros w w'.
  assert (H : denied (localStorage w) = true \/ full (localStorage w) = true)
    by (right; reflexivity).
  split; [exact H|].
  destruct (handleUserLogin_on_failure Json.parse Json.stringify Examples.alice w)
    as (_ & Hfail & _).
  destruct (Hfail H) as (_ & Hl & Hs & Hh & Hu & _ & Hshown & _).
  destruct (Hshown eq_refl) as [Hsh Hc].
  repeat split; assumption.
Defined.

(** * Forms, storage, logout and the gate after a login *)

(** ** Words of the patterns *)

Lemma Lang_class_inv neg items w :
  Lang (RSet neg items) w -> exists c, w = [c] /\ set_mem neg items c = true.
Proof. intros H. inversion H; subst. eauto. Qed.

Lemma Lang_seq_iff r1 r2 w :
  Lang (RSeq r1 r2) w <-> exists w1 w2, w = w1 ++ w2 /\ Lang r1 w1 /\ Lang r2 w2.
Proof.
  split.
  - intros H. inversion H; subst. eauto.
  - intros (w1 & w2 & -> & H1 & H2). constructor; assumption.
Qed.

Lemma Lang_eps_iff w : Lang REps w <-> w = [].
Proof. split; [intros H; inversion H; reflexivity | intros ->; constructor]. Qed.

Lemma Lang_char_iff c w : Lang (RChar c) w <-> w = [c].
Proof.
  unfold RChar. split.
  - intros H. apply Lang_class_inv in H as (x & -> & Hx).
    unfold set_mem in Hx. simpl in Hx. rewrite orb_false_r in Hx.
    apply Ascii.eqb_eq in Hx. subst. reflexivity.
  - intros ->. constructor. unfold set_mem. simpl. rewrite Ascii.eqb_refl. reflexivity.
Qed.

(** [RRep n] of a character class: [n] code units or more, all in the class. *)
Lemma Lang_rep_class n neg items w :
  Lang (RRep n (RSet neg items)) w
  <-> n <= length w /\ forallb (set_mem neg items) w = true.
Proof.
  split.
  - remember (RRep n (RSet neg items)) as r eqn:Er. intros H. revert n Er.
    induction H as [| | | | | r | m r w1 w2 H1 _ H2 IH2]; intros n Er; try discriminate.
    + injection Er as <- _. split; [simpl; lia | reflexivity].
    + injection Er as -> ->.
      apply Lang_class_inv in H1 as (c & -> & Hc).
      destruct (IH2 (pred n) eq_refl) as [Hlen Hall].
      simpl. rewrite Hc, Hall. split; [lia | reflexivity].
  - revert n. induction w as [|c w IH]; intros n [Hlen Hall].
    + simpl in Hlen. assert (n = 0) as -> by lia. constructor.
    + simpl in Hall. apply andb_true_iff in Hall as [Hc Hall].
      apply (LRepStep n _ [c] w); [constructor; exact Hc|].
      apply IH. split; [simpl in Hlen; lia | exact Hall].
Qed.

(** A fully anchored pattern accepts the words of its body. *)
Lemma test_anchored body s :
  test (mkRegExp true body true) s = true <-> Lang body (chars s).
Proof.
  unfold test; simpl. rewrite matches_Lang, Lang_seq_iff. split.
  - intros (w1 & w2 & E & H1 & H2). apply Lang_eps_iff in H1 as ->.
    apply Lang_seq_iff in H2 as (u1 & u2 & -> & Hu1 & Hu2).
    apply Lang_eps_iff in Hu2 as ->. simpl in E. rewrite app_nil_r in E.
    rewrite E. exact Hu1.
  - intros H. exists [], (chars s). split; [reflexivity|].
    split; [constructor|]. apply Lang_seq_iff. exists (chars s), [].
    split; [rewrite app_nil_r; reflexivity|]. split; [exact H | constructor].
Qed.

Lemma chars_append a b : chars (a +:+ b) = chars a ++ chars b.
Proof. unfold chars. induction a as [|c a IH]; simpl; [reflexivity | rewrite IH; reflexivity]. Qed.

Lemma chars_inj a b : chars a = chars b -> a = b.
Proof.
  unfold chars. intros H.
  rewrite <- (string_of_list_ascii_of_string a), <- (string_of_list_ascii_of_string b), H.
  reflexivity.
Qed.

Lemma chars_of_list l : chars (string_of_list_ascii l) = l.
Proof. apply list_ascii_of_string_of_list_ascii. Qed.

Lemma forallb_pointwise {A : Type} (f g : A -> bool) (l : list A) :
  (forall x, f x = g x) -> forallb f l = forallb g l.
Proof. intros E. induction l as [|x l IH]; simpl; [reflexivity | now rewrite E, IH]. Qed.

Lemma set_mem_plain c :
  set_mem true [CSpace; CChar "@"] c = plain c.
Proof.
  unfold set_mem, plain. simpl. rewrite orb_false_r.
  destruct (is_space c), (Ascii.eqb c "@"); reflexivity.
Qed.

Lemma Lang_plain w :
  Lang (RPlus FormValidator.not_space_or_at) w
  <-> w <> [] /\ forallb plain w = true.
Proof.
  unfold RPlus, FormValidator.not_space_or_at. rewrite Lang_rep_class.
  rewrite (forallb_pointwise _ plain w set_mem_plain).
  split; intros [H1 H2]; (split; [|exact H2]).
  - intros ->. simpl in H1. lia.
  - destruct w; [contradiction | simpl; lia].
Qed.

(** ** What the validator's patterns accept *)

Lemma email_pattern_shape s :
  test FormValidator.email_pattern s = true <-> email_shaped s.
Proof.
  unfold FormValidator.email_pattern. rewrite test_anchored. split.
  - intros H.
    apply Lang_seq_iff in H as (w1 & r1 & E1 & H1 & H).
    apply Lang_seq_iff in H as (a & r2 & -> & Ha & H).
    apply Lang_seq_iff in H as (w2 & r3 & -> & H2 & H).
    apply Lang_seq_iff in H as (d & w3 & -> & Hd & H3).
    apply Lang_char_iff in Ha as ->. apply Lang_char_iff in Hd as ->.
    apply Lang_plain in H1 as [N1 P1], H2 as [N2 P2], H3 as [N3 P3].
    exists (string_of_list_ascii w1), (string_of_list_ascii w2),
      (string_of_list_ascii w3).
    split.
    + apply chars_inj. rewrite !chars_append, !chars_of_list. exact E1.
    + unfold plain_text. rewrite !chars_of_list.
      repeat split; try assumption; intros E;
        apply (f_equal chars) in E; rewrite chars_of_list in E; simpl in E;
        contradiction.
  - intros (local & d1 & d2 & -> & [N1 P1] & [N2 P2] & [N3 P3]).
    rewrite !chars_append.
    assert (Hne : forall t, t <> EmptyString -> chars t <> []).
    { intros t Ht E. apply Ht. apply chars_inj. exact E. }
    apply LSeq; [apply Lang_plain; auto|].
    apply LSeq; [apply Lang_char_iff; reflexivity|].
    apply LSeq; [apply Lang_plain; auto|].
    apply LSeq; [apply Lang_char_iff; reflexivity|].
    apply Lang_plain; auto.
Qed.

Lemma validate_email_value label s :
  FormValidator.validate label (PStr s) "email"
  = Ret (if negb (String.eqb s "") && negb (test FormValidator.email_pattern s)
         then FormValidator.mkResult false (Some "Please enter a valid email address")
         else FormValidator.mkResult true None).
Proof.
  unfold FormValidator.validate, FormValidator.validate_rule,
    FormValidator.pattern_fails, FormValidator.too_short. simpl.
  destruct (negb (String.eqb s "") && negb (test FormValidator.email_pattern s));
    [reflexivity|].
  rewrite andb_false_r. reflexivity.
Qed.

(** X1.  As an email, a text validates exactly when it is empty or has the
    shape [local@domain.tld]: three non-empty parts free of white space and
    of [@], the first two joined by [@], the last two by a dot.  Every other
    text is answered with "Please enter a valid email address". *)
Theorem validate_email_shape (label s : string) :
  (FormValidator.validate label (PStr s) "email"
   = Ret (FormValidator.mkResult true None)
   <-> s = EmptyString \/ email_shaped s)
  /\ (FormValidator.validate label (PStr s) "email"
      = Ret (FormValidator.mkResult true None)
      \/ FormValidator.validate label (PStr s) "email"
         = Ret (FormValidator.mkResult false
                  (Some "Please enter a valid email address"))).
Proof.
  rewrite validate_email_value.
  destruct (String.eqb_spec s "") as [->|Hne]; simpl.
  - split; [|left; reflexivity]. split; [left; reflexivity | reflexivity].
  - destruct (test FormValidator.email_pattern s) eqn:Ht; simpl.
    + split; [|left; reflexivity].
      split; [intros _; right; apply email_pattern_shape; exact Ht | reflexivity].
    + split; [|right; reflexivity].
      split; [discriminate|].
      intros [E | Hs]; [contradiction|].
      apply email_pattern_shape in Hs. congruence.
Qed.

Lemma set_mem_phone c :
  set_mem false [CDigit; CSpace; CChar "-"; CChar "("; CChar ")"] c = phone_char c.
Proof.
  unfold set_mem, phone_char. simpl. rewrite orb_false_r.
  destruct (is_digit c), (is_space c), (Ascii.eqb c "-"), (Ascii.eqb c "("),
    (Ascii.eqb c ")"); reflexivity.
Qed.

Lemma phone_pattern_shape s :
  test FormValidator.phone_pattern s = phone_shaped s.
Proof.
  apply eq_true_iff_eq. unfold FormValidator.phone_pattern.
  rewrite test_anchored. unfold phone_shaped.
  assert (Hbody : forall w,
            Lang (RRep 10 (RSet false [CDigit; CSpace; CChar "-"; CChar "("; CChar ")"])) w
            <-> (10 <=? length w) && forallb phone_char w = true).
  { intros w. rewrite Lang_rep_class, andb_true_iff, Nat.leb_le.
    rewrite (forallb_pointwise _ phone_char w set_mem_phone). reflexivity. }
  rewrite Lang_seq_iff. split.
  - intros (w1 & w2 & E & H1 & H2). apply Hbody in H2.
    unfold ROpt in H1. inversion H1 as [| | |r1 r2 w Ha|r1 r2 w Ha| |]; subst.
    + apply Lang_eps_iff in Ha as ->. simpl in E. rewrite E.
      destruct w2 as [|c w2]; [exact H2|].
      destruct (Ascii.eqb_spec c "+") as [->|]; [|exact H2].
      apply andb_true_iff in H2 as [_ H2]. simpl in H2. discriminate.
    + apply Lang_char_iff in Ha as ->. rewrite E. simpl. exact H2.
  - intros H. destruct (chars s) as [|c w] eqn:E.
    + simpl in H. discriminate.
    + destruct (Ascii.eqb_spec c "+") as [->|Hc].
      * exists ["+"%char], w. split; [reflexivity|].
        split; [apply LAltR; apply Lang_char_iff; reflexivity | apply Hbody; exact H].
      * exists [], (c :: w). split; [reflexivity|].
        split; [apply LAltL; constructor | apply Hbody; exact H].
Qed.

Lemma validate_phone_value label s :
  FormValidator.validate label (PStr s) "phone"
  = Ret (if negb (String.eqb s "") && negb (phone_shaped s)
         then FormValidator.mkResult false (Some "Please enter a valid phone number")
         else FormValidator.mkResult true None).
Proof.
  rewrite <- phone_pattern_shape.
  unfold FormValidator.validate, FormValidator.validate_rule,
    FormValidator.pattern_fails, FormValidator.too_short. simpl.
  destruct (negb (String.eqb s "") && negb (test FormValidator.phone_pattern s));
    [reflexivity|].
  rewrite andb_false_r. reflexivity.
Qed.

(** X2.  As a phone number, a text is rejected, with "Please enter a valid
    phone number", exactly when it is not empty and is not an optional [+]
    followed by ten or more digits, white space, hyphens or parentheses. *)
Theorem validate_phone_shape (label s : string) :
  FormValidator.validate label (PStr s) "phone"
  = Ret (if negb (String.eqb s "") && negb (phone_shaped s)
         then FormValidator.mkResult false (Some "Please enter a valid phone number")
         else FormValidator.mkResult true None).
Proof. apply validate_phone_value. Qed.

Lemma chars_trim_start s : chars (trim_start s) = drop_space (chars s).
Proof.
  induction s as [|c s IH]; [reflexivity|].
  simpl. destruct (is_space c); [exact IH | reflexivity].
Qed.

Lemma chars_rev_string s : chars (rev_string s) = rev (chars s).
Proof. unfold rev_string. apply chars_of_list. Qed.

Lemma chars_trim s :
  chars (trim s) = rev (drop_space (rev (drop_space (chars s)))).
Proof.
  unfold trim. rewrite chars_rev_string, chars_trim_start, chars_rev_string,
    chars_trim_start. reflexivity.
Qed.

Lemma drop_space_nil w : drop_space w = [] <-> forallb is_space w = true.
Proof.
  induction w as [|c w IH]; simpl; [tauto|].
  destruct (is_space c); simpl; [exact IH|]. split; discriminate.
Qed.

Lemma drop_space_head w c rest :
  drop_space w = c :: rest -> is_space c = false.
Proof.
  induction w as [|a w IH]; simpl; [discriminate|].
  destruct (is_space a) eqn:Ea; [exact IH|]. intros [= <- _]. exact Ea.
Qed.

Lemma drop_space_fixed w : (forall c rest, w = c :: rest -> is_space c = false) ->
  drop_space w = w.
Proof.
  destruct w as [|c w]; [reflexivity|]. intros H. simpl.
  rewrite (H c w eq_refl). reflexivity.
Qed.

Lemma drop_space_idem w : drop_space (drop_space w) = drop_space w.
Proof.
  apply drop_space_fixed. intros c rest E. exact (drop_space_head _ _ _ E).
Qed.

Lemma drop_space_suffix w : exists spaces,
  w = spaces ++ drop_space w /\ forallb is_space spaces = true.
Proof.
  induction w as [|c w (sp & E & Hs)]; [exists []; split; reflexivity|].
  simpl. destruct (is_space c) eqn:Ec.
  - exists (c :: sp). simpl. rewrite Ec, Hs. split; [f_equal; exact E | reflexivity].
  - exists []. split; reflexivity.
Qed.

Lemma drop_space_In w c : In c (drop_space w) -> In c w.
Proof.
  destruct (drop_space_suffix w) as (sp & E & _). intros H.
  rewrite E. apply in_or_app. right. exact H.
Qed.

Lemma forallb_rev_eq (f : ascii -> bool) w : forallb f (rev w) = forallb f w.
Proof.
  induction w as [|c w IH]; [reflexivity|].
  simpl. rewrite forallb_app, IH. simpl. rewrite andb_true_r. apply andb_comm.
Qed.

(** A string trims to nothing exactly when it is blank. *)
Lemma trim_empty s : trim s = EmptyString <-> blank s = true.
Proof.
  unfold blank. rewrite <- drop_space_nil. split.
  - intros E. apply (f_equal chars) in E. rewrite chars_trim in E. simpl in E.
    apply (f_equal (@rev ascii)) in E. rewrite rev_involutive in E. simpl in E.
    apply drop_space_nil in E. rewrite forallb_rev_eq in E.
    apply drop_space_nil in E. rewrite drop_space_idem in E. exact E.
  - intros E. apply chars_inj. rewrite chars_trim, E. reflexivity.
Qed.

(** Trimming drops white space at both ends only. *)
Lemma rev_drop_space_keeps_head w :
  drop_space w = w -> drop_space (rev (drop_space (rev w))) = rev (drop_space (rev w)).
Proof.
  intros Hw. apply drop_space_fixed. intros c rest E.
  destruct (drop_space_suffix (rev w)) as (sp & Esp & Hsp).
  destruct w as [|a w']; [simpl in E; discriminate|].
  assert (Ha : is_space a = false).
  { simpl in Hw. destruct (is_space a); [|reflexivity].
    exfalso. pose proof (f_equal (@length ascii) Hw) as L.
    destruct (drop_space_suffix w') as (sp' & E' & _).
    rewrite E' in L at 2. simpl in L. rewrite length_app in L. lia. }
  (* the head of [rev (drop_space (rev w))] is [a] *)
  apply (f_equal (@rev ascii)) in Esp. rewrite rev_involutive, rev_app_distr in Esp.
  rewrite E in Esp.
  assert (Hnot : drop_space (rev (a :: w')) <> []).
  { intros N. apply drop_space_nil in N. rewrite forallb_rev_eq in N. simpl in N.
    rewrite Ha in N. discriminate. }
  simpl in Esp. injection Esp as <- _. exact Ha.
Qed.

Lemma trim_trimmed s : trimmed (chars (trim s)).
Proof.
  unfold trimmed. rewrite chars_trim. split.
  - apply rev_drop_space_keeps_head. apply drop_space_idem.
  - rewrite rev_involutive. apply drop_space_idem.
Qed.

Lemma trim_fixed s : trimmed (chars s) -> trim s = s.
Proof.
  intros [H1 H2]. apply chars_inj. rewrite chars_trim, H1, H2.
  apply rev_involutive.
Qed.

Lemma trim_idem s : trim (trim s) = trim s.
Proof. apply trim_fixed, trim_trimmed. Qed.

Lemma trim_In s c : In c (chars (trim s)) -> In c (chars s).
Proof.
  rewrite chars_trim. intros H. apply in_rev in H.
  apply drop_space_In in H. apply in_rev in H. apply drop_space_In in H. exact H.
Qed.




Lemma validate_rule_not_required rule label value :
  FormValidator.required rule = PUndefined ->
  exists r, FormValidator.validate_rule rule label value = Ret r
    /\ (r = FormValidator.mkResult true None
        \/ (r = FormValidator.mkResult false (Some (FormValidator.message rule))
            /\ truthy_prim value = true)).
Proof.
  intros Hreq. unfold FormValidator.validate_rule. rewrite Hreq. simpl.
  destruct (truthy_prim value); simpl.
  - destruct (FormValidator.pattern_fails rule value);
      [eexists; split; [reflexivity|right; split; reflexivity]|].
    destruct (FormValidator.too_short rule value);
      eexists; (split; [reflexivity|]); [right; split; reflexivity | left; reflexivity].
  - eexists; split; [reflexivity | left; reflexivity].
Qed.

(** X4.  On a value that is [undefined], [null], a boolean, a safe integer
    or a string, [validate] never throws.  Its answer is either valid,
    without a message, or invalid with the message of the kind's rule, and
    then the value is truthy; no answer is "... is required", since no
    built-in rule sets [required].  A kind other than "email", "phone" and
    "password" accepts every such value. *)
Theorem validate_never_throws (label : string) (value : prim) (kind : string) :
  safe value = true ->
  exists r, FormValidator.validate label value kind = Ret r
    /\ (r = FormValidator.mkResult true None
        \/ (truthy_prim value = true
            /\ exists rule, FormValidator.rules kind = Some rule
                 /\ r = FormValidator.mkResult false (Some (FormValidator.message rule))))
    /\ (kind <> "email"%string -> kind <> "phone"%string -> kind <> "password"%string ->
        r = FormValidator.mkResult true None).
Proof.
  intros _. unfold FormValidator.validate.
  destruct (FormValidator.rules kind) as [rule|] eqn:Hrule.
  - destruct (validate_rule_not_required rule label value) as (r & Hr & Hcases).
    { exact (builtin_rules_not_required kind rule Hrule). }
    exists r. split; [exact Hr|]. split.
    + destruct Hcases as [-> | [-> Ht]]; [left; reflexivity|].
      right. split; [exact Ht|]. exists rule. split; reflexivity.
    + intros He Hp Hw. exfalso. unfold FormValidator.rules in Hrule.
      destruct (String.eqb_spec kind "email"); [contradiction|].
      destruct (String.eqb_spec kind "phone"); [contradiction|].
      destruct (String.eqb_spec kind "password"); [contradiction|discriminate].
  - eexists. split; [reflexivity|]. split; [left; reflexivity | reflexivity].
Qed.

Lemma validate_never_throws_witness :
  safe (PNum 5) = true
  /\ exists r, FormValidator.validate "Email" (PNum 5) "email" = Ret r
       /\ (r = FormValidator.mkResult true None
           \/ (truthy_prim (PNum 5) = true
               /\ exists rule, FormValidator.rules "email" = Some rule
                    /\ r = FormValidator.mkResult false
                             (Some (FormValidator.message rule))))
       /\ ("email" <> "email" -> "email" <> "phone" -> "email" <> "password" ->
           r = FormValidator.mkResult true None)%string.
Proof.
  split; [reflexivity|].
  apply (validate_never_throws "Email" (PNum 5) "email"). reflexivity.
Defined.

(** ** Input sanitizing *)

Lemma trim_frame s : exists pre post,
  chars s = pre ++ chars (trim s) ++ post
  /\ forallb is_space pre = true /\ forallb is_space post = true.
Proof.
  destruct (drop_space_suffix (chars s)) as (pre & E1 & H1).
  destruct (drop_space_suffix (rev (drop_space (chars s)))) as (sp & E2 & H2).
  exists pre, (rev sp). split; [|split; [exact H1 | rewrite forallb_rev_eq; exact H2]].
  rewrite chars_trim. rewrite <- rev_app_distr, <- E2, rev_involutive. exact E1.
Qed.

Lemma set_mem_bracket c : set_mem false [CChar "<"; CChar ">"] c = bracket c.
Proof. unfold set_mem, bracket. simpl. rewrite orb_false_r. reflexivity. Qed.

Lemma chars_remove_brackets s :
  chars (remove_matching false [CChar "<"; CChar ">"] s)
  = List.filter (fun c => negb (bracket c)) (chars s).
Proof.
  unfold remove_matching. rewrite chars_of_list.
  apply filter_ext. intros c. rewrite set_mem_bracket. reflexivity.
Qed.

Lemma filter_fixed {A : Type} (f : A -> bool) (l : list A) :
  (forall x, In x l -> f x = true) -> List.filter f l = l.
Proof.
  induction l as [|x l IH]; [reflexivity|]. intros H. simpl.
  rewrite (H x (or_introl eq_refl)), IH; [reflexivity|].
  intros y Hy. apply H. right. exact Hy.
Qed.

Lemma sanitized_no_bracket s c :
  In c (chars (trim (remove_matching false [CChar "<"; CChar ">"] s))) ->
  bracket c = false.
Proof.
  intros H. apply trim_In in H. rewrite chars_remove_brackets in H.
  apply filter_In in H as [_ H]. apply negb_true_iff. exact H.
Qed.

(** X5.  The sanitized form of a text holds no angle bracket and no white
    space at either end, and sanitizing it again changes nothing. *)
Theorem sanitizeInput_clean (s : string) :
  exists t, EVRechargeApp.sanitizeInput (PStr s) = PStr t
    /\ (forall c, In c (chars t) -> bracket c = false)
    /\ trimmed (chars t)
    /\ EVRechargeApp.sanitizeInput (PStr t) = PStr t.
Proof.
  eexists. split; [reflexivity|]. split; [|split].
  - intros c. apply sanitized_no_bracket.
  - apply trim_trimmed.
  - unfold EVRechargeApp.sanitizeInput. f_equal.
    set (t := trim (remove_matching false [CChar "<"; CChar ">"] s)).
    assert (E : remove_matching false [CChar "<"; CChar ">"] t = t).
    { apply chars_inj. rewrite chars_remove_brackets. apply filter_fixed.
      intros c Hc. apply negb_true_iff. exact (sanitized_no_bracket s c Hc). }
    rewrite E. apply trim_idem.
Qed.

(** X6.  Sanitizing deletes the angle brackets and the outer white space,
    and nothing else: the input without its brackets is the result between
    two runs of white space.  The text between a [<] and a [>] stays.  A
    value that is no string is returned as it is. *)
Theorem sanitizeInput_keeps_text (input : prim) :
  match input with
  | PStr s =>
      exists t pre post,
        EVRechargeApp.sanitizeInput input = PStr t
        /\ List.filter (fun c => negb (bracket c)) (chars s) = pre ++ chars t ++ post
        /\ forallb is_space pre = true /\ forallb is_space post = true
  | _ => EVRechargeApp.sanitizeInput input = input
  end.
Proof.
  destruct input as [| |b|n|s]; try reflexivity.
  destruct (trim_frame (remove_matching false [CChar "<"; CChar ">"] s))
    as (pre & post & E & H1 & H2).
  exists (trim (remove_matching false [CChar "<"; CChar ">"] s)), pre, post.
  split; [reflexivity|]. rewrite <- chars_remove_brackets. auto.
Qed.

(** ** The application's form check *)

Lemma check_field_agrees rule field value :
  match EVRechargeApp.check_field rule value,
        FormValidator.validate_rule (as_validator_rule rule) field value with
  | Throw e, Throw e' => e = e'
  | Ret errs, Ret r => FormValidator.isValid r = Nat.eqb (length errs) 0
  | _, _ => False
  end.
Proof.
  unfold EVRechargeApp.check_field, FormValidator.validate_rule,
    EVRechargeApp.pattern_fails, EVRechargeApp.too_short,
    FormValidator.pattern_fails, FormValidator.too_short, as_validator_rule.
  cbn [FormValidator.required FormValidator.pattern FormValidator.minLength
       FormValidator.message].
  destruct (if truthy_prim (EVRechargeApp.required rule)
            then FormValidator.is_blank value else Ret false) as [[|]|e];
    [reflexivity| |reflexivity].
  destruct (truthy_prim value); [|reflexivity]. rewrite !andb_true_l.
  destruct (match EVRechargeApp.pattern rule with
            | Some re => negb (test re (ToString value))
            | None => false
            end); [destruct (match EVRechargeApp.minLength rule with
                             | Some n => _ | None => false end); reflexivity|].
  destruct (match EVRechargeApp.minLength rule with
            | Some n => _ | None => false end); reflexivity.
Qed.

Lemma validateForm_loop_app formData rules acc :
  match EVRechargeApp.validateForm_loop formData rules acc with
  | Ret errs =>
      exists lists,
        Forall2 (fun fr l =>
                   EVRechargeApp.check_field (snd fr)
                     (EVRechargeApp.form_value formData (fst fr)) = Ret l)
          rules lists
        /\ errs = acc ++ concat lists
  | Throw e =>
      Exists (fun fr =>
                EVRechargeApp.check_field (snd fr)
                  (EVRechargeApp.form_value formData (fst fr)) = Throw e) rules
  end.
Proof.
  revert acc. induction rules as [|[field rule] rules IH]; intros acc; simpl.
  - exists []. split; [constructor | rewrite app_nil_r; reflexivity].
  - destruct (EVRechargeApp.check_field rule (EVRechargeApp.form_value formData field))
      as [pushed|e] eqn:E.
    + specialize (IH (acc ++ pushed)).
      destruct (EVRechargeApp.validateForm_loop formData rules (acc ++ pushed)) as [errs|e].
      * destruct IH as (lists & HF & ->). exists (pushed :: lists).
        split; [constructor; [exact E | exact HF]|].
        simpl. rewrite app_assoc. reflexivity.
      * apply Exists_cons_tl. exact IH.
    + apply Exists_cons_hd. exact E.
Qed.

Lemma concat_nil_Forall {A : Type} (lists : list (list A)) :
  concat lists = [] <-> Forall (fun l => l = []) lists.
Proof.
  induction lists as [|l lists IH]; simpl.
  - split; [constructor | reflexivity].
  - split.
    + intros H. apply app_eq_nil in H as [-> H]. constructor; [reflexivity | apply IH, H].
    + intros H. inversion H as [|? ? -> H']; subst. simpl. apply IH, H'.
Qed.

Lemma validate_rule_valid_shape rule field value r :
  FormValidator.validate_rule rule field value = Ret r ->
  FormValidator.isValid r = true ->
  r = FormValidator.mkResult true None.
Proof.
  unfold FormValidator.validate_rule.
  destruct (if truthy_prim (FormValidator.required rule)
            then FormValidator.is_blank value else Ret false) as [[|]|];
    try discriminate; [intros [= <-]; discriminate|].
  destruct (_ && FormValidator.pattern_fails _ _); [intros [= <-]; discriminate|].
  destruct (_ && FormValidator.too_short _ _); [intros [= <-]; discriminate|].
  intros [= <-] _. reflexivity.
Qed.

(** X7.  The application's form check and the form validator agree.
    [validateForm] is valid exactly when every rule's field passes
    [FormValidator.validate_rule] under the rule with the same [required],
    [pattern] and [minLength]; it throws exactly an error that the
    validator throws on one of the fields. *)
Theorem validateForm_agrees_with_validator
    (formData : list (string * prim)) (rules : list (string * EVRechargeApp.Rule)) :
  let passes fr :=
    FormValidator.validate_rule (as_validator_rule (snd fr)) (fst fr)
      (EVRechargeApp.form_value formData (fst fr))
    = Ret (FormValidator.mkResult true None) in
  match EVRechargeApp.validateForm formData rules with
  | Ret r =>
      (EVRechargeApp.isValid r = true <-> Forall passes rules)
      /\ (EVRechargeApp.isValid r = true <-> EVRechargeApp.errors r = [])
  | Throw e =>
      Exists (fun fr =>
                FormValidator.validate_rule (as_validator_rule (snd fr)) (fst fr)
                  (EVRechargeApp.form_value formData (fst fr)) = Throw e) rules
  end.
Proof.
  intros passes. unfold EVRechargeApp.validateForm.
  pose proof (validateForm_loop_app formData rules []) as H.
  destruct (EVRechargeApp.validateForm_loop formData rules []) as [errs|e].
  - destruct H as (lists & HF & ->). simpl.
    assert (Hlen : Nat.eqb (length (concat lists)) 0 = true <-> concat lists = []).
    { rewrite Nat.eqb_eq. apply length_zero_iff_nil. }
    split; [|exact Hlen]. rewrite Hlen, concat_nil_Forall. clear Hlen.
    induction HF as [|[field rule] l rules lists Hl HF IH].
    + split; constructor.
    + simpl in Hl. pose proof (check_field_agrees rule field
                                 (EVRechargeApp.form_value formData field)) as A.
      rewrite Hl in A.
      assert (Hone : l = [] <-> passes (field, rule)).
      { unfold passes. simpl.
        destruct (FormValidator.validate_rule (as_validator_rule rule) field
                    (EVRechargeApp.form_value formData field)) as [r|e] eqn:Er;
          [|contradiction].
        split.
        - intros ->. simpl in A. f_equal.
          exact (validate_rule_valid_shape _ _ _ _ Er A).
        - intros [= ->]. simpl in A. destruct l; [reflexivity | discriminate]. }
      rewrite !List.Forall_cons_iff, Hone, IH. reflexivity.
  - induction H as [[field rule] rules H | fr rules H IH].
    + apply Exists_cons_hd. simpl in *.
      pose proof (check_field_agrees rule field
                    (EVRechargeApp.form_value formData field)) as A.
      rewrite H in A.
      destruct (FormValidator.validate_rule _ _ _); [contradiction | congruence].
    + apply Exists_cons_tl. exact IH.
Qed.

Lemma is_blank_text s :
  FormValidator.is_blank (PStr s) = Ret (blank s).
Proof.
  unfold FormValidator.is_blank. simpl.
  destruct (String.eqb_spec s "") as [->|Hne]; [reflexivity|]. simpl.
  f_equal. apply eq_true_iff_eq. rewrite String.eqb_eq. apply trim_empty.
Qed.

Lemma is_blank_entry p :
  form_entry p = true -> FormValidator.is_blank p = Ret (blank (text_of p)).
Proof.
  destruct p; try discriminate; intros _; [reflexivity | apply is_blank_text].
Qed.

Lemma is_blank_missing p :
  truthy_prim p = false -> FormValidator.is_blank p = Ret true.
Proof. unfold FormValidator.is_blank. intros ->. reflexivity. Qed.

Lemma form_value_text formData field :
  text_form formData = true ->
  EVRechargeApp.form_value formData field = PUndefined
  \/ exists s, EVRechargeApp.form_value formData field = PStr s.
Proof.
  unfold text_form. induction formData as [|[k v] rest IH]; simpl; [left; reflexivity|].
  intros H. apply andb_true_iff in H as [Hv H].
  destruct (String.eqb field k); [|exact (IH H)].
  destruct v; try discriminate. right. eexists. reflexivity.
Qed.

Lemma check_field_text rule value :
  (value = PUndefined \/ exists s, value = PStr s) ->
  exists pushed,
    EVRechargeApp.check_field rule value = Ret pushed
    /\ length pushed <= 2
    /\ (truthy_prim (EVRechargeApp.required rule) = true ->
        blank (text_of value) = true ->
        pushed = [EVRechargeApp.label rule +:+ " is required"]).
Proof.
  intros Hv. unfold EVRechargeApp.check_field.
  assert (Hb : FormValidator.is_blank value = Ret (blank (text_of value))).
  { destruct Hv as [-> | [s ->]]; [reflexivity | apply is_blank_text]. }
  rewrite Hb. destruct (truthy_prim (EVRechargeApp.required rule)).
  - destruct (blank (text_of value)).
    + eexists. split; [reflexivity|]. split; [simpl; lia | reflexivity].
    + eexists. split; [reflexivity|]. split; [|discriminate].
      destruct (EVRechargeApp.pattern_fails rule value),
        (EVRechargeApp.too_short rule value); simpl; lia.
  - eexists. split; [reflexivity|]. split; [|discriminate].
    destruct (EVRechargeApp.pattern_fails rule value),
      (EVRechargeApp.too_short rule value); simpl; lia.
Qed.

(** X8.  On a form whose fields are all texts, under rules keyed by names
    the form reads as its own properties or as nothing (no name of an
    inherited member of [Object.prototype], such as "toString"),
    [validateForm] never throws and reports at most two errors per rule; a
    required field that is missing, empty or blank is reported as
    "<label> is required". *)
Theorem validateForm_text_form
    (formData : list (string * prim)) (rules : list (string * EVRechargeApp.Rule)) :
  text_form formData = true ->
  own_keys formData rules = true ->
  exists r,
    EVRechargeApp.validateForm formData rules = Ret r
    /\ length (EVRechargeApp.errors r) <= 2 * length rules
    /\ (forall field rule,
          In (field, rule) rules ->
          truthy_prim (EVRechargeApp.required rule) = true ->
          blank (text_of (EVRechargeApp.form_value formData field)) = true ->
          In (EVRechargeApp.label rule +:+ " is required") (EVRechargeApp.errors r)).
Proof.
  intros Htext _. unfold EVRechargeApp.validateForm.
  assert (Hloop : forall acc, exists rest,
            EVRechargeApp.validateForm_loop formData rules acc = Ret (acc ++ rest)
            /\ length rest <= 2 * length rules
            /\ (forall field rule,
                  In (field, rule) rules ->
                  truthy_prim (EVRechargeApp.required rule) = true ->
                  blank (text_of (EVRechargeApp.form_value formData field)) = true ->
                  In (EVRechargeApp.label rule +:+ " is required") rest)).
  { induction rules as [|[field rule] rules IH]; intros acc; simpl.
    - exists []. rewrite app_nil_r. split; [reflexivity|].
      split; [simpl; lia | intros ? ? []].
    - destruct (check_field_text rule (EVRechargeApp.form_value formData field)
                  (form_value_text formData field Htext)) as (pushed & -> & Hlen & Hreq).
      destruct (IH (acc ++ pushed)) as (rest & -> & Hlen' & Hin).
      exists (pushed ++ rest). rewrite app_assoc. split; [reflexivity|].
      split; [rewrite length_app; lia|].
      intros f r [[= <- <-] | Hr] Ht Hb; apply in_or_app.
      + left. rewrite (Hreq Ht Hb). left. reflexivity.
      + right. exact (Hin f r Hr Ht Hb). }
  destruct (Hloop []) as (rest & -> & Hlen & Hin). simpl.
  eexists. split; [reflexivity|]. simpl. split; [exact Hlen | exact Hin].
Qed.

Lemma validateForm_text_form_witness :
  text_form Examples.station_form = true
  /\ own_keys Examples.station_form Examples.station_rules = true
  /\ exists r,
       EVRechargeApp.validateForm Examples.station_form Examples.station_rules = Ret r
       /\ length (EVRechargeApp.errors r) <= 2 * length Examples.station_rules
       /\ (forall field rule,
             In (field, rule) Examples.station_rules ->
             truthy_prim (EVRechargeApp.required rule) = true ->
             blank (text_of (EVRechargeApp.form_value Examples.station_form field)) = true ->
             In (EVRechargeApp.label rule +:+ " is required") (EVRechargeApp.errors r)).
Proof.
  split; [reflexivity|]. split; [reflexivity|].
  apply (validateForm_text_form Examples.station_form Examples.station_rules);
    reflexivity.
Defined.

(** ** The login and registration forms *)

Lemma length_push_if cond e errors :
  Nat.eqb (length (UserAuthentication.push_if cond e errors)) 0
  = negb cond && Nat.eqb (length errors) 0.
Proof.
  unfold UserAuthentication.push_if. destruct cond; [|reflexivity].
  rewrite length_app. simpl. destruct (length errors); reflexivity.
Qed.

Lemma password_too_short_entry (n : nat) p :
  form_entry p = true -> 0 < n ->
  UserAuthentication.password_too_short (Z.of_nat n) p
  = (String.length (text_of p) <? n).
Proof.
  intros Hp Hn. unfold UserAuthentication.password_too_short.
  destruct p as [| |b|z|s]; try discriminate; simpl.
  - symmetry. apply Nat.ltb_lt. exact Hn.
  - destruct s as [|c s]; simpl.
    + symmetry. apply Nat.ltb_lt. exact Hn.
    + destruct (Z.ltb_spec (Z.of_nat (S (String.length s))) (Z.of_nat n)),
        (Nat.ltb_spec (S (String.length s)) n); try reflexivity; lia.
Qed.

Lemma validate_email_entry label p :
  form_entry p = true ->
  exists r, FormValidator.validate label p "email" = Ret r
    /\ (FormValidator.isValid r = true
        <-> text_of p = EmptyString \/ email_shaped (text_of p)).
Proof.
  destruct p as [| |b|z|s]; try discriminate; intros _.
  - eexists. split; [reflexivity|]. simpl. split; [left; reflexivity | reflexivity].
  - rewrite validate_email_value. eexists. split; [reflexivity|]. simpl.
    destruct (String.eqb_spec s "") as [->|Hne]; simpl.
    + split; [left; reflexivity | reflexivity].
    + destruct (test FormValidator.email_pattern s) eqn:Ht; simpl.
      * split; [intros _; right; apply email_pattern_shape; exact Ht | reflexivity].
      * split; [discriminate|]. intros [E | Hs]; [contradiction|].
        apply email_pattern_shape in Hs. congruence.
Qed.

Lemma validate_phone_entry label p :
  form_entry p = true ->
  exists r, FormValidator.validate label p "phone" = Ret r
    /\ FormValidator.isValid r
       = (String.eqb (text_of p) "" || phone_shaped (text_of p)).
Proof.
  destruct p as [| |b|z|s]; try discriminate; intros _.
  - eexists. split; reflexivity.
  - rewrite validate_phone_value. eexists. split; [reflexivity|]. simpl.
    destruct (String.eqb s ""), (phone_shaped s); reflexivity.
Qed.

(** X9.  The login form, on the entries of a form: it is valid exactly
    when the email is empty or has the shape of an email, and the password
    has six code units or more.  An empty or missing email passes. *)
Theorem validateLoginForm_accepts (userData : UserAuthentication.LoginData) :
  form_entry (UserAuthentication.login_email userData) = true ->
  form_entry (UserAuthentication.login_password userData) = true ->
  exists r,
    UserAuthentication.validateLoginForm userData = Ret r
    /\ (UserAuthentication.isValid r = true
        <-> (text_of (UserAuthentication.login_email userData) = EmptyString
             \/ email_shaped (text_of (UserAuthentication.login_email userData)))
            /\ 6 <= String.length (text_of (UserAuthentication.login_password userData))).
Proof.
  intros He Hp. unfold UserAuthentication.validateLoginForm.
  destruct (validate_email_entry "Email" _ He) as (ev & -> & Hev).
  eexists. split; [reflexivity|]. cbn [UserAuthentication.isValid].
  rewrite !length_push_if. simpl length. simpl Nat.eqb. rewrite andb_true_r.
  change 6%Z with (Z.of_nat 6). rewrite (password_too_short_entry 6 _ Hp) by lia.
  rewrite andb_true_iff, !negb_true_iff, negb_false_iff, Nat.ltb_ge, Hev. tauto.
Qed.

Lemma validateLoginForm_accepts_witness :
  let userData := UserAuthentication.mkLoginData (PStr "") (PStr "secret") in
  form_entry (UserAuthentication.login_email userData) = true
  /\ form_entry (UserAuthentication.login_password userData) = true
  /\ exists r,
       UserAuthentication.validateLoginForm userData = Ret r
       /\ (UserAuthentication.isValid r = true
           <-> (text_of (UserAuthentication.login_email userData) = EmptyString
                \/ email_shaped (text_of (UserAuthentication.login_email userData)))
               /\ 6 <= String.length
                         (text_of (UserAuthentication.login_password userData))).
Proof.
  split; [reflexivity|]. split; [reflexivity|].
  apply (validateLoginForm_accepts
           (UserAuthentication.mkLoginData (PStr "") (PStr "secret")));
    reflexivity.
Defined.

Lemma blank_not_empty s : blank s = false -> s <> EmptyString.
Proof. intros H ->. discriminate. Qed.

Lemma plain_not_space c : plain c = true -> is_space c = false.
Proof. unfold plain. intros H. apply andb_true_iff in H as [H _].
  apply negb_true_iff. exact H. Qed.

Lemma email_shaped_not_blank s : email_shaped s -> blank s = false.
Proof.
  intros (local & d1 & d2 & -> & [Hne Hplain] & _). unfold blank.
  rewrite chars_append. destruct local as [|c local]; [contradiction|].
  simpl in *. apply andb_true_iff in Hplain as [Hc _].
  rewrite (plain_not_space c Hc). reflexivity.
Qed.

(** X10.  The registration form, on the entries of a form: it never
    throws, and is valid exactly when first name, last name, phone and
    vehicle type are not blank, the email has the shape of an email, the
    phone that of a phone number, the password has eight code units or more
    and the terms are accepted.  Neither [confirmPassword] nor [newsletter]
    plays a part. *)
Theorem validateRegistrationForm_accepts (userData : UserAuthentication.RegistrationData) :
  submitted userData = true ->
  exists r,
    UserAuthentication.validateRegistrationForm userData = Ret r
    /\ (UserAuthentication.isValid r = true
        <-> blank (text_of (UserAuthentication.firstName userData)) = false
            /\ blank (text_of (UserAuthentication.lastName userData)) = false
            /\ email_shaped (text_of (UserAuthentication.email userData))
            /\ blank (text_of (UserAuthentication.phone userData)) = false
            /\ phone_shaped (text_of (UserAuthentication.phone userData)) = true
            /\ blank (text_of (UserAuthentication.vehicleType userData)) = false
            /\ 8 <= String.length (text_of (UserAuthentication.password userData))
            /\ truthy_prim (UserAuthentication.termsAccepted userData) = true).
Proof.
  unfold submitted. rewrite !andb_true_iff.
  intros [[[[[Hfn Hln] Hem] Hph] Hvt] Hpw].
  unfold UserAuthentication.validateRegistrationForm,
    UserAuthentication.requiredFields.
  cbn [UserAuthentication.check_required].
  rewrite (is_blank_entry _ Hfn). cbn iota.
  rewrite (is_blank_entry _ Hln). cbn iota.
  rewrite (is_blank_entry _ Hem). cbn iota.
  rewrite (is_blank_entry _ Hph). cbn iota.
  rewrite (is_blank_entry _ Hvt). cbn iota.
  destruct (validate_email_entry "Email" _ Hem) as (ev & -> & Hev).
  destruct (validate_phone_entry "Phone" _ Hph) as (pv & -> & Hpv).
  eexists. split; [reflexivity|]. cbn [UserAuthentication.isValid].
  rewrite !length_push_if. simpl length. simpl Nat.eqb.
  change 8%Z with (Z.of_nat 8). rewrite (password_too_short_entry 8 _ Hpw) by lia.
  rewrite Hpv, !andb_true_iff, !negb_true_iff, !negb_false_iff, Nat.ltb_ge.
  rewrite orb_true_iff, String.eqb_eq.
  pose proof (email_shaped_not_blank (text_of (UserAuthentication.email userData))) as Hs.
  pose proof (blank_not_empty (text_of (UserAuthentication.email userData))) as He.
  pose proof (blank_not_empty (text_of (UserAuthentication.phone userData))) as Hp.
  rewrite Hev. tauto.
Qed.

Lemma validateRegistrationForm_accepts_witness :
  submitted Examples.carol_registration = true
  /\ exists r,
       UserAuthentication.validateRegistrationForm Examples.carol_registration = Ret r
       /\ (UserAuthentication.isValid r = true
           <-> blank (text_of (UserAuthentication.firstName Examples.carol_registration)) = false
               /\ blank (text_of (UserAuthentication.lastName Examples.carol_registration)) = false
               /\ email_shaped (text_of (UserAuthentication.email Examples.carol_registration))
               /\ blank (text_of (UserAuthentication.phone Examples.carol_registration)) = false
               /\ phone_shaped (text_of (UserAuthentication.phone Examples.carol_registration)) = true
               /\ blank (text_of (UserAuthentication.vehicleType Examples.carol_registration)) = false
               /\ 8 <= String.length
                         (text_of (UserAuthentication.password Examples.carol_registration))
               /\ truthy_prim (UserAuthentication.termsAccepted Examples.carol_registration)
                  = true).
Proof.
  split; [reflexivity|].
  apply (validateRegistrationForm_accepts Examples.carol_registration). reflexivity.
Defined.

Lemma password_too_short_weaken p :
  UserAuthentication.password_too_short 8 p = false ->
  UserAuthentication.password_too_short 6 p = false.
Proof.
  unfold UserAuthentication.password_too_short.
  destruct (truthy_prim p); simpl; [|discriminate].
  destruct p; try reflexivity.
  intros H. apply Z.ltb_ge in H. apply Z.ltb_ge. lia.
Qed.

(** X11.  What the registration form accepts, the login form accepts: the
    email and the password of a valid registration make a valid login. *)
Theorem registration_valid_login_valid
    (userData : UserAuthentication.RegistrationData) (r : UserAuthentication.FormValidation) :
  UserAuthentication.validateRegistrationForm userData = Ret r ->
  UserAuthentication.isValid r = true ->
  UserAuthentication.validateLoginForm
    (UserAuthentication.mkLoginData (UserAuthentication.email userData)
       (UserAuthentication.password userData))
  = Ret (UserAuthentication.mkFormValidation true []).
Proof.
  unfold UserAuthentication.validateRegistrationForm,
    UserAuthentication.validateLoginForm.
  cbn [UserAuthentication.login_email UserAuthentication.login_password].
  destruct (UserAuthentication.check_required _ _) as [errors|]; [|discriminate].
  destruct (FormValidator.validate "Email" _ "email") as [ev|]; [|discriminate].
  destruct (FormValidator.validate "Phone" _ "phone") as [pv|]; [|discriminate].
  intros [= <-]. cbn [UserAuthentication.isValid].
  rewrite !length_push_if, !andb_true_iff, !negb_true_iff, negb_false_iff.
  intros (_ & Hpw & _ & Hev & _).
  rewrite Hev, (password_too_short_weaken _ Hpw). reflexivity.
Qed.

Lemma registration_valid_login_valid_witness :
  exists r,
    UserAuthentication.validateRegistrationForm Examples.carol_registration = Ret r
    /\ UserAuthentication.isValid r = true
    /\ UserAuthentication.validateLoginForm
         (UserAuthentication.mkLoginData
            (UserAuthentication.email Examples.carol_registration)
            (UserAuthentication.password Examples.carol_registration))
       = Ret (UserAuthentication.mkFormValidation true []).
Proof.
  exists (UserAuthentication.mkFormValidation true []).
  split; [reflexivity|]. split; [reflexivity|].
  apply (registration_valid_login_valid Examples.carol_registration
           (UserAuthentication.mkFormValidation true [])); reflexivity.
Defined.

(** ** Logging out, and logging in before the gate *)

Section Logout.

Variable JSON_parse : string -> option value.
Variable JSON_stringify : value -> string.

Lemma handleUserLogout_runs w :
  denied (localStorage w) = false ->
  denied (sessionStorage w) = false ->
  AuthManager.handleUserLogout w
  = (Ret tt,
     navigated (logout_page (pathname w))
       (after (AuthManager.logger_info "User logged out")
          (after AuthManager.clearUserSession
             (set_isAdmin false (set_currentUser None w))))).
Proof.
  intros Hl Hs. unfold AuthManager.handleUserLogout.
  set (w0 := set_isAdmin false (set_currentUser None w)).
  assert (Hclear : AuthManager.clearUserSession w0
                   = (Ret tt, after AuthManager.clearUserSession w0)).
  { unfold after. rewrite (clearUserSession_clears w0 Hl Hs). reflexivity. }
  unfold mbind at 1. unfold M_bind at 1. unfold modify at 1.
  unfold mbind at 1. unfold M_bind at 1. unfold modify at 1. fold w0.
  unfold mbind at 1. unfold M_bind at 1. rewrite Hclear.
  unfold mbind at 1. unfold M_bind at 1. rewrite logger_info_runs.
  unfold mbind, M_bind, gets, navigated, after, logout_page, navigate, modify.
  rewrite (clearUserSession_clears w0 Hl Hs).
  simpl. destruct (includes (pathname w) "admin"); reflexivity.
Qed.

(** X12.  Logging out, with both tiers readable: the in-memory user and
    the admin flag are reset, the session key is deleted from both tiers
    and no other key is, and the login page of the current area is
    requested.  Afterwards no session is read, [isAuthenticated] is false
    and [validateAuth] is true for no role. *)
Theorem handleUserLogout_clears (w : World) :
  denied (localStorage w) = false ->
  denied (sessionStorage w) = false ->
  let w' := after AuthManager.handleUserLogout w in
  result AuthManager.handleUserLogout w = Ret tt
  /\ currentUser w' = None
  /\ isAdmin w' = false
  /\ items (localStorage w') = delete AuthManager.SESSION_KEY (items (localStorage w))
  /\ items (sessionStorage w') = delete AuthManager.SESSION_KEY (items (sessionStorage w))
  /\ href w' = href w ++ [logout_page (pathname w)]
  /\ AuthManager.getStoredSession JSON_parse w' = (Ret VNull, w')
  /\ AuthManager.isAuthenticated JSON_parse w' = (Ret false, w')
  /\ (forall role, result (AuthManager.validateAuth JSON_parse role) w' <> Ret true).
Proof.
  intros Hl Hs w'.
  pose proof (handleUserLogout_runs w Hl Hs) as Hrun.
  assert (Hw' : w' = navigated (logout_page (pathname w))
                       (after (AuthManager.logger_info "User logged out")
                          (after AuthManager.clearUserSession
                             (set_isAdmin false (set_currentUser None w))))).
  { unfold w', after at 1. rewrite Hrun. reflexivity. }
  assert (Hclear := clearUserSession_clears (set_isAdmin false (set_currentUser None w)) Hl Hs).
  unfold after at 2 in Hw'. rewrite Hclear in Hw'. simpl in Hw'.
  assert (Hread : AuthManager.getStoredSession JSON_parse w' = (Ret VNull, w')).
  { apply getStoredSession_absent; rewrite Hw'; simpl;
      first [assumption | apply lookup_delete_eq]. }
  assert (Hauth : AuthManager.isAuthenticated JSON_parse w' = (Ret false, w')).
  { unfold AuthManager.isAuthenticated. run_step.
    replace (currentUser w') with (@None User) by (rewrite Hw'; reflexivity).
    rewrite Hread. reflexivity. }
  split; [unfold result; rewrite Hrun; reflexivity|].
  split; [rewrite Hw'; reflexivity|].
  split; [rewrite Hw'; reflexivity|].
  split; [rewrite Hw'; reflexivity|].
  split; [rewrite Hw'; reflexivity|].
  split; [rewrite Hw'; reflexivity|].
  split; [exact Hread|]. split; [exact Hauth|].
  intros role. unfold result, AuthManager.validateAuth.
  unfold mbind at 1. unfold M_bind at 1. rewrite Hread.
  unfold mbind at 1. unfold M_bind at 1. rewrite Hauth.
  simpl. unfold mbind, M_bind.
  destruct (AuthManager.redirectToLogin role w') as [[[]|e] w'']; simpl; discriminate.
Qed.

(** X13.  Logging out when a tier refuses access: the handler throws the
    SecurityError after it has reset the in-memory user and the admin flag;
    nothing is logged and no navigation is requested, so the page stays
    where it is. *)
Theorem handleUserLogout_denied (w : World) :
  denied (localStorage w) = true \/ denied (sessionStorage w) = true ->
  let w' := after AuthManager.handleUserLogout w in
  result AuthManager.handleUserLogout w = Throw SecurityError
  /\ currentUser w' = None
  /\ isAdmin w' = false
  /\ href w' = href w
  /\ console w' = console w
  /\ sessionStorage w' = sessionStorage w
  /\ (denied (localStorage w) = true -> localStorage w' = localStorage w).
Proof.
  intros Hdenied. unfold result, after, AuthManager.handleUserLogout,
    AuthManager.clearUserSession, removeItem.
  run_step. destruct (denied (localStorage w)) eqn:Hl; simpl.
  - repeat split; reflexivity.
  - destruct Hdenied as [H|H]; [discriminate|]. rewrite H. simpl.
    repeat split; try reflexivity. discriminate.
Qed.

(** The gate on a state whose record reads without an error. *)
Lemma validateAuth_with_record w session role :
  AuthManager.getStoredSession JSON_parse w = (Ret session, w) ->
  truthy session = true ->
  (String.eqb role "admin" && negb (truthy (get_field session "isAdmin")) = false ->
   AuthManager.validateAuth JSON_parse role w = (Ret true, w))
  /\ (String.eqb role "admin" && negb (truthy (get_field session "isAdmin")) = true ->
      result (AuthManager.validateAuth JSON_parse role) w <> Ret true).
Proof.
  intros Hread Htruthy.
  assert (Hauth : AuthManager.isAuthenticated JSON_parse w = (Ret true, w)).
  { unfold AuthManager.isAuthenticated. run_step.
    destruct (currentUser w); [reflexivity|]. rewrite Hread.
    destruct session as [[]| |]; try discriminate; reflexivity. }
  assert (Hrun : AuthManager.validateAuth JSON_parse role w
            = (if String.eqb role "admin" && negb (truthy (get_field session "isAdmin"))
               then AuthManager.showNotification "Admin access required" "error" 5000;;
                    AuthManager.redirectToLogin "admin";;
                    mret false
               else mret true) w).
  { unfold AuthManager.validateAuth.
    unfold mbind at 1. unfold M_bind at 1. rewrite Hread.
    unfold mbind at 1. unfold M_bind at 1. rewrite Hauth.
    rewrite Htruthy. reflexivity. }
  unfold result. rewrite Hrun.
  split; intros Hrole; rewrite Hrole; [reflexivity|].
  unfold mbind, M_bind. rewrite showNotification_runs.
  destruct (AuthManager.redirectToLogin "admin" _) as [[[]|e] w'']; simpl; discriminate.
Qed.

End Logout.

Lemma checkAdminRole_answer userId w :
  exists w',
    checkAdminRole userId w = (Ret (lookup_answer w userId), w')
    /\ console_only w w'
    /\ ac_isAdmin (lookup_answer w userId) = listed_admin w userId.
Proof.
  unfold lookup_answer, listed_admin.
  destruct (outage (firestore w)) as [msg|] eqn:Hout.
  - rewrite (checkAdminRole_error _ _ _ Hout). eexists.
    split; [reflexivity|]. split; [|reflexivity].
    unfold console_only. destruct w; reflexivity.
  - destruct (adminUsers (firestore w) !! userId) as [fields|] eqn:Hdoc.
    + rewrite (checkAdminRole_found _ _ _ Hout Hdoc). eexists.
      split; [reflexivity|]. split; [apply console_only_refl | reflexivity].
    + rewrite (checkAdminRole_missing _ _ Hout Hdoc). eexists.
      split; [reflexivity|]. split; [apply console_only_refl | reflexivity].
Qed.

Lemma sessionData_identity user adminCheck now :
  get_field (json_norm (AuthManager.sessionData user adminCheck now)) "userId"
  = VStr (uid user)
  /\ get_field (json_norm (AuthManager.sessionData user adminCheck now)) "isAdmin"
     = VBool (ac_isAdmin adminCheck).
Proof.
  unfold AuthManager.sessionData.
  destruct (email user), (displayName user); split; reflexivity.
Qed.

Lemma notified_pathname message type w :
  pathname (notified message type w) = pathname w.
Proof.
  unfold notified, after, AuthManager.showNotification. run_step.
  destruct (evApp w); reflexivity.
Qed.

Section Login.

Variable JSON_parse : string -> option value.
Variable JSON_stringify : value -> string.

Abbreviation handleUserLogin :=
  (AuthManager.handleUserLogin JSON_parse JSON_stringify).
Abbreviation getStoredSession := (AuthManager.getStoredSession JSON_parse).
Abbreviation redirectAfterLogin := (AuthManager.redirectAfterLogin JSON_parse).
Abbreviation validateAuth := (AuthManager.validateAuth JSON_parse).

(** What the redirect policy does on a state whose record reads without an
    error. *)
Lemma redirectAfterLogin_with_record w session :
  getStoredSession w = (Ret session, w) ->
  href (after redirectAfterLogin w)
  = href w ++ login_redirect (truthy session && truthy (get_field session "isAdmin"))
                (pathname w).
Proof.
  intros Hread. unfold after, AuthManager.redirectAfterLogin, login_redirect.
  unfold mbind at 1. unfold M_bind at 1. unfold gets at 1.
  unfold mbind at 1. unfold M_bind at 1. rewrite Hread.
  destruct (truthy session && truthy (get_field session "isAdmin")).
  - destruct (includes (pathname w) "admin-login" || includes (pathname w) "user-login");
      simpl; [reflexivity | rewrite app_nil_r; reflexivity].
  - destruct (includes (pathname w) "admin-login").
    + unfold mbind, M_bind. rewrite showNotification_runs. simpl.
      destruct (notified_keeps "Please use user login" "warning" w) as (_ & _ & -> & _).
      reflexivity.
    + destruct (includes (pathname w) "admin-dashboard").
      * unfold mbind, M_bind. rewrite showNotification_runs. simpl.
        destruct (notified_keeps "Admin access required" "error" w) as (_ & _ & -> & _).
        reflexivity.
      * simpl. rewrite app_nil_r. reflexivity.
Qed.

(** The state a login reaches when the durable tier takes the record. *)
Lemma handleUserLogin_success user w :
  let adminCheck := lookup_answer w (uid user) in
  let record := AuthManager.sessionData user adminCheck (clock w) in
  usable (localStorage w) ->
  JSON_stringify record <> EmptyString ->
  JSON_parse (JSON_stringify record) = Some (json_norm record) ->
  exists w_shown,
    handleUserLogin user w = (Ret tt, after redirectAfterLogin w_shown)
    /\ getStoredSession w_shown = (Ret (json_norm record), w_shown)
    /\ getStoredSession (after redirectAfterLogin w_shown)
       = (Ret (json_norm record), after redirectAfterLogin w_shown)
    /\ currentUser w_shown = Some user
    /\ isAdmin w_shown = ac_isAdmin adminCheck
    /\ pathname w_shown = pathname w
    /\ href w_shown = href w
    /\ sessionStorage w_shown = sessionStorage w.
Proof.
  intros adminCheck record Huse Hne Hjson.
  set (wu := set_currentUser (Some user) w).
  destruct (checkAdminRole_answer (uid user) wu) as (wl & Hlookup & Hc & _).
  change (lookup_answer wu (uid user)) with adminCheck in Hlookup.
  set (wa := set_isAdmin (ac_isAdmin adminCheck) wl).
  assert (Hwa : localStorage wa = localStorage w /\ clock wa = clock w
                /\ sessionStorage wa = sessionStorage w /\ pathname wa = pathname w
                /\ href wa = href w /\ currentUser wa = Some user).
  { unfold wa. rewrite Hc. repeat split; reflexivity. }
  destruct Hwa as (Hla & Hclock & Hsa & Hpa & Hha & Hua).
  assert (Husea : usable (localStorage wa)) by (rewrite Hla; exact Huse).
  pose proof (storeUserSession_writes JSON_stringify wa user adminCheck Husea) as Hstore.
  rewrite Hclock in Hstore. fold record in Hstore.
  set (ws := set_localStorage
               (mkStorage (<[AuthManager.SESSION_KEY := JSON_stringify record]>
                             (items (localStorage wa)))
                  (denied (localStorage wa)) (full (localStorage wa))) wa) in *.
  set (w_shown := notified "Authentication successful!" "success"
                    (after (AuthManager.logger_info "User authenticated") ws)).
  assert (Hrun : handleUserLogin user w = (Ret tt, after redirectAfterLogin w_shown)).
  { unfold AuthManager.handleUserLogin, try_catch.
    unfold mbind at 1. unfold M_bind at 1. unfold modify at 1. fold wu.
    unfold mbind at 1. unfold M_bind at 1. rewrite Hlookup.
    unfold mbind at 1. unfold M_bind at 1. unfold modify at 1. fold wa.
    unfold mbind at 1. unfold M_bind at 1. rewrite Hstore.
    unfold mbind, M_bind.
    rewrite logger_info_runs, showNotification_runs, redirectAfterLogin_runs.
    reflexivity. }
  assert (Hkeeps : localStorage w_shown = localStorage ws
                   /\ sessionStorage w_shown = sessionStorage ws
                   /\ href w_shown = href ws
                   /\ currentUser w_shown = currentUser ws
                   /\ isAdmin w_shown = isAdmin ws).
  { unfold w_shown.
    destruct (notified_keeps "Authentication successful!" "success"
                (after (AuthManager.logger_info "User authenticated") ws))
      as (-> & -> & -> & -> & ->).
    repeat split; reflexivity. }
  destruct Hkeeps as (Hl & Hs & Hh & Hu & Ha).
  assert (Hread : forall w', localStorage w' = localStorage ws ->
                    getStoredSession w' = (Ret (json_norm record), w')).
  { intros w' Hw'.
    rewrite (getStoredSession_durable_first JSON_parse w' (JSON_stringify record)).
    - rewrite Hjson. reflexivity.
    - rewrite Hw'. change (denied (localStorage wa) = false). rewrite Hla. apply Huse.
    - rewrite Hw'. apply lookup_insert_eq.
    - exact Hne. }
  exists w_shown. split; [exact Hrun|].
  split; [apply Hread; exact Hl|].
  split.
  { apply Hread. destruct (redirectAfterLogin_keeps JSON_parse w_shown) as (_ & -> & _).
    exact Hl. }
  split; [rewrite Hu; exact Hua|].
  split; [rewrite Ha; reflexivity|].
  split.
  { unfold w_shown. rewrite notified_pathname. exact Hpa. }
  split; [rewrite Hh; exact Hha | rewrite Hs; exact Hsa].
Qed.

(** X14.  A login opens the gate.  After [handleUserLogin] on a usable
    durable tier, the in-memory user is the one who signed in, the stored
    record carries their id and the answer of the role lookup, and
    [validateAuth] returns true for every role other than "admin", and for
    "admin" exactly when Firestore holds an admin document for the user. *)
Theorem login_opens_gate (user : User) (w : World) :
  let adminCheck := lookup_answer w (uid user) in
  let record := AuthManager.sessionData user adminCheck (clock w) in
  let w' := after (handleUserLogin user) w in
  usable (localStorage w) ->
  JSON_stringify record <> EmptyString ->
  JSON_parse (JSON_stringify record) = Some (json_norm record) ->
  currentUser w' = Some user
  /\ isAdmin w' = listed_admin w (uid user)
  /\ (exists session,
        getStoredSession w' = (Ret session, w')
        /\ get_field session "userId" = VStr (uid user)
        /\ get_field session "isAdmin" = VBool (listed_admin w (uid user)))
  /\ (forall role, role <> "admin"%string -> validateAuth role w' = (Ret true, w'))
  /\ (listed_admin w (uid user) = true -> validateAuth "admin" w' = (Ret true, w'))
  /\ (listed_admin w (uid user) = false ->
      result (validateAuth "admin") w' <> Ret true).
Proof.
  intros adminCheck record w' Huse Hne Hjson.
  destruct (handleUserLogin_success user w Huse Hne Hjson)
    as (w_shown & Hrun & _ & Hread & Hu & Ha & _).
  fold adminCheck record in Hread.
  assert (Hw' : w' = after redirectAfterLogin w_shown).
  { unfold w', after at 1. rewrite Hrun. reflexivity. }
  rewrite <- Hw' in Hread.
  destruct (checkAdminRole_answer (uid user) w) as (_ & _ & _ & Hlisted).
  fold adminCheck in Hlisted. rewrite <- Hlisted.
  destruct (sessionData_identity user adminCheck (clock w)) as [Hid Hadmin].
  fold record in Hid, Hadmin.
  destruct (redirectAfterLogin_keeps JSON_parse w_shown) as (_ & _ & _ & Hu' & Ha').
  rewrite <- Hw' in Hu', Ha'.
  assert (Htruthy : truthy (json_norm record) = true) by reflexivity.
  split; [rewrite Hu'; exact Hu|].
  split; [rewrite Ha'; exact Ha|].
  split; [exists (json_norm record); split; [exact Hread | split; assumption]|].
  split.
  { intros role Hrole.
    apply (validateAuth_with_record JSON_parse w' (json_norm record) role Hread Htruthy).
    destruct (String.eqb_spec role "admin"); [contradiction | reflexivity]. }
  split.
  - intros Hl.
    apply (validateAuth_with_record JSON_parse w' (json_norm record) "admin" Hread Htruthy).
    rewrite Hadmin, Hl. reflexivity.
  - intros Hl.
    apply (validateAuth_with_record JSON_parse w' (json_norm record) "admin" Hread Htruthy).
    rewrite Hadmin, Hl. reflexivity.
Qed.

(** X15.  Where a login leads.  The handler requests at most one
    navigation: the admin dashboard for a listed admin on a login page, the
    user login for anyone else on the admin login or the admin dashboard,
    and none otherwise; a user who signs in on the user login page is sent
    nowhere by the handler.  The per-tab tier is not written. *)
Theorem login_then_redirect (user : User) (w : World) :
  let adminCheck := lookup_answer w (uid user) in
  let record := AuthManager.sessionData user adminCheck (clock w) in
  let w' := after (handleUserLogin user) w in
  usable (localStorage w) ->
  JSON_stringify record <> EmptyString ->
  JSON_parse (JSON_stringify record) = Some (json_norm record) ->
  href w' = href w ++ login_redirect (listed_admin w (uid user)) (pathname w)
  /\ sessionStorage w' = sessionStorage w.
Proof.
  intros adminCheck record w' Huse Hne Hjson.
  destruct (handleUserLogin_success user w Huse Hne Hjson)
    as (w_shown & Hrun & Hread & _ & _ & _ & Hp & Hh & Hs).
  fold adminCheck record in Hread.
  assert (Hw' : w' = after redirectAfterLogin w_shown).
  { unfold w', after at 1. rewrite Hrun. reflexivity. }
  destruct (checkAdminRole_answer (uid user) w) as (_ & _ & _ & Hlisted).
  fold adminCheck in Hlisted. rewrite <- Hlisted.
  destruct (sessionData_identity user adminCheck (clock w)) as [_ Hadmin].
  fold record in Hadmin.
  rewrite Hw'. split.
  - rewrite (redirectAfterLogin_with_record w_shown (json_norm record) Hread).
    rewrite Hadmin, Hp, Hh. simpl truthy. reflexivity.
  - destruct (redirectAfterLogin_keeps JSON_parse w_shown) as (_ & _ & -> & _).
    exact Hs.
Qed.

End Login.

Lemma handleUserLogout_clears_witness :
  let w := Examples.page_offline in
  let w' := after AuthManager.handleUserLogout w in
  denied (localStorage w) = false
  /\ denied (sessionStorage w) = false
  /\ currentUser w' = None
  /\ items (localStorage w') = delete AuthManager.SESSION_KEY (items (localStorage w))
  /\ AuthManager.isAuthenticated Json.parse w' = (Ret false, w')
  /\ (forall role, result (AuthManager.validateAuth Json.parse role) w' <> Ret true).
Proof.
  intros w w'.
  destruct (handleUserLogout_clears Json.parse w eq_refl eq_refl)
    as (_ & Hu & _ & Hl & _ & _ & _ & Hauth & Hgate).
  split; [reflexivity|]. split; [reflexivity|].
  split; [exact Hu|]. split; [exact Hl|]. split; [exact Hauth | exact Hgate].
Defined.

Lemma handleUserLogout_denied_witness :
  let w := set_localStorage (mkStorage ∅ true false) Examples.page_offline in
  let w' := after AuthManager.handleUserLogout w in
  (denied (localStorage w) = true \/ denied (sessionStorage w) = true)
  /\ result AuthManager.handleUserLogout w = Throw SecurityError
  /\ currentUser w' = None
  /\ href w' = href w.
Proof.
  intros w w'.
  assert (Hd : denied (localStorage w) = true \/ denied (sessionStorage w) = true)
    by (left; reflexivity).
  destruct (handleUserLogout_denied w Hd) as (Hr & Hu & _ & Hh & _).
  split; [exact Hd|]. split; [exact Hr|]. split; [exact Hu | exact Hh].
Defined.

Lemma login_opens_gate_witness :
  let w := Examples.page "/user-login.html" in
  let record := AuthManager.sessionData Examples.alice
                  (lookup_answer w (uid Examples.alice)) (clock w) in
  let w' := after (AuthManager.handleUserLogin Json.parse Json.stringify Examples.alice) w in
  usable (localStorage w)
  /\ Json.stringify record <> EmptyString
  /\ Json.parse (Json.stringify record) = Some (json_norm record)
  /\ listed_admin w (uid Examples.alice) = true
  /\ currentUser w' = Some Examples.alice
  /\ AuthManager.validateAuth Json.parse "admin" w' = (Ret true, w').
Proof.
  intros w record w'.
  assert (Huse : usable (localStorage w)) by (split; reflexivity).
  assert (Hne : Json.stringify record <> EmptyString) by apply stringify_nonempty.
  assert (Hjson : Json.parse (Json.stringify record) = Some (json_norm record))
    by (vm_compute; reflexivity).
  destruct (login_opens_gate Json.parse Json.stringify Examples.alice w Huse Hne Hjson)
    as (Hu & _ & _ & _ & Hadmin & _).
  split; [exact Huse|]. split; [exact Hne|]. split; [exact Hjson|].
  split; [reflexivity|]. split; [exact Hu | apply Hadmin; reflexivity].
Defined.

Lemma login_then_redirect_witness :
  let w := Examples.page "/admin-login.html" in
  let record := AuthManager.sessionData Examples.bob
                  (lookup_answer w (uid Examples.bob)) (clock w) in
  let w' := after (AuthManager.handleUserLogin Json.parse Json.stringify Examples.bob) w in
  usable (localStorage w)
  /\ Json.stringify record <> EmptyString
  /\ Json.parse (Json.stringify record) = Some (json_norm record)
  /\ href w' = href w ++ login_redirect (listed_admin w (uid Examples.bob)) (pathname w)
  /\ sessionStorage w' = sessionStorage w.
Proof.
  intros w record w'.
  assert (Huse : usable (localStorage w)) by (split; reflexivity).
  assert (Hne : Json.stringify record <> EmptyString) by apply stringify_nonempty.
  assert (Hjson : Json.parse (Json.stringify record) = Some (json_norm record))
    by (vm_compute; reflexivity).
  split; [exact Huse|]. split; [exact Hne|]. split; [exact Hjson|].
  exact (login_then_redirect Json.parse Json.stringify Examples.bob w Huse Hne Hjson).
Defined.

(** ** Permissions *)

Lemma array_includes_norm items permission :
  array_includes
    (map (fun x => match x with VUndefined => VNull | _ => json_norm x end) items)
    permission
  = array_includes items permission.
Proof.
  unfold array_includes. induction items as [|x items IH]; [reflexivity|].
  simpl. rewrite IH. f_equal. destruct x as [[]| |]; reflexivity.
Qed.

Lemma sessionData_permissions user adminCheck now :
  get_field (json_norm (AuthManager.sessionData user adminCheck now)) "permissions"
  = json_norm (if truthy (ac_permissions adminCheck)
               then ac_permissions adminCheck else VArr []).
Proof.
  unfold AuthManager.sessionData.
  destruct (ac_permissions adminCheck) as [[| |[]|k|t]|items|props];
    destruct (email user), (displayName user), (ac_role adminCheck) as [[]| |];
    try reflexivity.
  all: simpl; try (destruct (k =? 0)%Z; reflexivity);
    try (destruct (String.eqb t ""); reflexivity).
Qed.

Section Permissions.

Variable JSON_parse : string -> option value.
Variable JSON_stringify : value -> string.

Lemma hasPermission_with_record w session permission :
  AuthManager.getStoredSession JSON_parse w = (Ret session, w) ->
  truthy session = true ->
  AuthManager.hasPermission JSON_parse permission w
  = (if truthy (get_field session "permissions")
     then match get_field session "permissions" with
          | VArr items => Ret (array_includes items permission)
          | VStr s => Ret (includes s permission)
          | _ => Throw TypeError
          end
     else Ret false, w).
Proof.
  intros Hread Htruthy. unfold AuthManager.hasPermission.
  unfold mbind at 1. unfold M_bind at 1. rewrite Hread, Htruthy. simpl.
  destruct (get_field session "permissions") as [[| |[]|n|s]|items|props]; simpl;
    try reflexivity.
  - destruct (n =? 0)%Z; reflexivity.
  - destruct (String.eqb s ""); reflexivity.
Qed.

(** X16.  Permissions after a login.  [hasPermission] searches the
    permission list of the admin document: it is true exactly for the
    strings in the list; a document whose permissions are a string is
    searched for a substring; permissions that are truthy but neither
    throw a TypeError.  For a user who is no listed admin it is false. *)
Theorem hasPermission_after_login (user : User) (w : World) (permission : string) :
  let adminCheck := lookup_answer w (uid user) in
  let record := AuthManager.sessionData user adminCheck (clock w) in
  let w' := after (AuthManager.handleUserLogin JSON_parse JSON_stringify user) w in
  usable (localStorage w) ->
  JSON_stringify record <> EmptyString ->
  JSON_parse (JSON_stringify record) = Some (json_norm record) ->
  AuthManager.hasPermission JSON_parse permission w'
  = (match (if truthy (ac_permissions adminCheck)
            then ac_permissions adminCheck else VArr []) with
     | VArr items => Ret (array_includes items permission)
     | VStr s => Ret (includes s permission)
     | _ => Throw TypeError
     end, w')
  /\ (listed_admin w (uid user) = false ->
      AuthManager.hasPermission JSON_parse permission w' = (Ret false, w')).
Proof.
  intros adminCheck record w' Huse Hne Hjson.
  destruct (handleUserLogin_success JSON_parse JSON_stringify user w Huse Hne Hjson)
    as (w_shown & Hrun & _ & Hread & _).
  fold adminCheck record in Hread.
  assert (Hw' : w' = after (AuthManager.redirectAfterLogin JSON_parse) w_shown).
  { unfold w', after at 1. rewrite Hrun. reflexivity. }
  rewrite <- Hw' in Hread.
  assert (Hhas : AuthManager.hasPermission JSON_parse permission w'
                 = (match (if truthy (ac_permissions adminCheck)
                           then ac_permissions adminCheck else VArr []) with
                    | VArr items => Ret (array_includes items permission)
                    | VStr s => Ret (includes s permission)
                    | _ => Throw TypeError
                    end, w')).
  { rewrite (hasPermission_with_record w' (json_norm record) permission Hread eq_refl).
    unfold record. rewrite sessionData_permissions. f_equal.
    destruct (ac_permissions adminCheck) as [[| |[]|n|s]|items|props]; try reflexivity.
    - cbn [truthy truthy_prim].
      destruct (n =? 0)%Z eqn:E; cbn; rewrite ?E; reflexivity.
    - cbn [truthy truthy_prim].
      destruct (String.eqb s "") eqn:E; cbn; rewrite ?E; reflexivity.
    - simpl truthy. cbv iota. rewrite json_norm_arr. simpl truthy. cbv iota.
      f_equal. apply array_includes_norm. }
  split; [exact Hhas|].
  intros Hlisted. rewrite Hhas.
  unfold adminCheck, lookup_answer. unfold listed_admin in Hlisted.
  destruct (outage (firestore w)); [reflexivity|].
  destruct (adminUsers (firestore w) !! uid user); [discriminate | reflexivity].
Qed.

End Permissions.

Lemma hasPermission_after_login_witness :
  let w := Examples.page "/admin-login.html" in
  let adminCheck := lookup_answer w (uid Examples.alice) in
  let record := AuthManager.sessionData Examples.alice adminCheck (clock w) in
  let w' := after (AuthManager.handleUserLogin Json.parse Json.stringify Examples.alice) w in
  usable (localStorage w)
  /\ Json.stringify record <> EmptyString
  /\ Json.parse (Json.stringify record) = Some (json_norm record)
  /\ AuthManager.hasPermission Json.parse "stations" w'
     = (match (if truthy (ac_permissions adminCheck)
               then ac_permissions adminCheck else VArr []) with
        | VArr items => Ret (array_includes items "stations")
        | VStr s => Ret (includes s "stations")
        | _ => Throw TypeError
        end, w').
Proof.
  intros w adminCheck record w'.
  assert (Huse : usable (localStorage w)) by (split; reflexivity).
  assert (Hne : Json.stringify record <> EmptyString) by apply stringify_nonempty.
  assert (Hjson : Json.parse (Json.stringify record) = Some (json_norm record))
    by (vm_compute; reflexivity).
  split; [exact Huse|]. split; [exact Hne|]. split; [exact Hjson|].
  exact (proj1 (hasPermission_after_login Json.parse Json.stringify
                  Examples.alice w "stations" Huse Hne Hjson)).
Defined.

(** ** The local storage utility *)

Section Storage.

Variable JSON_parse : string -> option value.
Variable JSON_stringify : value -> option string.

Abbreviation sm_setItem := (StorageManager.setItem JSON_stringify).
Abbreviation sm_getItem := (StorageManager.getItem JSON_parse).

Lemma setItem_runs w key v text :
  usable (localStorage w) ->
  JSON_stringify v = Some text ->
  sm_setItem key v w
  = (Ret true,
     set_localStorage
       (mkStorage (<[key := text]> (items (localStorage w)))
          (denied (localStorage w)) (full (localStorage w)))
       w).
Proof.
  intros [Hd Hf] Htext. unfold StorageManager.setItem, setItem. rewrite Htext.
  run_step. rewrite Hd, Hf. reflexivity.
Qed.

Lemma getItem_reads w key text :
  denied (localStorage w) = false ->
  items (localStorage w) !! key = Some text ->
  text <> EmptyString ->
  sm_getItem key w
  = match JSON_parse text with
    | Some v => (Ret v, w)
    | None => (Ret VNull, after (console_error "Failed to read from localStorage:") w)
    end.
Proof.
  intros Hd Hitem Hne. unfold StorageManager.getItem, getItem. run_step.
  rewrite Hd, Hitem. simpl.
  destruct (String.eqb_spec text "") as [->|_]; [contradiction|]. simpl.
  destruct (JSON_parse text); reflexivity.
Qed.

Lemma getItem_absent w key :
  denied (localStorage w) = false ->
  items (localStorage w) !! key = None ->
  sm_getItem key w = (Ret VNull, w).
Proof.
  intros Hd Hitem. unfold StorageManager.getItem, getItem. run_step.
  rewrite Hd, Hitem. reflexivity.
Qed.

(** X17.  The storage utility round trip.  On a usable durable tier,
    [setItem] returns true, [getItem] of the same key then reads the value
    back (up to what JSON drops), every other key and the per-tab tier are
    left alone, and after [removeItem] the key reads as null. *)
Theorem StorageManager_round_trip (w : World) (key : string) (v : value) (text : string) :
  let w1 := after (sm_setItem key v) w in
  let w2 := after (StorageManager.removeItem key) w1 in
  usable (localStorage w) ->
  JSON_stringify v = Some text ->
  text <> EmptyString ->
  JSON_parse text = Some (json_norm v) ->
  result (sm_setItem key v) w = Ret true
  /\ sm_getItem key w1 = (Ret (json_norm v), w1)
  /\ (forall other, other <> key ->
        items (localStorage w1) !! other = items (localStorage w) !! other)
  /\ sessionStorage w1 = sessionStorage w
  /\ result (StorageManager.removeItem key) w1 = Ret true
  /\ sm_getItem key w2 = (Ret VNull, w2)
  /\ (forall other, other <> key ->
        items (localStorage w2) !! other = items (localStorage w) !! other).
Proof.
  intros w1 w2 Huse Htext Hne Hjson.
  pose proof (setItem_runs w key v text Huse Htext) as Hset.
  assert (Hw1 : w1 = set_localStorage
                       (mkStorage (<[key := text]> (items (localStorage w)))
                          (denied (localStorage w)) (full (localStorage w))) w).
  { unfold w1, after. rewrite Hset. reflexivity. }
  destruct Huse as [Hd Hf].
  assert (Hrm : StorageManager.removeItem key w1
                = (Ret true,
                   set_localStorage
                     (mkStorage (delete key (items (localStorage w1)))
                        (denied (localStorage w1)) (full (localStorage w1))) w1)).
  { unfold StorageManager.removeItem, removeItem. run_step.
    replace (denied (localStorage w1)) with false by (rewrite Hw1; symmetry; exact Hd).
    reflexivity. }
  assert (Hw2 : w2 = set_localStorage
                       (mkStorage (delete key (items (localStorage w1)))
                          (denied (localStorage w1)) (full (localStorage w1))) w1).
  { unfold w2, after. rewrite Hrm. reflexivity. }
  split; [unfold result; rewrite Hset; reflexivity|].
  split.
  { rewrite (getItem_reads w1 key text).
    - rewrite Hjson. reflexivity.
    - rewrite Hw1. exact Hd.
    - rewrite Hw1. apply lookup_insert_eq.
    - exact Hne. }
  split; [intros other Hother; rewrite Hw1; apply lookup_insert_ne; congruence|].
  split; [rewrite Hw1; reflexivity|].
  split; [unfold result; rewrite Hrm; reflexivity|].
  split.
  { apply getItem_absent; rewrite Hw2; simpl.
    - rewrite Hw1. exact Hd.
    - apply lookup_delete_eq. }
  intros other Hother. rewrite Hw2. simpl.
  rewrite lookup_delete_ne by congruence.
  rewrite Hw1. apply lookup_insert_ne. congruence.
Qed.


(** X19.  [clear] empties the durable tier and leaves the per-tab tier
    and the in-memory user alone: every key then reads as null, and with no
    record in the per-tab tier and no in-memory user the visitor is no
    longer authenticated. *)
Theorem StorageManager_clear_drops_session (w : World) :
  let w' := after StorageManager.clear w in
  denied (localStorage w) = false ->
  result StorageManager.clear w = Ret true
  /\ items (localStorage w') = ∅
  /\ sessionStorage w' = sessionStorage w
  /\ currentUser w' = currentUser w
  /\ (forall key, sm_getItem key w' = (Ret VNull, w'))
  /\ (denied (sessionStorage w) = false ->
      items (sessionStorage w) !! AuthManager.SESSION_KEY = None ->
      AuthManager.getStoredSession JSON_parse w' = (Ret VNull, w')
      /\ (currentUser w = None ->
          AuthManager.isAuthenticated JSON_parse w' = (Ret false, w'))).
Proof.
  intros w' Hd.
  assert (Hrun : StorageManager.clear w
                 = (Ret true,
                    set_localStorage (mkStorage ∅ (denied (localStorage w))
                                        (full (localStorage w))) w)).
  { unfold StorageManager.clear, StorageManager.localStorage_clear. run_step.
    rewrite Hd. reflexivity. }
  assert (Hw' : w' = set_localStorage (mkStorage ∅ (denied (localStorage w))
                                         (full (localStorage w))) w).
  { unfold w', after. rewrite Hrun. reflexivity. }
  split; [unfold result; rewrite Hrun; reflexivity|].
  split; [rewrite Hw'; reflexivity|]. split; [rewrite Hw'; reflexivity|].
  split; [rewrite Hw'; reflexivity|].
  split.
  { intros key. apply getItem_absent; rewrite Hw'; simpl;
      [exact Hd | apply lookup_empty]. }
  intros Hs Hnone.
  assert (Hread : AuthManager.getStoredSession JSON_parse w' = (Ret VNull, w')).
  { apply getStoredSession_absent; rewrite Hw'; simpl;
      first [assumption | apply lookup_empty]. }
  split; [exact Hread|].
  intros Hu. unfold AuthManager.isAuthenticated. run_step.
  replace (currentUser w') with (@None User) by (rewrite Hw'; symmetry; exact Hu).
  rewrite Hread. reflexivity.
Qed.

(** X20.  The gate trusts the stored record.  Once any truthy value is
    stored under the session key, [isAuthenticated] is true and
    [validateAuth] returns true for every role other than "admin", and for
    "admin" as soon as the value's isAdmin is truthy; the in-memory user
    and Firestore are neither consulted nor changed. *)
Theorem stored_record_opens_gate (w : World) (v : value) (role text : string) :
  let w1 := after (sm_setItem AuthManager.SESSION_KEY v) w in
  usable (localStorage w) ->
  JSON_stringify v = Some text ->
  text <> EmptyString ->
  JSON_parse text = Some (json_norm v) ->
  truthy v = true ->
  (role = "admin"%string -> truthy (get_field (json_norm v) "isAdmin") = true) ->
  AuthManager.getStoredSession JSON_parse w1 = (Ret (json_norm v), w1)
  /\ AuthManager.isAuthenticated JSON_parse w1 = (Ret true, w1)
  /\ AuthManager.validateAuth JSON_parse role w1 = (Ret true, w1)
  /\ currentUser w1 = currentUser w
  /\ firestore w1 = firestore w.
Proof.
  intros w1 Huse Htext Hne Hjson Htruthy Hadmin.
  pose proof (setItem_runs w AuthManager.SESSION_KEY v text Huse Htext) as Hset.
  assert (Hw1 : w1 = set_localStorage
                       (mkStorage (<[AuthManager.SESSION_KEY := text]>
                                     (items (localStorage w)))
                          (denied (localStorage w)) (full (localStorage w))) w).
  { unfold w1, after. rewrite Hset. reflexivity. }
  assert (Hread : AuthManager.getStoredSession JSON_parse w1 = (Ret (json_norm v), w1)).
  { rewrite (getStoredSession_durable_first JSON_parse w1 text).
    - rewrite Hjson. reflexivity.
    - rewrite Hw1. apply Huse.
    - rewrite Hw1. apply lookup_insert_eq.
    - exact Hne. }
  assert (Hnorm : truthy (json_norm v) = true).
  { destruct v as [p| |]; [exact Htruthy | reflexivity | reflexivity]. }
  split; [exact Hread|].
  split.
  { unfold AuthManager.isAuthenticated. run_step.
    destruct (currentUser w1); [reflexivity|]. rewrite Hread.
    destruct (json_norm v) as [[]| |]; try discriminate; reflexivity. }
  split.
  { apply (validateAuth_with_record JSON_parse w1 (json_norm v) role Hread Hnorm).
    destruct (String.eqb_spec role "admin") as [E|]; [|reflexivity].
    rewrite (Hadmin E). reflexivity. }
  split; rewrite Hw1; reflexivity.
Qed.

End Storage.

Lemma StorageManager_round_trip_witness :
  let w := Examples.page "/stations.html" in
  let v := VObj [("theme", VStr "dark"); ("recent", VArr [VNum 3; VUndefined])] in
  let stringify := fun x => Some (Json.stringify x) in
  let w1 := after (StorageManager.setItem stringify "ev_bunk_settings" v) w in
  usable (localStorage w)
  /\ stringify v = Some (Json.stringify v)
  /\ Json.stringify v <> EmptyString
  /\ Json.parse (Json.stringify v) = Some (json_norm v)
  /\ StorageManager.getItem Json.parse "ev_bunk_settings" w1 = (Ret (json_norm v), w1).
Proof.
  intros w v stringify w1.
  assert (Huse : usable (localStorage w)) by (split; reflexivity).
  assert (Hne : Json.stringify v <> EmptyString) by apply stringify_nonempty.
  assert (Hjson : Json.parse (Json.stringify v) = Some (json_norm v))
    by (vm_compute; reflexivity).
  split; [exact Huse|]. split; [reflexivity|]. split; [exact Hne|]. split; [exact Hjson|].
  destruct (StorageManager_round_trip Json.parse stringify w "ev_bunk_settings" v
              (Json.stringify v) Huse eq_refl Hne Hjson) as (_ & Hread & _).
  exact Hread.
Defined.

Lemma StorageManager_clear_drops_session_witness :
  let w := Examples.page_with_session "/index.html" Examples.user_session in
  let w' := after StorageManager.clear w in
  denied (localStorage w) = false
  /\ AuthManager.isAuthenticated Json.parse w = (Ret true, w)
  /\ AuthManager.isAuthenticated Json.parse w' = (Ret false, w').
Proof.
  intros w w'. split; [reflexivity|]. split; [vm_compute; reflexivity|].
  destruct (StorageManager_clear_drops_session Json.parse w eq_refl)
    as (_ & _ & _ & _ & _ & Hsession).
  destruct (Hsession eq_refl eq_refl) as [_ Hauth]. exact (Hauth eq_refl).
Defined.

Lemma stored_record_opens_gate_witness :
  let w := Examples.page "/admin-dashboard.html" in
  let v := VObj [("isAdmin", VBool true)] in
  let stringify := fun x => Some (Json.stringify x) in
  let w1 := after (StorageManager.setItem stringify AuthManager.SESSION_KEY v) w in
  usable (localStorage w)
  /\ currentUser w = None
  /\ listed_admin w "" = false
  /\ AuthManager.validateAuth Json.parse "admin" w1 = (Ret true, w1).
Proof.
  intros w v stringify w1.
  assert (Huse : usable (localStorage w)) by (split; reflexivity).
  split; [exact Huse|]. split; [reflexivity|]. split; [reflexivity|].
  destruct (stored_record_opens_gate Json.parse stringify w v "admin" (Json.stringify v))
    as (_ & _ & Hgate & _).
  - exact Huse.
  - reflexivity.
  - apply stringify_nonempty.
  - vm_compute. reflexivity.
  - reflexivity.
  - intros _. reflexivity.
  - exact Hgate.
Defined.

(** ** The destination stashed by a redirect *)

Lemma getIntendedDestination_reads w :
  denied (sessionStorage w) = false ->
  AuthManager.getIntendedDestination w
  = (Ret (match items (sessionStorage w) !! AuthManager.DESTINATION_KEY with
          | Some dest => if String.eqb dest "" then "index.html" else dest
          | None => "index.html"
          end), w).
Proof.
  intros Hd. unfold AuthManager.getIntendedDestination, getItem. run_step.
  rewrite Hd. destruct (items (sessionStorage w) !! AuthManager.DESTINATION_KEY) as [dest|];
    [|reflexivity].
  simpl. destruct (String.eqb dest ""); reflexivity.
Qed.

(** X21.  The destination stashed by a redirect.  After
    [redirectToLogin], [getIntendedDestination] returns the path the
    visitor was on, and still does after a logout: the stash is read
    without being consumed, and the logout does not delete it.  With
    nothing stashed, the destination is "index.html". *)
Theorem intended_destination_round_trip (role : string) (w : World) :
  let w1 := after (AuthManager.redirectToLogin role) w in
  let w2 := after AuthManager.handleUserLogout w1 in
  usable (sessionStorage w) ->
  pathname w <> EmptyString ->
  AuthManager.getIntendedDestination w1 = (Ret (pathname w), w1)
  /\ (denied (localStorage w) = false ->
      AuthManager.getIntendedDestination w2 = (Ret (pathname w), w2))
  /\ (items (sessionStorage w) !! AuthManager.DESTINATION_KEY = None ->
      AuthManager.getIntendedDestination w = (Ret "index.html", w)).
Proof.
  intros w1 w2 Huse Hpath.
  assert (Hw1 : w1 = navigated (login_page role)
                       (set_sessionStorage
                          (mkStorage
                             (<[AuthManager.DESTINATION_KEY := pathname w]>
                                (items (sessionStorage w)))
                             (denied (sessionStorage w)) (full (sessionStorage w)))
                          w)).
  { unfold w1, after at 1. rewrite (redirectToLogin_effect role w Huse). reflexivity. }
  destruct Huse as [Hd Hf].
  assert (Hd1 : denied (sessionStorage w1) = false) by (rewrite Hw1; exact Hd).
  assert (Hitem1 : items (sessionStorage w1) !! AuthManager.DESTINATION_KEY
                   = Some (pathname w)).
  { rewrite Hw1. apply lookup_insert_eq. }
  assert (Hnot : String.eqb (pathname w) "" = false).
  { destruct (String.eqb_spec (pathname w) ""); [contradiction | reflexivity]. }
  split.
  { rewrite (getIntendedDestination_reads w1 Hd1), Hitem1, Hnot. reflexivity. }
  split.
  - intros Hl.
    assert (Hl1 : denied (localStorage w1) = false) by (rewrite Hw1; exact Hl).
    pose proof (handleUserLogout_runs w1 Hl1 Hd1) as Hrun.
    assert (Hs2 : sessionStorage w2
                  = mkStorage (delete AuthManager.SESSION_KEY (items (sessionStorage w1)))
                      (denied (sessionStorage w1)) (full (sessionStorage w1))).
    { unfold w2, after at 1. rewrite Hrun.
      unfold after at 2.
      rewrite (clearUserSession_clears (set_isAdmin false (set_currentUser None w1)) Hl1 Hd1).
      reflexivity. }
    rewrite (getIntendedDestination_reads w2); [|rewrite Hs2; exact Hd1].
    rewrite Hs2. simpl items.
    rewrite lookup_delete_ne by discriminate.
    rewrite Hitem1, Hnot. reflexivity.
  - intros Hnone. rewrite (getIntendedDestination_reads w Hd), Hnone. reflexivity.
Qed.

Lemma intended_destination_round_trip_witness :
  let w := Examples.page "/user-dashboard.html" in
  let w1 := after (AuthManager.redirectToLogin "user") w in
  usable (sessionStorage w)
  /\ pathname w <> EmptyString
  /\ AuthManager.getIntendedDestination w1 = (Ret "/user-dashboard.html", w1)
  /\ AuthManager.getIntendedDestination w = (Ret "index.html", w).
Proof.
  intros w w1.
  assert (Huse : usable (sessionStorage w)) by (split; reflexivity).
  assert (Hpath : pathname w <> EmptyString) by discriminate.
  destruct (intended_destination_round_trip "user" w Huse Hpath) as (H1 & _ & H3).
  split; [exact Huse|]. split; [exact Hpath|]. split; [exact H1 | exact (H3 eq_refl)].
Defined.

(** ** The gate when the per-tab tier refuses writes *)

Section Refusal.

Variable JSON_parse : string -> option value.

Lemma redirectToLogin_refused role w :
  denied (sessionStorage w) = true \/ full (sessionStorage w) = true ->
  exists e, AuthManager.redirectToLogin role w = (Throw e, w).
Proof.
  intros H. unfold AuthManager.redirectToLogin, setItem. run_step.
  destruct (denied (sessionStorage w)); [eexists; reflexivity|].
  destruct H as [H|H]; [discriminate|]. rewrite H. eexists; reflexivity.
Qed.

(** X22.  The gate when the per-tab tier refuses writes: [validateAuth]
    then returns true or throws; it never returns false, requests no
    navigation and stashes nothing. *)
Theorem validateAuth_refused_redirect (requiredRole : string) (w : World) :
  denied (sessionStorage w) = true \/ full (sessionStorage w) = true ->
  let w' := after (AuthManager.validateAuth JSON_parse requiredRole) w in
  href w' = href w
  /\ sessionStorage w' = sessionStorage w
  /\ (result (AuthManager.validateAuth JSON_parse requiredRole) w = Ret true
      \/ exists e, result (AuthManager.validateAuth JSON_parse requiredRole) w = Throw e)
  /\ result (AuthManager.validateAuth JSON_parse requiredRole) w <> Ret false.
Proof.
  intros Hrefuse w'.
  destruct (getStoredSession_total JSON_parse w) as (session & Hget & Hlog).
  set (w0 := after (AuthManager.getStoredSession JSON_parse) w) in *.
  assert (Hc0 : console_only w w0).
  { destruct Hlog as [-> | [_ ->]];
      [apply console_only_refl | apply error_logged_console_only]. }
  assert (Hs : result (AuthManager.getStoredSession JSON_parse) w = Ret session)
    by (unfold result; rewrite Hget; reflexivity).
  destruct (isAuthenticated_meaning JSON_parse w w0 session Hc0 Hs) as [Hres Hc1].
  unfold result, after in Hres, Hc1.
  destruct (AuthManager.isAuthenticated JSON_parse w0) as [r w1] eqn:Hauth.
  simpl in Hres, Hc1. subst r.
  set (authenticated := match currentUser w with
                        | Some _ => true
                        | None => negb (is_null session)
                        end) in *.
  assert (Hrefuse1 : denied (sessionStorage w1) = true \/ full (sessionStorage w1) = true).
  { rewrite Hc1. exact Hrefuse. }
  assert (Hrun : AuthManager.validateAuth JSON_parse requiredRole w
            = (if negb authenticated || negb (truthy session)
               then AuthManager.redirectToLogin requiredRole;; mret false
               else if String.eqb requiredRole "admin"
                       && negb (truthy (get_field session "isAdmin"))
               then AuthManager.showNotification "Admin access required" "error" 5000;;
                    AuthManager.redirectToLogin "admin";;
                    mret false
               else mret true) w1).
  { unfold AuthManager.validateAuth.
    unfold mbind at 1. unfold M_bind at 1. rewrite Hget.
    unfold mbind at 1. unfold M_bind at 1. rewrite Hauth. reflexivity. }
  assert (Hfinal : exists out w2,
            AuthManager.validateAuth JSON_parse requiredRole w = (out, w2)
            /\ href w2 = href w1 /\ sessionStorage w2 = sessionStorage w1
            /\ (out = Ret true \/ exists e, out = Throw e)).
  { rewrite Hrun. destruct (negb authenticated || negb (truthy session)).
    - destruct (redirectToLogin_refused requiredRole w1 Hrefuse1) as (e & Hr).
      unfold mbind, M_bind. rewrite Hr. do 2 eexists.
      split; [reflexivity|]. split; [reflexivity|]. split; [reflexivity|].
      right. eexists; reflexivity.
    - destruct (String.eqb requiredRole "admin"
                && negb (truthy (get_field session "isAdmin"))).
      + unfold mbind, M_bind. rewrite showNotification_runs.
        destruct (notified_keeps "Admin access required" "error" w1)
          as (_ & Hsn & Hhn & _).
        destruct (redirectToLogin_refused "admin"
                    (notified "Admin access required" "error" w1)) as (e & Hr);
          [rewrite Hsn; exact Hrefuse1|].
        rewrite Hr. do 2 eexists.
        split; [reflexivity|]. split; [exact Hhn|]. split; [exact Hsn|].
        right. eexists; reflexivity.
      + do 2 eexists. split; [reflexivity|]. split; [reflexivity|].
        split; [reflexivity|]. left. reflexivity. }
  destruct Hfinal as (out & w2 & Hval & Hh & Hss & Hout).
  unfold w', result, after. rewrite Hval. simpl.
  split; [rewrite Hh, Hc1; reflexivity|].
  split; [rewrite Hss, Hc1; reflexivity|].
  split; [exact Hout|].
  destruct Hout as [-> | [e ->]]; discriminate.
Qed.

(** ** The login pages of a signed-in user *)

Lemma checkAuthStatus_reads w text :
  denied (localStorage w) = false ->
  items (localStorage w) !! AuthManager.SESSION_KEY = Some text ->
  text <> EmptyString ->
  forall session, JSON_parse text = Some session ->
  UserAuthentication.checkAuthStatus JSON_parse w
  = (Ret tt,
     if truthy session && negb (truthy (get_field session "isAdmin"))
        && (includes (pathname w) "login" || includes (pathname w) "register")
     then navigated "user-dashboard.html" w
     else w).
Proof.
  intros Hd Hitem Hne session Hjson.
  pose proof (getStoredSession_durable_first JSON_parse w text Hd Hitem Hne) as Hread.
  rewrite Hjson in Hread.
  unfold UserAuthentication.checkAuthStatus.
  assert (Hauth : AuthManager.isAuthenticated JSON_parse w
                  = (Ret (match currentUser w with
                          | Some _ => true
                          | None => negb (is_null session)
                          end), w)).
  { unfold AuthManager.isAuthenticated. run_step.
    destruct (currentUser w); [reflexivity|]. rewrite Hread. reflexivity. }
  unfold mbind at 1. unfold M_bind at 1. rewrite Hauth.
  assert (Hnull : is_null session = true -> truthy session = false).
  { destruct session as [[]| |]; try discriminate; reflexivity. }
  destruct (match currentUser w with
            | Some _ => true
            | None => negb (is_null session)
            end) eqn:Hb.
  - unfold mbind at 1. unfold M_bind at 1. rewrite Hread.
    destruct (truthy session && negb (truthy (get_field session "isAdmin")));
      [|reflexivity].
    unfold mbind, M_bind, gets, navigated, after. simpl.
    destruct (includes (pathname w) "login" || includes (pathname w) "register");
      reflexivity.
  - destruct (currentUser w); [discriminate|].
    apply negb_false_iff in Hb. rewrite (Hnull Hb). reflexivity.
Qed.

(** X23.  [checkAuthStatus] on a page with a stored record: it never
    throws; a truthy record that is no admin's, on a path containing
    "login" or "register", sends the page to the user dashboard; in every
    other case nothing changes. *)
Theorem checkAuthStatus_leaves_login_pages (w : World) (text : string) (session : value) :
  denied (localStorage w) = false ->
  items (localStorage w) !! AuthManager.SESSION_KEY = Some text ->
  text <> EmptyString ->
  JSON_parse text = Some session ->
  let w' := after (UserAuthentication.checkAuthStatus JSON_parse) w in
  result (UserAuthentication.checkAuthStatus JSON_parse) w = Ret tt
  /\ (truthy session = true ->
      truthy (get_field session "isAdmin") = false ->
      includes (pathname w) "login" || includes (pathname w) "register" = true ->
      w' = navigated "user-dashboard.html" w)
  /\ (truthy session = false
      \/ truthy (get_field session "isAdmin") = true
      \/ includes (pathname w) "login" || includes (pathname w) "register" = false ->
      w' = w).
Proof.
  intros Hd Hitem Hne Hjson w'.
  pose proof (checkAuthStatus_reads w text Hd Hitem Hne session Hjson) as Hrun.
  unfold w', result, after. rewrite Hrun. simpl.
  split; [reflexivity|]. split.
  - intros -> -> ->. reflexivity.
  - intros [-> | [-> | ->]]; rewrite ?andb_false_r; reflexivity.
Qed.

End Refusal.

Lemma validateAuth_refused_redirect_witness :
  let w := set_sessionStorage Examples.full_storage (Examples.page "/bookings.html") in
  let w' := after (AuthManager.validateAuth Json.parse "user") w in
  (denied (sessionStorage w) = true \/ full (sessionStorage w) = true)
  /\ href w' = href w
  /\ result (AuthManager.validateAuth Json.parse "user") w <> Ret false.
Proof.
  intros w w'.
  assert (Hrefuse : denied (sessionStorage w) = true \/ full (sessionStorage w) = true)
    by (right; reflexivity).
  destruct (validateAuth_refused_redirect Json.parse "user" w Hrefuse)
    as (Hh & _ & _ & Hnot).
  split; [exact Hrefuse|]. split; [exact Hh | exact Hnot].
Defined.

Lemma checkAuthStatus_leaves_login_pages_witness :
  let w := Examples.page_with_session "/user-login.html" Examples.user_session in
  let session := VObj [("userId", VStr "uid-bob"); ("isAdmin", VBool false)] in
  denied (localStorage w) = false
  /\ items (localStorage w) !! AuthManager.SESSION_KEY = Some Examples.user_session
  /\ Json.parse Examples.user_session = Some session
  /\ after (UserAuthentication.checkAuthStatus Json.parse) w
     = navigated "user-dashboard.html" w.
Proof.
  intros w session.
  assert (Hjson : Json.parse Examples.user_session = Some session)
    by (vm_compute; reflexivity).
  split; [reflexivity|]. split; [reflexivity|]. split; [exact Hjson|].
  destruct (checkAuthStatus_leaves_login_pages Json.parse w Examples.user_session session)
    as (_ & Hgo & _).
  - reflexivity.
  - reflexivity.
  - vm_compute. discriminate.
  - exact Hjson.
  - apply Hgo; reflexivity.
Defined.

(** ** Sanitized text and markup *)

Lemma prefix_chars sub s :
  String.prefix sub s = true -> exists rest, chars s = chars sub ++ rest.
Proof.
  revert s. induction sub as [|c sub IH]; intros s; simpl.
  - intros _. exists (chars s). reflexivity.
  - destruct s as [|d s]; simpl; [discriminate|].
    destruct (Ascii.ascii_dec c d) as [->|]; [|discriminate].
    intros H. destruct (IH s H) as (rest & E). exists rest. simpl. rewrite E. reflexivity.
Qed.

Lemma includes_chars s sub c :
  includes s sub = true -> In c (chars sub) -> In c (chars s).
Proof.
  induction s as [|d s IH]; intros H Hc.
  - change (String.prefix sub "" || false = true) in H.
    rewrite orb_false_r in H. destruct (prefix_chars _ _ H) as (rest & E).
    simpl in E. destruct (chars sub); [contradiction | discriminate].
  - change (String.prefix sub (String d s) || includes s sub = true) in H.
    apply orb_true_iff in H as [H|H].
    + destruct (prefix_chars _ _ H) as (rest & E). rewrite E.
      apply in_or_app. left. exact Hc.
    + right. exact (IH H Hc).
Qed.

(** X24.  No tag survives sanitizing: a text with an angle bracket in it
    is a substring neither of a sanitized input nor of an input whose
    brackets were deleted. *)
Theorem sanitized_text_has_no_tag (s tag : string) :
  existsb bracket (chars tag) = true ->
  exists t, EVRechargeApp.sanitizeInput (PStr s) = PStr t
    /\ includes t tag = false
    /\ includes (remove_matching false [CChar "<"; CChar ">"] s) tag = false.
Proof.
  intros Htag. apply existsb_exists in Htag as (c & Hc & Hb).
  eexists. split; [reflexivity|]. split.
  - destruct (includes _ tag) eqn:E; [|reflexivity].
    pose proof (includes_chars _ _ c E Hc) as Hin.
    apply sanitized_no_bracket in Hin. congruence.
  - destruct (includes _ tag) eqn:E; [|reflexivity].
    pose proof (includes_chars _ _ c E Hc) as Hin.
    rewrite chars_remove_brackets in Hin. apply filter_In in Hin as [_ Hin].
    rewrite Hb in Hin. discriminate.
Qed.

Lemma sanitized_text_has_no_tag_witness :
  existsb bracket (chars "<script>") = true
  /\ exists t, EVRechargeApp.sanitizeInput (PStr "<script>alert(1)</script>Hello") = PStr t
       /\ includes t "<script>" = false
       /\ includes (remove_matching false [CChar "<"; CChar ">"]
                      "<script>alert(1)</script>Hello") "<script>" = false.
Proof.
  split; [reflexivity|].
  apply (sanitized_text_has_no_tag "<script>alert(1)</script>Hello" "<script>").
  reflexivity.
Defined.

(** ** The helpers of the test suite *)

Lemma validateFormData_loop_app formData rules acc pre pre' :
  incl pre pre' ->
  match EVRechargeTestSuite.validateFormData_loop formData rules (acc ++ pre),
        EVRechargeApp.validateForm_loop formData rules (acc ++ pre') with
  | Ret errs, Ret errs' =>
      exists missing more,
        errs = acc ++ missing /\ errs' = acc ++ more /\ incl missing more
  | Throw e, Throw e' => e = e'
  | _, _ => False
  end.
Proof.
  revert pre pre'. induction rules as [|[field rule] rules IH]; intros pre pre' Hincl.
  - simpl. exists pre, pre'. auto.
  - simpl. unfold EVRechargeApp.check_field.
    destruct (if truthy_prim (EVRechargeApp.required rule)
              then FormValidator.is_blank (EVRechargeApp.form_value formData field)
              else Ret false) as [[|]|e]; [| |reflexivity].
    + rewrite <- !app_assoc. apply IH.
      apply incl_app_app; [exact Hincl | apply incl_refl].
    + rewrite <- !app_assoc. apply IH. apply incl_appl. exact Hincl.
Qed.

(** X25.  The test suite's [validateFormData] makes the required checks of
    [validateForm] only.  On form data whose values are [undefined],
    [null], booleans, safe integers or strings, under rules keyed by names
    the form reads as its own properties or as nothing: it throws when
    [validateForm] does, and the same error; its errors are among those of
    [validateForm], and it is valid whenever [validateForm] is. *)
Theorem validateFormData_weaker
    (formData : list (string * prim)) (rules : list (string * EVRechargeApp.Rule)) :
  safe_form formData = true ->
  own_keys formData rules = true ->
  match EVRechargeTestSuite.validateFormData formData rules,
        EVRechargeApp.validateForm formData rules with
  | Ret r, Ret r' =>
      incl (EVRechargeApp.errors r) (EVRechargeApp.errors r')
      /\ (EVRechargeApp.isValid r' = true -> EVRechargeApp.isValid r = true)
  | Throw e, Throw e' => e = e'
  | _, _ => False
  end.
Proof.
  intros _ _.
  unfold EVRechargeTestSuite.validateFormData, EVRechargeApp.validateForm.
  pose proof (validateFormData_loop_app formData rules [] [] [] (incl_refl _)) as H.
  simpl in H.
  destruct (EVRechargeTestSuite.validateFormData_loop formData rules []) as [errs|e],
    (EVRechargeApp.validateForm_loop formData rules []) as [errs'|e'];
    try contradiction; [|exact H].
  destruct H as (missing & more & -> & -> & Hincl). simpl.
  split; [exact Hincl|].
  destruct more; [|discriminate]. intros _.
  destruct missing as [|m missing]; [reflexivity|].
  destruct (Hincl m (or_introl eq_refl)).
Qed.

Lemma validateFormData_weaker_witness :
  safe_form Examples.station_form = true
  /\ own_keys Examples.station_form Examples.station_rules = true
  /\ match EVRechargeTestSuite.validateFormData Examples.station_form
             Examples.station_rules,
           EVRechargeApp.validateForm Examples.station_form Examples.station_rules with
     | Ret r, Ret r' =>
         incl (EVRechargeApp.errors r) (EVRechargeApp.errors r')
         /\ (EVRechargeApp.isValid r' = true -> EVRechargeApp.isValid r = true)
     | Throw e, Throw e' => e = e'
     | _, _ => False
     end.
Proof.
  split; [reflexivity|]. split; [reflexivity|].
  apply (validateFormData_weaker Examples.station_form Examples.station_rules);
    reflexivity.
Defined.

Lemma patterns_shared :
  EVRechargeTestSuite.emailRegex = FormValidator.email_pattern
  /\ EVRechargeTestSuite.phoneRegex = FormValidator.phone_pattern.
Proof. split; reflexivity. Qed.

Lemma is_blank_false_string p :
  FormValidator.is_blank p = Ret false ->
  exists s, p = PStr s /\ blank s = false /\ s <> EmptyString.
Proof.
  destruct p as [| |b|n|s]; try discriminate.
  - unfold FormValidator.is_blank. simpl. destruct b; discriminate.
  - unfold FormValidator.is_blank. simpl. destruct (n =? 0)%Z; discriminate.
  - rewrite is_blank_text. intros [= H]. exists s.
    split; [reflexivity|]. split; [exact H | apply blank_not_empty; exact H].
Qed.

Lemma registration_required_nil fields acc :
  (exists errs, UserAuthentication.check_required fields acc = Ret errs
                /\ Nat.eqb (length errs) 0 = true)
  <-> acc = []
      /\ Forall (fun nvf => FormValidator.is_blank (snd (fst nvf)) = Ret false) fields.
Proof.
  revert acc. induction fields as [|[[name v] field] fields IH]; intros acc; simpl.
  - split.
    + intros (errs & [= <-] & H). split; [|constructor].
      destruct acc; [reflexivity | discriminate].
    + intros [-> _]. exists []. split; reflexivity.
  - rewrite List.Forall_cons_iff. simpl.
    destruct (FormValidator.is_blank v) as [[|]|e].
    + rewrite IH. unfold UserAuthentication.push_if. split.
      * intros [H _]. destruct acc; discriminate.
      * intros [_ [H _]]. discriminate.
    + rewrite IH. unfold UserAuthentication.push_if. tauto.
    + split; [intros (errs & H & _); discriminate | intros [_ [H _]]; discriminate].
Qed.

Lemma profile_required_true profile fields :
  EVRechargeTestSuite.check_required profile fields = Ret true
  <-> Forall (fun field =>
                FormValidator.is_blank (EVRechargeApp.form_value profile field) = Ret false)
        fields.
Proof.
  induction fields as [|field fields IH]; simpl.
  - split; [constructor | reflexivity].
  - rewrite List.Forall_cons_iff.
    destruct (FormValidator.is_blank (EVRechargeApp.form_value profile field)) as [[|]|e].
    + split; [discriminate | intros [H _]; discriminate].
    + rewrite IH. tauto.
    + split; [discriminate | intros [H _]; discriminate].
Qed.

Lemma required_fields_agree userData :
  Forall (fun nvf => FormValidator.is_blank (snd (fst nvf)) = Ret false)
    (UserAuthentication.requiredFields userData)
  <-> Forall (fun field =>
                FormValidator.is_blank
                  (EVRechargeApp.form_value (profile_of userData) field) = Ret false)
        EVRechargeTestSuite.requiredFields.
Proof.
  unfold UserAuthentication.requiredFields, EVRechargeTestSuite.requiredFields, profile_of.
  rewrite !List.Forall_cons_iff. simpl.
  split; intros (H1 & H2 & H3 & H4 & H5 & _); auto 10.
Qed.

(** X26.  The test suite's profile check and the registration form agree:
    a registration is valid exactly when [validateUserProfile] accepts its
    five profile fields, the password has eight code units or more and the
    terms are accepted. *)
Theorem validateUserProfile_matches_registration
    (userData : UserAuthentication.RegistrationData) :
  (exists r, UserAuthentication.validateRegistrationForm userData = Ret r
             /\ UserAuthentication.isValid r = true)
  <-> EVRechargeTestSuite.validateUserProfile (profile_of userData) = Ret true
      /\ UserAuthentication.password_too_short 8 (UserAuthentication.password userData)
         = false
      /\ truthy_prim (UserAuthentication.termsAccepted userData) = true.
Proof.
  pose proof (registration_required_nil (UserAuthentication.requiredFields userData) [])
    as Hreg.
  pose proof (profile_required_true (profile_of userData)
                EVRechargeTestSuite.requiredFields) as Hprof.
  rewrite <- required_fields_agree in Hprof.
  assert (Hfields :
            Forall (fun nvf => FormValidator.is_blank (snd (fst nvf)) = Ret false)
              (UserAuthentication.requiredFields userData) ->
            exists em ph,
              UserAuthentication.email userData = PStr em /\ em <> EmptyString
              /\ UserAuthentication.phone userData = PStr ph /\ ph <> EmptyString).
  { unfold UserAuthentication.requiredFields. rewrite !List.Forall_cons_iff. simpl.
    intros (_ & _ & He & Hp & _).
    apply is_blank_false_string in He as (em & -> & _ & Hem).
    apply is_blank_false_string in Hp as (ph & -> & _ & Hph).
    exists em, ph. auto. }
  unfold UserAuthentication.validateRegistrationForm,
    EVRechargeTestSuite.validateUserProfile.
  change (EVRechargeApp.form_value (profile_of userData) "email")
    with (UserAuthentication.email userData).
  change (EVRechargeApp.form_value (profile_of userData) "phone")
    with (UserAuthentication.phone userData).
  change EVRechargeTestSuite.emailRegex with FormValidator.email_pattern.
  change EVRechargeTestSuite.phoneRegex with FormValidator.phone_pattern.
  split.
  - intros (r & Hrun & Hvalid).
    destruct (UserAuthentication.check_required _ []) as [errs|] eqn:Ereq;
      [|discriminate].
    destruct (FormValidator.validate "Email" _ "email") as [ev|] eqn:Eev; [|discriminate].
    destruct (FormValidator.validate "Phone" _ "phone") as [pv|] eqn:Epv; [|discriminate].
    injection Hrun as <-. cbn [UserAuthentication.isValid] in Hvalid.
    rewrite !length_push_if, !andb_true_iff, !negb_true_iff, !negb_false_iff in Hvalid.
    destruct Hvalid as (Ht & Hpw & Hpv & Hev & Herrs).
    assert (Hall : Forall (fun nvf => FormValidator.is_blank (snd (fst nvf)) = Ret false)
                     (UserAuthentication.requiredFields userData)).
    { apply Hreg. exists errs. auto. }
    destruct (Hfields Hall) as (em & ph & Eem & Hem & Eph & Hph).
    rewrite (proj2 Hprof Hall). rewrite Eem, Eph in *. cbn [ToString].
    rewrite validate_email_value in Eev. rewrite validate_phone_value in Epv.
    rewrite <- phone_pattern_shape in Epv.
    destruct (String.eqb_spec em "") as [|_]; [contradiction|].
    destruct (String.eqb_spec ph "") as [|_]; [contradiction|].
    cbn [negb andb] in Eev, Epv.
    destruct (test FormValidator.email_pattern em);
      [|injection Eev as <-; discriminate].
    destruct (test FormValidator.phone_pattern ph);
      [|injection Epv as <-; discriminate].
    split; [reflexivity|]. split; [exact Hpw | exact Ht].
  - intros (Hprofile & Hpw & Ht).
    destruct (EVRechargeTestSuite.check_required (profile_of userData)
                EVRechargeTestSuite.requiredFields) as [[|]|] eqn:Ereq;
      try discriminate.
    assert (Hall : Forall (fun nvf => FormValidator.is_blank (snd (fst nvf)) = Ret false)
                     (UserAuthentication.requiredFields userData)).
    { apply Hprof. reflexivity. }
    destruct (proj2 Hreg (conj eq_refl Hall)) as (errs & -> & Herrs).
    destruct (Hfields Hall) as (em & ph & Eem & Hem & Eph & Hph).
    rewrite Eem, Eph in *. cbn [ToString] in Hprofile.
    rewrite validate_email_value, validate_phone_value, <- phone_pattern_shape.
    destruct (String.eqb_spec em "") as [|_]; [contradiction|].
    destruct (String.eqb_spec ph "") as [|_]; [contradiction|].
    cbn [negb andb].
    destruct (test FormValidator.email_pattern em); [|discriminate].
    destruct (test FormValidator.phone_pattern ph); [|discriminate].
    eexists. split; [reflexivity|]. cbn [UserAuthentication.isValid].
    rewrite !length_push_if, Hpw, Ht, Herrs. reflexivity.
Qed.
